(** * Transaction decoding and execution scripts of stablecoin-aptos

    A shallow embedding of
    - [scripts/typescript/decodeTransaction.ts] (argument decoder registry,
      [TwoLevelMoveVector], [convertMoveVectorU8ToHex], [decodeTransaction]);
    - [scripts/typescript/executeTransaction.ts] ([executeTransaction]).

    Both scripts are thin layers over the Aptos TypeScript SDK.  The BCS
    primitives the argument decoders call ([Deserializer], [MoveVector],
    [AccountAddress], [Hex]) are modelled in [Module Bcs]; the SDK entry
    points that parse whole envelopes, keys and signatures, and the network
    client, are interfaces ([Sdk], [AptosClient]) so that every theorem
    about the scripts holds for whatever the SDK does. *)

From Stdlib Require Import String Ascii Arith NArith List Bool Lia.
From Stdlib Require Import Strings.Byte DecimalString.
Import ListNotations.

Set Implicit Arguments.

(** ** Errors

    JavaScript exceptions are values of [Error]; a throwing computation
    returns [Err].  Each constructor names the [throw] it stands for. *)

Inductive Error : Type :=
| HexParsingError          (* Hex.fromHexString: ParsingError *)
| BufferUnderrun           (* Deserializer.read: "Reached to the end of buffer" *)
| MalformedVarint          (* "Overflow while parsing uleb128-encoded uint32 value" *)
| NotAFunction             (* TypeError: calling [undefined] as a function *)
| UnsupportedPayloadType   (* "Only transactions with entry function payloads are supported." *)
| MissingSignature         (* "Missing required signature for transaction execution!" *)
| ArgumentCountMismatch    (* listed in the error taxonomy; no statement of the scripts throws it *)
| SdkError (code : N)      (* any other exception thrown inside the SDK *)
| FileSystemError (code : N) (* fs.writeFileSync throws (EISDIR, ENOENT, ...) *)
| NetworkFailure (code : N). (* rejection of a network request *)

Inductive Result (A : Type) : Type :=
| Ok (a : A)
| Err (e : Error).

Arguments Ok {A} a.
Arguments Err {A} e.

Definition bind {A B} (c : Result A) (k : A -> Result B) : Result B :=
  match c with
  | Ok a => k a
  | Err e => Err e
  end.

Declare Scope result_scope.
Delimit Scope result_scope with result.
Notation "x <- c ;; k" := (bind c (fun x => k))
  (at level 61, c at next level, right associativity) : result_scope.
Notation "' p <- c ;; k" := (bind c (fun x => let p := x in k))
  (at level 61, p pattern, c at next level, right associativity) : result_scope.

Definition isOk {A} (r : Result A) : bool :=
  match r with Ok _ => true | Err _ => false end.

(** ** BCS primitives of the SDK used by the argument decoders *)

Module Bcs.

Local Open Scope N_scope.
Local Open Scope result_scope.

Definition bytes := list byte.

(** [Number -> Uint8] for values already in range. *)
Definition byte_of_N (n : N) : byte :=
  match Byte.of_N n with
  | Some b => b
  | None => x00
  end.

Definition MAX_U32_NUMBER : N := 4294967295.

(** *** Hex rendering: [Buffer.from(bytes).toString("hex")] and [Hex.toString] *)

Definition hexDigit (n : N) : ascii :=
  match n with
  | 0 => "0" | 1 => "1" | 2 => "2" | 3 => "3"
  | 4 => "4" | 5 => "5" | 6 => "6" | 7 => "7"
  | 8 => "8" | 9 => "9" | 10 => "a" | 11 => "b"
  | 12 => "c" | 13 => "d" | 14 => "e" | _ => "f"
  end%char.

Fixpoint bytesToHex (bs : bytes) : string :=
  match bs with
  | [] => EmptyString
  | b :: rest =>
      String (hexDigit (Byte.to_N b / 16))
        (String (hexDigit (Byte.to_N b mod 16)) (bytesToHex rest))
  end.

(** [`0x${...}`] *)
Definition with0x (s : string) : string := String "0" (String "x" s).

(** *** Deserializer

    The SDK's [Deserializer] is a buffer with a read offset that only moves
    forward; it is represented by the bytes not yet read. *)

Definition Deserializer := bytes.

Definition deserializeU8 (d : Deserializer) : Result (byte * Deserializer) :=
  match d with
  | [] => Err BufferUnderrun
  | b :: rest => Ok (b, rest)
  end.

Definition deserializeFixedBytes (len : nat) (d : Deserializer)
  : Result (bytes * Deserializer) :=
  if Nat.ltb (length d) len then Err BufferUnderrun
  else Ok (firstn len d, skipn len d).

(** [deserializeUleb128AsU32]:
<<
    let value = 0n, shift = 0;
    while (value < MAX_U32_NUMBER) {
      const byte = this.deserializeU8();
      value |= BigInt(byte & 0x7f) << BigInt(shift);
      if ((byte & 0x80) === 0) break;
      shift += 7;
    }
    if (value > MAX_U32_NUMBER) throw ...;
    return Number(value);
>>
    Every iteration consumes one byte, so the loop is a structural recursion
    on the unread bytes. *)

Definition uleb128_finish (value : N) (d : Deserializer)
  : Result (N * Deserializer) :=
  if MAX_U32_NUMBER <? value then Err MalformedVarint else Ok (value, d).

Fixpoint uleb128_loop (d : Deserializer) (value shift : N)
  : Result (N * Deserializer) :=
  if value <? MAX_U32_NUMBER then
    match d with
    | [] => Err BufferUnderrun
    | b :: rest =>
        let byte := Byte.to_N b in
        let value' := N.lor value (N.shiftl (N.land byte 127) shift) in
        if N.land byte 128 =? 0 then uleb128_finish value' rest
        else uleb128_loop rest value' (shift + 7)
    end
  else uleb128_finish value d.

Definition deserializeUleb128AsU32 (d : Deserializer)
  : Result (N * Deserializer) :=
  uleb128_loop d 0 0.

(** *** Serializer side (used to state what "the encoding of" a value is)

    [serializeU32AsUleb128]:
<<
    while (value >>> 7 !== 0) { push((value & 0x7f) | 0x80); value >>>= 7; }
    push(value);
>>
    A 32-bit value leaves the loop after at most four rounds. *)

Fixpoint uleb128_push (rounds : nat) (value : N) : bytes :=
  match rounds with
  | O => [byte_of_N value]
  | S r =>
      if N.shiftr value 7 =? 0 then [byte_of_N value]
      else byte_of_N (N.lor (N.land value 127) 128)
             :: uleb128_push r (N.shiftr value 7)
  end.

Definition serializeU32AsUleb128 (val : N) : bytes := uleb128_push 5 val.

(** *** Move values *)

Record U8 : Type := mkU8 { u8_value : byte }.

Record MoveVector (T : Type) : Type := mkMoveVector { values : list T }.

Definition Deserializable (T : Type) : Type :=
  Deserializer -> Result (T * Deserializer).

Definition U8_deserialize : Deserializable U8 :=
  fun d => '(b, d') <- deserializeU8 d ;; Ok (mkU8 b, d').

(** [for (let i = 0; i < length; i += 1) values.push(cls.deserialize(deserializer))] *)
Fixpoint deserializeMany {T} (cls : Deserializable T) (length : nat)
    (d : Deserializer) : Result (list T * Deserializer) :=
  match length with
  | O => Ok ([], d)
  | S n =>
      '(v, d1) <- cls d ;;
      '(vs, d2) <- deserializeMany cls n d1 ;;
      Ok (v :: vs, d2)
  end.

(** [MoveVector.deserialize(deserializer, cls)] *)
Definition MoveVector_deserialize {T} (cls : Deserializable T)
  : Deserializable (MoveVector T) :=
  fun d =>
    '(length, d1) <- deserializeUleb128AsU32 d ;;
    '(vs, d2) <- deserializeMany cls (N.to_nat length) d1 ;;
    Ok (mkMoveVector vs, d2).

(** [MoveVector.serialize]: the ULEB128 element count, then each element. *)
Definition MoveVector_serialize {T} (ser : T -> bytes) (v : MoveVector T)
  : bytes :=
  serializeU32AsUleb128 (N.of_nat (length (values v)))
    ++ concat (map ser (values v)).

Definition U8_serialize (u : U8) : bytes := [u8_value u].

(** [serializeU32AsUleb128] accepts counts up to [MAX_U32_NUMBER]: these
    are the vectors that have an encoding. *)
Definition fitsU32 {T} (v : MoveVector T) : Prop :=
  N.of_nat (length (values v)) <= MAX_U32_NUMBER.

(** [MoveVector.U8(bytes)] *)
Definition MoveVector_U8 (bs : bytes) : MoveVector U8 :=
  mkMoveVector (map mkU8 bs).

(** *** Account addresses *)

Definition AccountAddress_LENGTH : nat := 32.

Record AccountAddress : Type := mkAccountAddress { data : bytes }.

Definition AccountAddress_deserialize : Deserializable AccountAddress :=
  fun d =>
    '(bs, d') <- deserializeFixedBytes AccountAddress_LENGTH d ;;
    Ok (mkAccountAddress bs, d').

(** [isSpecial]: all bytes but the last are zero and the last is below 16. *)
Definition isSpecial (a : AccountAddress) : bool :=
  forallb (fun b => Byte.to_N b =? 0) (removelast (data a))
  && (Byte.to_N (last (data a) x00) <? 16).

(** [toString]: special addresses print in short form, the others in full. *)
Definition AccountAddress_toString (a : AccountAddress) : string :=
  with0x
    (if isSpecial a
     then String (hexDigit (Byte.to_N (last (data a) x00))) EmptyString
     else bytesToHex (data a)).

End Bcs.

(** ** SDK data types the scripts read *)

Module Aptos.

Import Bcs.
Local Open Scope string_scope.

(** [Hex]: the value returned by [Hex.fromHexString] and [bcsToHex]. *)
Record Hex : Type := mkHex { toUint8Array : bytes }.

Definition Hex_toString (h : Hex) : string :=
  with0x (bytesToHex (toUint8Array h)).

Record FixedBytes : Type := mkFixedBytes { fb_value : bytes }.

(** An entry-function argument as it leaves [EntryFunction.deserialize]:
    the argument's bytes, undecoded, without their length prefix. *)
Record EntryFunctionBytes : Type :=
  mkEntryFunctionBytes { efb_value : FixedBytes }.

(** [bcsToHex()] of an [EntryFunctionBytes] serialises the wrapped
    [FixedBytes], which writes its bytes as they are. *)
Definition EntryFunctionBytes_bcsToHex (a : EntryFunctionBytes) : Hex :=
  mkHex (fb_value (efb_value a)).

#[warnings="-register-all"]
Inductive TypeTag : Type :=
| TypeTagBool | TypeTagU8 | TypeTagU16 | TypeTagU32 | TypeTagU64
| TypeTagU128 | TypeTagU256 | TypeTagAddress | TypeTagSigner
| TypeTagVector (value : TypeTag)
| TypeTagStruct (address : AccountAddress) (moduleName name : string)
                (typeArgs : list TypeTag).

Fixpoint join (sep : string) (l : list string) : string :=
  match l with
  | [] => ""
  | [s] => s
  | s :: rest => s ++ sep ++ join sep rest
  end.

Fixpoint TypeTag_toString (t : TypeTag) : string :=
  match t with
  | TypeTagBool => "bool" | TypeTagU8 => "u8" | TypeTagU16 => "u16"
  | TypeTagU32 => "u32" | TypeTagU64 => "u64" | TypeTagU128 => "u128"
  | TypeTagU256 => "u256" | TypeTagAddress => "address"
  | TypeTagSigner => "signer"
  | TypeTagVector v => "vector<" ++ TypeTag_toString v ++ ">"
  | TypeTagStruct a m n targs =>
      AccountAddress_toString a ++ "::" ++ m ++ "::" ++ n ++
      match targs with
      | [] => ""
      | _ => "<" ++ join ", " (map TypeTag_toString targs) ++ ">"
      end
  end.

Record ModuleId : Type := mkModuleId {
  address : AccountAddress;
  name : string                       (* [name.identifier] *)
}.

Record EntryFunction : Type := mkEntryFunction {
  module_name : ModuleId;
  function_name : string;             (* [function_name.identifier] *)
  type_args : list TypeTag;
  args : list EntryFunctionBytes
}.

(** [TransactionPayload] and its three subclasses; the scripts look inside
    the entry-function subclass only. *)
Inductive TransactionPayload : Type :=
| TransactionPayloadScript (script : bytes)
| TransactionPayloadEntryFunction (entryFunction : EntryFunction)
| TransactionPayloadMultiSig (multiSig : bytes).

Record RawTransaction : Type := mkRawTransaction {
  sender : AccountAddress;
  sequence_number : N;
  payload : TransactionPayload;
  max_gas_amount : N;
  gas_unit_price : N;
  expiration_timestamp_secs : N;
  chain_id : N
}.

Record SimpleTransaction : Type := mkSimpleTransaction {
  rawTransaction : RawTransaction;
  feePayerAddress : option AccountAddress
}.

(** *** Keys, signatures and authenticators *)

Record Ed25519PublicKey : Type := mkEd25519PublicKey { key : bytes }.
Record Ed25519Signature : Type := mkEd25519Signature { sig_data : bytes }.

Inductive AnyPublicKey : Type :=
| AnyPublicKeyEd25519 (pk : Ed25519PublicKey)
| AnyPublicKeyOther (variant : N) (raw : bytes).

Inductive AnySignature : Type :=
| AnySignatureEd25519 (s : Ed25519Signature)
| AnySignatureOther (variant : N) (raw : bytes).

(** [MultiKey]: the ordered member keys and the threshold. *)
Record MultiKey : Type := mkMultiKey {
  publicKeys : list AnyPublicKey;
  signaturesRequired : N
}.

(** [MultiKeySignature]: the supplied signatures and a 32-bit bitmap whose
    set bits, most significant bit of byte 0 first, are the member indices
    the signatures belong to. *)
Record MultiKeySignature : Type := mkMultiKeySignature {
  signatures : list AnySignature;
  bitmap : bytes
}.

(** The script's variable [signerPublicKey: PublicKey]. *)
Inductive PublicKey : Type :=
| PublicKeyMultiKey (k : MultiKey)
| PublicKeyEd25519 (k : Ed25519PublicKey).

(** The two authenticator classes the script instantiates.  [as MultiKey]
    and [as Ed25519PublicKey] are compile-time casts: the constructors
    receive the [signerPublicKey] object as it is and store their two
    arguments. *)
Inductive AccountAuthenticator : Type :=
| AccountAuthenticatorMultiKey (public_keys : PublicKey)
                               (sigs : MultiKeySignature)
| AccountAuthenticatorEd25519 (public_key : PublicKey)
                              (signature : Ed25519Signature).

(** Member indices named by a bitmap: bit [i] is bit [7 - i mod 8] of byte
    [i / 8]. *)
Definition bitmapBit (bm : bytes) (i : nat) : bool :=
  N.testbit (Byte.to_N (nth (Nat.div i 8) bm x00))
            (N.of_nat (7 - Nat.modulo i 8)).

Definition signerIndices (bm : bytes) : list nat :=
  filter (bitmapBit bm) (seq 0 (8 * length bm)).

(** *** Network responses *)

Record UserTransactionResponse : Type := mkUserTransactionResponse {
  sim_hash : string;
  sim_success : bool;
  sim_gas_used : N
}.

Record PendingTransactionResponse : Type :=
  mkPendingTransactionResponse { hash : string }.

Record CommittedTransactionResponse : Type := mkCommittedTransactionResponse {
  committed_hash : string;
  committed_success : bool;
  committed_version : N
}.

(** *** Interfaces

    [Sdk]: the SDK's parsers of whole objects.  Each consumes a fresh
    [Deserializer] over the given bytes and returns the object or throws. *)
Class Sdk : Type := {
  Hex_fromHexString : string -> Result Hex;
  SimpleTransaction_deserialize : Deserializer -> Result SimpleTransaction;
  MultiKey_deserialize : Deserializer -> Result MultiKey;
  Ed25519PublicKey_deserialize : Deserializer -> Result Ed25519PublicKey;
  MultiKeySignature_deserialize : Deserializer -> Result MultiKeySignature;
  Ed25519Signature_deserialize : Deserializer -> Result Ed25519Signature
}.

(** [Host]: [REPOSITORY_ROOT] of [./utils] and Node's [path.join]. *)
Class Host : Type := {
  REPOSITORY_ROOT : string;
  path_join : string -> string -> string
}.

(** [AptosClient]: the client [getAptosClient(rpcUrl)] returns.  A request
    reads and updates the state of the network, [Net], and resolves or
    rejects. *)
Class AptosClient (Net : Type) : Type := {
  simulate_simple :
    string -> SimpleTransaction -> PublicKey -> Net ->
    Result (list UserTransactionResponse) * Net;
  submit_simple :
    string -> SimpleTransaction -> AccountAuthenticator -> Net ->
    Result PendingTransactionResponse * Net;
  waitForTransaction :
    string -> string -> Net -> Result CommittedTransactionResponse * Net
}.

End Aptos.

(** ** Effects

    A script runs against a world [W] (console, file system, network),
    may change it, and returns or throws.  A thrown error ends the run: the
    continuation of [mbind] is not entered. *)

Module Eff.

Definition M (W A : Type) : Type := W -> Result A * W.

Definition ret {W A} (a : A) : M W A := fun w => (Ok a, w).

Definition throw {W A} (e : Error) : M W A := fun w => (Err e, w).

Definition lift {W A} (r : Result A) : M W A := fun w => (r, w).

Definition mbind {W A B} (c : M W A) (k : A -> M W B) : M W B :=
  fun w =>
    match c w with
    | (Ok a, w') => k a w'
    | (Err e, w') => (Err e, w')
    end.

Declare Scope eff_scope.
Delimit Scope eff_scope with eff.
Notation "x <- c ;; k" := (mbind c (fun x => k))
  (at level 61, c at next level, right associativity) : eff_scope.
Notation "c1 ;; c2" := (mbind c1 (fun _ => c2))
  (at level 61, right associativity) : eff_scope.

End Eff.

(** ** decodeTransaction.ts *)

Module Decode.

Import Bcs Aptos Eff.
Local Open Scope string_scope.

(** A decoded argument ([any] in the source): a string or an array of
    strings. *)
Inductive DecodedArgument : Type :=
| ArgString (s : string)
| ArgStrings (l : list string).

(** [convertMoveVectorU8ToHex] *)
Definition convertMoveVectorU8ToHex (moveVector : MoveVector U8) : string :=
  let byteArray := map u8_value (values moveVector) in
  with0x (bytesToHex byteArray).

(** [TwoLevelMoveVector.deserialize] *)
Definition TwoLevelMoveVector_deserialize {T} (cls : Deserializable T)
  : Deserializable (MoveVector (MoveVector T)) :=
  fun deserializer =>
    bind (deserializeUleb128AsU32 deserializer) (fun '(length, d1) =>
    bind (deserializeMany (MoveVector_deserialize cls) (N.to_nat length) d1)
         (fun '(values, d2) =>
    Ok (mkMoveVector values, d2))).

(** A decoder gets [arg.value], the [FixedBytes] of the raw argument, and
    opens a new [Deserializer] on its bytes; what the deserializer has left
    unread when the decoder returns is dropped. *)
Definition ArgumentDecoder : Type := FixedBytes -> Result DecodedArgument.

Definition decodeAddress : ArgumentDecoder :=
  fun arg =>
    bind (AccountAddress_deserialize (fb_value arg)) (fun '(a, _) =>
    Ok (ArgString (AccountAddress_toString a))).

Definition decodeVectorU8 : ArgumentDecoder :=
  fun arg =>
    bind (MoveVector_deserialize U8_deserialize (fb_value arg))
         (fun '(vector, _) =>
    Ok (ArgString (convertMoveVectorU8ToHex vector))).

Definition decodeVectorVectorU8 : ArgumentDecoder :=
  fun arg =>
    bind (TwoLevelMoveVector_deserialize U8_deserialize (fb_value arg))
         (fun '(vector, _) =>
    Ok (ArgStrings (map convertMoveVectorU8ToHex (values vector)))).

(** [argumentDecoders]: the object literal, its keys in insertion order. *)
Definition argumentDecoders : list (string * list ArgumentDecoder) :=
  [ ("upgradePackage",
     [ decodeAddress;            (* resource_acct: address *)
       decodeVectorU8;           (* metadata_serialized: vector<u8> *)
       decodeVectorVectorU8 ])   (* code: vector<vector<u8>> *)
  ].

(** [Object.keys(argumentDecoders)] *)
Definition keys {V} (o : list (string * V)) : list string := map fst o.

(** [array.includes(x)] *)
Definition includes (l : list string) (x : string) : bool :=
  existsb (String.eqb x) l.

(** [argumentDecoders[functionName]] *)
Fixpoint lookup {V} (o : list (string * V)) (k : string) : option V :=
  match o with
  | [] => None
  | (k', v) :: rest => if String.eqb k k' then Some v else lookup rest k
  end.

(** [argumentDecoders[functionName][i](arg.value)]: indexing past the end
    of the decoder array gives [undefined], and calling it throws. *)
Definition applyDecoder (functionName : string) (i : nat)
    (arg : EntryFunctionBytes) : Result DecodedArgument :=
  match lookup argumentDecoders functionName with
  | None => Err NotAFunction
  | Some decoders =>
      match nth_error decoders i with
      | None => Err NotAFunction
      | Some decoder => decoder (efb_value arg)
      end
  end.

(** [array.map((x, i) => f(x, i))] for a callback that may throw: elements
    are visited from index 0 up and the first exception ends the call. *)
Fixpoint mapi_from {A B} (f : A -> nat -> Result B) (i : nat) (l : list A)
  : Result (list B) :=
  match l with
  | [] => Ok []
  | x :: rest =>
      bind (f x i) (fun y =>
      bind (mapi_from f (S i) rest) (fun ys =>
      Ok (y :: ys)))
  end.

Definition mapi {A B} (f : A -> nat -> Result B) (l : list A)
  : Result (list B) :=
  mapi_from f 0 l.

(** [functionName != null && Object.keys(argumentDecoders).includes(functionName)] *)
Definition isArgDecoderSupportedForFunction (functionName : option string)
  : bool :=
  match functionName with
  | None => false
  | Some fn => includes (keys argumentDecoders) fn
  end.

(** [(arg) => arg.bcsToHex().toString()] *)
Definition rawHex (arg : EntryFunctionBytes) : DecodedArgument :=
  ArgString (Hex_toString (EntryFunctionBytes_bcsToHex arg)).

(** Lines 77-92: the value of [args]. *)
Definition decodeArguments (functionName : option string)
    (txPayloadArguments : list EntryFunctionBytes)
  : Result (list DecodedArgument) :=
  match functionName with
  | Some fn =>
      if isArgDecoderSupportedForFunction functionName
      then mapi (fun arg i => applyDecoder fn i arg) txPayloadArguments
      else Ok (map rawHex txPayloadArguments)
  | None => Ok (map rawHex txPayloadArguments)
  end.

Record DecodedPayload : Type := mkDecodedPayload {
  p_function : string;
  p_typeArgs : list string;
  p_args : list DecodedArgument
}.

(** [decodedTx]; [JSON.stringify] leaves out [feePayer] when it is
    [undefined]. *)
Record DecodedTx : Type := mkDecodedTx {
  d_sender : string;
  d_sequenceNumber : string;
  d_maxGasAmount : string;
  d_gasUnitPrice : string;
  d_expirationTimestampSecs : string;
  d_chainId : string;
  d_feePayer : option string;
  d_payload : DecodedPayload
}.

(** What the script does to the outside: console lines and file writes.
    [WriteFileSync path tx] is the call
    [fs.writeFileSync(path, JSON.stringify(tx, null, 2))]. *)
Inductive Event : Type :=
| ConsoleLog (message : string)
| WriteFileSync (path : string) (decodedTx : DecodedTx).

Definition World : Type := list Event.

Definition emit (e : Event) : M World unit := fun w => (Ok tt, (w ++ [e])%list).

(** Node's [fs]: a call of [writeFileSync] returns, or throws (the path is
    a directory, its folder is missing, the disk is full, ...).  The script
    makes one call in a run, so what the file system answers is fixed by
    the path and the data. *)
Class FileSystem : Type := {
  writeFileSync : string -> DecodedTx -> Result unit
}.

(** A call that may throw: the call is made, then its answer is returned
    or rethrown. *)
Definition call {A} (e : Event) (answer : Result A) : M World A :=
  fun w => (answer, (w ++ [e])%list).

(** [bigint.toString()] and [number.toString()] on naturals. *)
Definition N_toString (n : N) : string :=
  DecimalString.NilZero.string_of_uint (N.to_uint n).

Definition noteMessage : string :=
  "NOTE: Argument decoding is either disabled or is unsupported for the entry function called. The decoded transaction will return the arguments as its raw BCS-serialized bytes.".

Definition ESC : string := String (ascii_of_nat 27) "".

Definition savedMessage (outputFilePath : string) : string :=
  ESC ++ "[32mTransaction successfully decoded and saved to: '"
      ++ outputFilePath ++ "'" ++ ESC ++ "[0m".

(** Lines 95-109: the object literal [decodedTx]. *)
Definition decodedTxOf (tx : SimpleTransaction) (txPayload : EntryFunction)
    (args : list DecodedArgument) : DecodedTx :=
  {| d_sender := AccountAddress_toString (sender (rawTransaction tx));
     d_sequenceNumber := N_toString (sequence_number (rawTransaction tx));
     d_maxGasAmount := N_toString (max_gas_amount (rawTransaction tx));
     d_gasUnitPrice := N_toString (gas_unit_price (rawTransaction tx));
     d_expirationTimestampSecs :=
       N_toString (expiration_timestamp_secs (rawTransaction tx));
     d_chainId := N_toString (chain_id (rawTransaction tx));
     d_feePayer := option_map AccountAddress_toString (feePayerAddress tx);
     d_payload :=
       {| p_function :=
            AccountAddress_toString (address (module_name txPayload))
              ++ "::" ++ name (module_name txPayload)
              ++ "::" ++ function_name txPayload;
          p_typeArgs := map TypeTag_toString (type_args txPayload);
          p_args := args |} |}.

Definition isWrite (e : Event) : bool :=
  match e with WriteFileSync _ _ => true | ConsoleLog _ => false end.

(** The file writes among the events. *)
Definition writes (w : World) : list Event := filter isWrite w.

(** The [args] of each record written, in order. *)
Definition writtenArgs (w : World) : list (list DecodedArgument) :=
  flat_map (fun e =>
              match e with
              | WriteFileSync _ decodedTx => [p_args (d_payload decodedTx)]
              | ConsoleLog _ => []
              end) w.

Section Script.

Context {sdk : Sdk} {host : Host} {fs : FileSystem}.

Local Open Scope eff_scope.

Definition decodeTransaction (txBytes output : string)
    (functionName : option string) : M World unit :=
  hex <- lift (Hex_fromHexString txBytes) ;;
  tx <- lift (SimpleTransaction_deserialize (toUint8Array hex)) ;;
  match payload (rawTransaction tx) with
  | TransactionPayloadEntryFunction txPayload =>
      let txPayloadArguments := Aptos.args txPayload in
      (if isArgDecoderSupportedForFunction functionName
       then ret tt
       else emit (ConsoleLog noteMessage)) ;;
      args <- lift (decodeArguments functionName txPayloadArguments) ;;
      let decodedTx := decodedTxOf tx txPayload args in
      let outputFilePath := path_join REPOSITORY_ROOT output in
      emit (ConsoleLog (savedMessage outputFilePath)) ;;
      call (WriteFileSync outputFilePath decodedTx)
           (writeFileSync outputFilePath decodedTx)
  | _ => throw UnsupportedPayloadType
  end.

(** The events of a run whose arguments decode: the NOTE line when no
    decoder list applies, then the success line and the call of
    [writeFileSync]. *)
Definition note (functionName : option string) : list Event :=
  if isArgDecoderSupportedForFunction functionName then []
  else [ConsoleLog noteMessage].

Definition saved (output : string) (decodedTx : DecodedTx) : list Event :=
  [ ConsoleLog (savedMessage (path_join REPOSITORY_ROOT output));
    WriteFileSync (path_join REPOSITORY_ROOT output) decodedTx ].

End Script.

End Decode.

(** ** executeTransaction.ts *)

Module Execute.

Import Bcs Aptos Eff.
Local Open Scope string_scope.

(** What [executeTransaction] resolves to: the simulation's responses, or
    the committed transaction. *)
Inductive Outcome : Type :=
| SimulationResult (result : list UserTransactionResponse)
| CommittedResult (result : CommittedTransactionResponse).

(** Console lines and network requests, in the order they are made.
    [ConsoleLogInspect r] is [console.log(inspect(r, false, 8, true))]. *)
Inductive Event : Type :=
| ConsoleLog (message : string)
| ConsoleLogInspect (result : Outcome)
| Simulate (rpcUrl : string) (transaction : SimpleTransaction)
           (signerPublicKey : PublicKey)
| Submit (rpcUrl : string) (transaction : SimpleTransaction)
         (senderAuthenticator : AccountAuthenticator)
| WaitForTransaction (rpcUrl : string) (transactionHash : string).

Record World (Net : Type) : Type := mkWorld {
  network : Net;
  trace : list Event
}.

(** JavaScript truthiness of an optional boolean option. *)
Definition truthy (flag : option bool) : bool :=
  match flag with
  | Some true => true
  | _ => false
  end.

Definition isNetworkCall (e : Event) : bool :=
  match e with
  | Simulate _ _ _ | Submit _ _ _ | WaitForTransaction _ _ => true
  | _ => false
  end.

Definition isSimulate (e : Event) : bool :=
  match e with Simulate _ _ _ => true | _ => false end.

Definition isSubmit (e : Event) : bool :=
  match e with Submit _ _ _ => true | _ => false end.

Definition isWait (e : Event) : bool :=
  match e with WaitForTransaction _ _ => true | _ => false end.

Definition networkCalls (t : list Event) : list Event :=
  filter isNetworkCall t.

Section Script.

Context {sdk : Sdk} {Net : Type} {client : AptosClient Net}.

Local Open Scope eff_scope.

Definition emit (e : Event) : M (World Net) unit :=
  fun w => (Ok tt, mkWorld (network w) (trace w ++ [e])%list).

(** [await aptos.<request>(...)]: the request is made, the network answers,
    and a rejection is rethrown. *)
Definition await {A} (e : Event) (request : Net -> Result A * Net)
  : M (World Net) A :=
  fun w =>
    let (r, n) := request (network w) in
    (r, mkWorld n (trace w ++ [e])%list).

(** [new Deserializer(Hex.fromHexString(s).toUint8Array())] *)
Definition deserializerOfHex (s : string) : Result Deserializer :=
  bind (Hex_fromHexString s) (fun h => Ok (toUint8Array h)).

(** Lines 79-88: [signerPublicKey]. *)
Definition parseSignerPublicKey (multiSig : option bool) (publicKey : string)
  : Result PublicKey :=
  if truthy multiSig then
    bind (deserializerOfHex publicKey) (fun d =>
    bind (MultiKey_deserialize d) (fun k => Ok (PublicKeyMultiKey k)))
  else
    bind (deserializerOfHex publicKey) (fun d =>
    bind (Ed25519PublicKey_deserialize d) (fun k => Ok (PublicKeyEd25519 k))).

(** Lines 107-123: [senderAuthenticator], for a signature that is present. *)
Definition buildAuthenticator (multiSig : option bool)
    (signerPublicKey : PublicKey) (signature : string)
  : Result AccountAuthenticator :=
  if truthy multiSig then
    bind (deserializerOfHex signature) (fun d =>
    bind (MultiKeySignature_deserialize d) (fun s =>
    Ok (AccountAuthenticatorMultiKey signerPublicKey s)))
  else
    bind (deserializerOfHex signature) (fun d =>
    bind (Ed25519Signature_deserialize d) (fun s =>
    Ok (AccountAuthenticatorEd25519 signerPublicKey s))).

(** The authenticator as a function of the three command-line values it is
    made from: lines 79-88 followed by lines 107-123. *)
Definition build (multiSig : option bool) (publicKey signature : string)
  : Result AccountAuthenticator :=
  bind (parseSignerPublicKey multiSig publicKey) (fun signerPublicKey =>
  buildAuthenticator multiSig signerPublicKey signature).

(** Lines 75-88: [transaction] and [signerPublicKey], the two values both
    branches of the script start from. *)
Definition prepare (txBytes publicKey : string) (multiSig : option bool)
  : Result (SimpleTransaction * PublicKey) :=
  bind (deserializerOfHex txBytes) (fun d =>
  bind (SimpleTransaction_deserialize d) (fun transaction =>
  bind (parseSignerPublicKey multiSig publicKey) (fun signerPublicKey =>
  Ok (transaction, signerPublicKey)))).

(** [executeTransaction].  [getAptosClient(rpcUrl)] only builds the client
    object; the requests made through it carry [rpcUrl]. *)
Definition executeTransaction (rpcUrl txBytes publicKey : string)
    (signature : option string) (multiSig dryRun : option bool)
  : M (World Net) Outcome :=
  d <- lift (deserializerOfHex txBytes) ;;
  transaction <- lift (SimpleTransaction_deserialize d) ;;
  signerPublicKey <- lift (parseSignerPublicKey multiSig publicKey) ;;
  if truthy dryRun then
    emit (ConsoleLog "Dry running transaction...") ;;
    result <- await (Simulate rpcUrl transaction signerPublicKey)
                    (simulate_simple rpcUrl transaction signerPublicKey) ;;
    emit (ConsoleLogInspect (SimulationResult result)) ;;
    ret (SimulationResult result)
  else
    emit (ConsoleLog "Executing transaction...") ;;
    match signature with
    | None => throw MissingSignature
    | Some signature =>
        senderAuthenticator <-
          lift (buildAuthenticator multiSig signerPublicKey signature) ;;
        initialTxOutput <-
          await (Submit rpcUrl transaction senderAuthenticator)
                (submit_simple rpcUrl transaction senderAuthenticator) ;;
        result <-
          await (WaitForTransaction rpcUrl (hash initialTxOutput))
                (waitForTransaction rpcUrl (hash initialTxOutput)) ;;
        emit (ConsoleLogInspect (CommittedResult result)) ;;
        ret (CommittedResult result)
    end.

End Script.

End Execute.

(** ** A model of the SDK parsers

    An instance of [Sdk] that follows the BCS layout of the SDK's classes.
    The theorems about the scripts do not depend on it; it gives them
    concrete inputs to run on. *)

Module SdkModel.

Import Bcs Aptos.
Local Open Scope N_scope.

(** Parsers thread the deserializer. *)
Definition pbind {A B} (p : Deserializable A) (k : A -> Deserializable B)
  : Deserializable B :=
  fun d =>
    match p d with
    | Ok (a, d') => k a d'
    | Err e => Err e
    end.

Definition pret {A} (a : A) : Deserializable A := fun d => Ok (a, d).

Definition pfail {A} (e : Error) : Deserializable A := fun _ => Err e.

Declare Scope parser_scope.
Delimit Scope parser_scope with parser.
Notation "x <- c ;; k" := (pbind c (fun x => k))
  (at level 61, c at next level, right associativity) : parser_scope.
Local Open Scope parser_scope.

(** *** [Hex.fromHexString] *)

Definition hexValue (c : ascii) : option N :=
  let n := N_of_ascii c in
  if (48 <=? n) && (n <=? 57) then Some (n - 48)
  else if (97 <=? n) && (n <=? 102) then Some (n - 87)
  else if (65 <=? n) && (n <=? 70) then Some (n - 55)
  else None.

Fixpoint hexToBytes (s : string) : option bytes :=
  match s with
  | EmptyString => Some []
  | String hi (String lo rest) =>
      match hexValue hi, hexValue lo, hexToBytes rest with
      | Some h, Some l, Some bs => Some (byte_of_N (16 * h + l) :: bs)
      | _, _, _ => None
      end
  | String _ EmptyString => None
  end.

Definition strip0x (s : string) : string :=
  match s with
  | String "0" (String "x" rest) => rest
  | _ => s
  end.

Definition fromHexString (str : string) : Result Hex :=
  let input := strip0x str in
  match input with
  | EmptyString => Err HexParsingError
  | _ =>
      match hexToBytes input with
      | Some bs => Ok (mkHex bs)
      | None => Err HexParsingError
      end
  end.

(** *** Scalars, byte strings, vectors *)

Fixpoint littleEndian (bs : bytes) : N :=
  match bs with
  | [] => 0
  | b :: rest => Byte.to_N b + 256 * littleEndian rest
  end.

Definition deserializeU64 : Deserializable N :=
  bs <- deserializeFixedBytes 8 ;; pret (littleEndian bs).

Definition deserializeBool : Deserializable bool :=
  b <- deserializeU8 ;;
  match Byte.to_N b with
  | 0 => pret false
  | 1 => pret true
  | _ => pfail (SdkError 1)            (* "Invalid boolean value" *)
  end.

Definition deserializeBytes : Deserializable bytes :=
  len <- deserializeUleb128AsU32 ;; deserializeFixedBytes (N.to_nat len).

Definition deserializeStr : Deserializable string :=
  bs <- deserializeBytes ;; pret (string_of_list_byte bs).

Definition deserializeVector {T} (cls : Deserializable T)
  : Deserializable (list T) :=
  len <- deserializeUleb128AsU32 ;; deserializeMany cls (N.to_nat len).

(** *** Type tags

    Nesting is bounded by the bytes left to read.  The variant indices are
    those of the Move type tags a transaction can carry; any other index is
    rejected. *)

Fixpoint TypeTag_deserialize_fuel (fuel : nat) : Deserializable TypeTag :=
  match fuel with
  | O => pfail BufferUnderrun
  | S f =>
      index <- deserializeUleb128AsU32 ;;
      match index with
      | 0 => pret TypeTagBool
      | 1 => pret TypeTagU8
      | 2 => pret TypeTagU64
      | 3 => pret TypeTagU128
      | 4 => pret TypeTagAddress
      | 5 => pret TypeTagSigner
      | 6 => v <- TypeTag_deserialize_fuel f ;; pret (TypeTagVector v)
      | 7 =>
          a <- AccountAddress_deserialize ;;
          m <- deserializeStr ;;
          n <- deserializeStr ;;
          targs <- deserializeVector (TypeTag_deserialize_fuel f) ;;
          pret (TypeTagStruct a m n targs)
      | 8 => pret TypeTagU16
      | 9 => pret TypeTagU32
      | 10 => pret TypeTagU256
      | _ => pfail (SdkError 2)        (* "Unknown variant index for TypeTag" *)
      end
  end.

Definition TypeTag_deserialize : Deserializable TypeTag :=
  fun d => TypeTag_deserialize_fuel (S (length d)) d.

(** *** Payloads *)

Definition EntryFunctionBytes_deserialize : Deserializable EntryFunctionBytes :=
  len <- deserializeUleb128AsU32 ;;
  bs <- deserializeFixedBytes (N.to_nat len) ;;
  pret (mkEntryFunctionBytes (mkFixedBytes bs)).

Definition EntryFunction_deserialize : Deserializable EntryFunction :=
  a <- AccountAddress_deserialize ;;
  m <- deserializeStr ;;
  f <- deserializeStr ;;
  targs <- deserializeVector TypeTag_deserialize ;;
  args <- deserializeVector EntryFunctionBytes_deserialize ;;
  pret (mkEntryFunction (mkModuleId a m) f targs args).

Definition skipFixed (n : nat) : Deserializable unit :=
  _ <- deserializeFixedBytes n ;; pret tt.

Definition ScriptTransactionArgument_deserialize : Deserializable unit :=
  index <- deserializeUleb128AsU32 ;;
  match index with
  | 0 => skipFixed 1                    (* U8 *)
  | 1 => skipFixed 8                    (* U64 *)
  | 2 => skipFixed 16                   (* U128 *)
  | 3 => skipFixed 32                   (* Address *)
  | 4 => _ <- deserializeBytes ;; pret tt   (* U8Vector *)
  | 5 => _ <- deserializeBool ;; pret tt    (* Bool *)
  | 6 => skipFixed 2                    (* U16 *)
  | 7 => skipFixed 4                    (* U32 *)
  | 8 => skipFixed 32                   (* U256 *)
  | 9 => _ <- deserializeBytes ;; pret tt   (* Serialized *)
  | _ => pfail (SdkError 3)
  end.

Definition Script_deserialize : Deserializable bytes :=
  bytecode <- deserializeBytes ;;
  _ <- deserializeVector TypeTag_deserialize ;;
  _ <- deserializeVector ScriptTransactionArgument_deserialize ;;
  pret bytecode.

Definition MultiSig_deserialize : Deserializable bytes :=
  a <- AccountAddress_deserialize ;;
  present <- deserializeBool ;;
  if (present : bool) then
    _ <- deserializeUleb128AsU32 ;;
    _ <- EntryFunction_deserialize ;;
    pret (data a)
  else pret (data a).

Definition TransactionPayload_deserialize : Deserializable TransactionPayload :=
  index <- deserializeUleb128AsU32 ;;
  match index with
  | 0 => s <- Script_deserialize ;; pret (TransactionPayloadScript s)
  | 2 => f <- EntryFunction_deserialize ;; pret (TransactionPayloadEntryFunction f)
  | 3 => m <- MultiSig_deserialize ;; pret (TransactionPayloadMultiSig m)
  | _ => pfail (SdkError 4)    (* "Unknown variant index for TransactionPayload" *)
  end.

(** *** Transactions *)

Definition RawTransaction_deserialize : Deserializable RawTransaction :=
  sender <- AccountAddress_deserialize ;;
  sequence_number <- deserializeU64 ;;
  payload <- TransactionPayload_deserialize ;;
  max_gas_amount <- deserializeU64 ;;
  gas_unit_price <- deserializeU64 ;;
  expiration_timestamp_secs <- deserializeU64 ;;
  chain_id <- deserializeU8 ;;
  pret (mkRawTransaction sender sequence_number payload max_gas_amount
          gas_unit_price expiration_timestamp_secs (Byte.to_N chain_id)).

Definition SimpleTransaction_deserialize_p : Deserializable SimpleTransaction :=
  rawTransaction <- RawTransaction_deserialize ;;
  feePayer <- deserializeBool ;;
  if (feePayer : bool) then
    feePayerAddress <- AccountAddress_deserialize ;;
    pret (mkSimpleTransaction rawTransaction (Some feePayerAddress))
  else pret (mkSimpleTransaction rawTransaction None).

(** *** Keys and signatures *)

Definition Ed25519PublicKey_deserialize_p : Deserializable Ed25519PublicKey :=
  bs <- deserializeBytes ;;
  if Nat.eqb (length bs) 32 then pret (mkEd25519PublicKey bs)
  else pfail (SdkError 5).             (* "PublicKey length should be 32" *)

Definition Ed25519Signature_deserialize_p : Deserializable Ed25519Signature :=
  bs <- deserializeBytes ;;
  if Nat.eqb (length bs) 64 then pret (mkEd25519Signature bs)
  else pfail (SdkError 6).             (* "Signature length should be 64" *)

(** Variant 0 is Ed25519, variant 1 Secp256k1; the keyless and WebAuthn
    variants are not modelled and are rejected. *)
Definition AnyPublicKey_deserialize : Deserializable AnyPublicKey :=
  index <- deserializeUleb128AsU32 ;;
  match index with
  | 0 => k <- Ed25519PublicKey_deserialize_p ;; pret (AnyPublicKeyEd25519 k)
  | 1 =>
      bs <- deserializeBytes ;;
      if Nat.eqb (length bs) 65 then pret (AnyPublicKeyOther 1 bs)
      else pfail (SdkError 7)
  | _ => pfail (SdkError 8)
  end.

Definition AnySignature_deserialize : Deserializable AnySignature :=
  index <- deserializeUleb128AsU32 ;;
  match index with
  | 0 => s <- Ed25519Signature_deserialize_p ;; pret (AnySignatureEd25519 s)
  | 1 =>
      bs <- deserializeBytes ;;
      if Nat.eqb (length bs) 64 then pret (AnySignatureOther 1 bs)
      else pfail (SdkError 9)
  | _ => pfail (SdkError 10)
  end.

(** [MultiKey.deserialize]; the constructor wants at least one required
    signature and at least as many keys as required signatures. *)
Definition MultiKey_deserialize_p : Deserializable MultiKey :=
  keys <- deserializeVector AnyPublicKey_deserialize ;;
  signaturesRequired <- deserializeU8 ;;
  let k := Byte.to_N signaturesRequired in
  if k <? 1 then pfail (SdkError 11)
  else if N.of_nat (length keys) <? k then pfail (SdkError 12)
  else pret (mkMultiKey keys k).

Definition bitCount (b : byte) : nat :=
  length (filter (N.testbit (Byte.to_N b)) [0; 1; 2; 3; 4; 5; 6; 7]).

(** [MultiKeySignature.deserialize]; the constructor wants at most 32
    signatures, a 4-byte bitmap, and as many set bits as signatures. *)
Definition MultiKeySignature_deserialize_p : Deserializable MultiKeySignature :=
  sigs <- deserializeVector AnySignature_deserialize ;;
  bitmap <- deserializeBytes ;;
  if Nat.ltb 32 (length sigs) then pfail (SdkError 13)
  else if negb (Nat.eqb (length bitmap) 4) then pfail (SdkError 14)
  else if negb (Nat.eqb (list_sum (map bitCount bitmap)) (length sigs))
       then pfail (SdkError 15)
  else pret (mkMultiKeySignature sigs bitmap).

(** [Cls.deserialize(new Deserializer(bytes))]: the object; the unread rest
    of the buffer is dropped. *)
Definition run {A} (p : Deserializable A) (d : Deserializer) : Result A :=
  match p d with
  | Ok (a, _) => Ok a
  | Err e => Err e
  end.

#[export] Instance sdk : Sdk := {|
  Hex_fromHexString := fromHexString;
  SimpleTransaction_deserialize := run SimpleTransaction_deserialize_p;
  MultiKey_deserialize := run MultiKey_deserialize_p;
  Ed25519PublicKey_deserialize := run Ed25519PublicKey_deserialize_p;
  MultiKeySignature_deserialize := run MultiKeySignature_deserialize_p;
  Ed25519Signature_deserialize := run Ed25519Signature_deserialize_p
|}.

(** A host whose repository root is [/repo]. *)
#[export] Instance host : Host := {|
  REPOSITORY_ROOT := "/repo";
  path_join := fun a b =>
    match b with
    | EmptyString => a
    | _ => (a ++ "/" ++ b)%string
    end
|}.

Fixpoint endsWithSlash (s : string) : bool :=
  match s with
  | EmptyString => false
  | String c EmptyString => Ascii.eqb c "/"
  | String _ rest => endsWithSlash rest
  end.

(** A disk on which the repository root and every path that ends in [/]
    are directories, where [writeFileSync] throws [EISDIR], and every other
    path can be written. *)
#[export] Instance disk : Decode.FileSystem := {|
  Decode.writeFileSync := fun path _ =>
    if String.eqb path "/repo" || endsWithSlash path
    then Err (FileSystemError 21)
    else Ok tt
|}.

End SdkModel.

(** ** Test data

    The byte strings the repository's tests feed the scripts are produced
    by the SDK's serialisers ([bcsToHex]); the functions below write the
    same layout, and the sample values stand for the tests' fixtures. *)

Module Fixture.

Import Bcs Aptos.
Local Open Scope N_scope.

Fixpoint littleEndianBytes (width : nat) (n : N) : bytes :=
  match width with
  | O => []
  | S w => byte_of_N (n mod 256) :: littleEndianBytes w (n / 256)
  end.

Definition serializeU64 (n : N) : bytes := littleEndianBytes 8 n.

Definition serializeBytes (bs : bytes) : bytes :=
  serializeU32AsUleb128 (N.of_nat (length bs)) ++ bs.

Definition serializeStr (s : string) : bytes :=
  serializeBytes (list_byte_of_string s).

Definition serializeVector {T} (ser : T -> bytes) (l : list T) : bytes :=
  serializeU32AsUleb128 (N.of_nat (length l)) ++ concat (map ser l).

Definition serializeBool (b : bool) : bytes := [if b then x01 else x00].

Fixpoint TypeTag_serialize (t : TypeTag) : bytes :=
  match t with
  | TypeTagBool => [x00]
  | TypeTagU8 => [x01]
  | TypeTagU64 => [x02]
  | TypeTagU128 => [x03]
  | TypeTagAddress => [x04]
  | TypeTagSigner => [x05]
  | TypeTagVector v => x06 :: TypeTag_serialize v
  | TypeTagStruct a m n targs =>
      x07 :: data a ++ serializeStr m ++ serializeStr n
          ++ serializeU32AsUleb128 (N.of_nat (length targs))
          ++ concat (map TypeTag_serialize targs)
  | TypeTagU16 => [x08]
  | TypeTagU32 => [x09]
  | TypeTagU256 => [x0a]
  end.

Definition EntryFunction_serialize (f : EntryFunction) : bytes :=
  data (address (module_name f))
    ++ serializeStr (name (module_name f))
    ++ serializeStr (function_name f)
    ++ serializeVector TypeTag_serialize (type_args f)
    ++ serializeVector (fun a => serializeBytes (fb_value (efb_value a)))
         (args f).

Definition TransactionPayload_serialize (p : TransactionPayload) : bytes :=
  match p with
  | TransactionPayloadScript code =>
      x00 :: serializeBytes code ++ [x00] ++ [x00]
  | TransactionPayloadEntryFunction f => x02 :: EntryFunction_serialize f
  | TransactionPayloadMultiSig a => x03 :: a ++ serializeBool false
  end.

Definition SimpleTransaction_serialize (tx : SimpleTransaction) : bytes :=
  let raw := rawTransaction tx in
  data (sender raw)
    ++ serializeU64 (sequence_number raw)
    ++ TransactionPayload_serialize (payload raw)
    ++ serializeU64 (max_gas_amount raw)
    ++ serializeU64 (gas_unit_price raw)
    ++ serializeU64 (expiration_timestamp_secs raw)
    ++ [byte_of_N (chain_id raw)]
    ++ match feePayerAddress tx with
       | Some a => serializeBool true ++ data a
       | None => serializeBool false
       end.

(** [x.bcsToHex().toString()] *)
Definition hexString (bs : bytes) : string := Hex_toString (mkHex bs).

(** An entry-function argument holding the given BCS bytes. *)
Definition rawArgument (bs : bytes) : EntryFunctionBytes :=
  mkEntryFunctionBytes (mkFixedBytes bs).

(** The encoding of a [vector<u8>] and of a [vector<vector<u8>>]. *)
Definition encodeBytes (bs : bytes) : bytes :=
  MoveVector_serialize U8_serialize (MoveVector_U8 bs).

Definition ofByteStrings (xs : list bytes) : MoveVector (MoveVector U8) :=
  mkMoveVector (map MoveVector_U8 xs).

Definition encodeVector (xs : list bytes) : bytes :=
  MoveVector_serialize (MoveVector_serialize U8_serialize) (ofByteStrings xs).

(** The byte strings inside a decoded [vector<vector<u8>>]. *)
Definition toByteStrings (v : MoveVector (MoveVector U8)) : list bytes :=
  map (fun inner => map u8_value (values inner)) (values v).

(** The three raw arguments of a call of [upgrade_package]. *)
Definition upgradePackageArguments (resource_acct : AccountAddress)
    (metadata_serialized : bytes) (code : list bytes)
  : list EntryFunctionBytes :=
  [ rawArgument (data resource_acct);
    rawArgument (encodeBytes metadata_serialized);
    rawArgument (encodeVector code) ].

(** *** Sample values *)

Definition pattern (len : nat) (seed : nat) : bytes :=
  map (fun i => byte_of_N (N.of_nat (Nat.modulo (7 * i + seed) 256)))
      (seq 0 len).

Definition deployer : AccountAddress := mkAccountAddress (pattern 32 17).
Definition aptosExtensionsPackageId : AccountAddress :=
  mkAccountAddress (pattern 32 101).
Definition stablecoinPackageId : AccountAddress :=
  mkAccountAddress (pattern 32 203).

Definition metadata : bytes := pattern 100 5.
Definition code : list bytes :=
  [pattern 100 11; pattern 100 22; pattern 100 33; pattern 100 44;
   pattern 100 55].

Definition payloadCalling (moduleName functionName : string)
    (arguments : list EntryFunctionBytes) : EntryFunction :=
  {| module_name := mkModuleId aptosExtensionsPackageId moduleName;
     function_name := functionName;
     type_args := [];
     args := arguments |}.

Definition transactionCalling (moduleName functionName : string)
    (arguments : list EntryFunctionBytes) : SimpleTransaction :=
  {| rawTransaction :=
       {| sender := deployer;
          sequence_number := 20;
          payload :=
            TransactionPayloadEntryFunction
              (payloadCalling moduleName functionName arguments);
          max_gas_amount := 1000000;
          gas_unit_price := 500;
          expiration_timestamp_secs := 1730000000;
          chain_id := 4 |};
     feePayerAddress := None |}.

(** The transaction of the decode test's fixture. *)
Definition upgradeTransaction : SimpleTransaction :=
  transactionCalling "upgradable" "upgrade_package"
    (upgradePackageArguments stablecoinPackageId metadata code).

Definition upgradeTxBytes : string :=
  hexString (SimpleTransaction_serialize upgradeTransaction).

(** A transaction whose entry function is itself named [upgradePackage]
    and whose only argument is one [u64]. *)
Definition lookalikeTransaction : SimpleTransaction :=
  transactionCalling "other" "upgradePackage"
    [rawArgument (serializeU64 1000)].

Definition lookalikeTxBytes : string :=
  hexString (SimpleTransaction_serialize lookalikeTransaction).

(** The fixture's arguments sent to another module's function, one that
    happens to be named like the registry key. *)
Definition retargetedTransaction : SimpleTransaction :=
  transactionCalling "other" "upgradePackage"
    (upgradePackageArguments stablecoinPackageId metadata code).

Definition retargetedTxBytes : string :=
  hexString (SimpleTransaction_serialize retargetedTransaction).

(** A script-payload transaction. *)
Definition scriptTransaction : SimpleTransaction :=
  {| rawTransaction :=
       {| sender := deployer;
          sequence_number := 0;
          payload := TransactionPayloadScript [x01; x02; x03];
          max_gas_amount := 10;
          gas_unit_price := 1;
          expiration_timestamp_secs := 1;
          chain_id := 4 |};
     feePayerAddress := None |}.

Definition scriptTxBytes : string :=
  hexString (SimpleTransaction_serialize scriptTransaction).

(** Single-key signer. *)
Definition ed25519Key : bytes := pattern 32 1.
Definition ed25519Sig : bytes := pattern 64 2.
Definition singleKeyHex : string := hexString (serializeBytes ed25519Key).
Definition singleSigHex : string := hexString (serializeBytes ed25519Sig).

(** A 2-of-2 multi-key signer. *)
Definition AnyEd25519_serialize (payloadBytes : bytes) : bytes :=
  x00 :: serializeBytes payloadBytes.

Definition twoOfTwoKeyHex : string :=
  hexString (serializeVector AnyEd25519_serialize [pattern 32 3; pattern 32 4]
               ++ [x02]).

(** A 1-of-6 multi-key signer. *)
Definition oneOfSixKeyHex : string :=
  hexString (serializeVector AnyEd25519_serialize
               [pattern 32 10; pattern 32 11; pattern 32 12; pattern 32 13;
                pattern 32 14; pattern 32 15]
               ++ [x01]).

(** Both members sign: bitmap bits 0 and 1. *)
Definition bothSignHex : string :=
  hexString (serializeVector AnyEd25519_serialize [pattern 64 5; pattern 64 6]
               ++ serializeBytes [xc0; x00; x00; x00]).

(** One signature, attributed to member index 5: bitmap bit 5. *)
Definition strangerSignsHex : string :=
  hexString (serializeVector AnyEd25519_serialize [pattern 64 5]
               ++ serializeBytes [x04; x00; x00; x00]).

(** *** A network

    The state is the list of hashes submitted so far.  Simulation answers
    without changing it; submission records a hash; waiting resolves for a
    recorded hash and rejects otherwise. *)
Definition Net : Type := list string.

#[export] Instance client : AptosClient Net := {|
  simulate_simple := fun _ _ _ net =>
    (Ok [mkUserTransactionResponse "0x51" true 7], net);
  submit_simple := fun _ _ _ net =>
    (Ok (mkPendingTransactionResponse "0xc0ffee"), "0xc0ffee"%string :: net);
  waitForTransaction := fun _ h net =>
    (if existsb (String.eqb h) net
     then Ok (mkCommittedTransactionResponse h true (N.of_nat (length net)))
     else Err (NetworkFailure 404), net)
|}.

(** The world before a run: nothing submitted, nothing logged. *)
Definition quiet : Execute.World Net := Execute.mkWorld [] [].

(** [executeTransaction] over the SDK model and this network. *)
Definition run :=
  Execute.executeTransaction (sdk := SdkModel.sdk) (client := client).

(** A network that rejects every submission. *)
Definition rejecting : AptosClient Net := {|
  simulate_simple := fun _ _ _ net =>
    (Ok [mkUserTransactionResponse "0x51" true 7], net);
  submit_simple := fun _ _ _ net => (Err (NetworkFailure 400), net);
  waitForTransaction := fun _ _ net => (Err (NetworkFailure 404), net)
|}.

End Fixture.

(** ** Properties of readers, stated once

    The predicates the reader lemmas are about. *)

Module Laws.

Import Bcs.

(** A reader is steady when what it does is fixed by the bytes it reads:
    bytes put after an input it accepts are left unread; an input it
    refuses for another reason than running out of bytes is refused
    whatever follows; and it refuses for no other reason than running out
    of bytes or a malformed count. *)
Record Steady {T} (p : Deserializable T) : Prop := mkSteady {
  steady_ok : forall d x r s,
    p d = Ok (x, r) -> p (d ++ s) = Ok (x, r ++ s);
  steady_err : forall d e s,
    p d = Err e -> e <> BufferUnderrun -> p (d ++ s) = Err e;
  steady_kind : forall d e,
    p d = Err e -> e = BufferUnderrun \/ e = MalformedVarint
}.

(** A reader charges [weight] when a value it returns has cost it at
    least [weight] bytes, and what it leaves is the input without the
    bytes it consumed. *)
Definition Charges {T} (weight : T -> nat) (p : Deserializable T) : Prop :=
  forall d x r,
    p d = Ok (x, r) -> exists c, d = c ++ r /\ weight x <= length c.

Definition weightU8 (_ : U8) : nat := 1.

(** One byte at least for the count, and the weight of every element. *)
Definition weightVector {T} (weight : T -> nat) (v : MoveVector T) : nat :=
  1 + list_sum (map weight (values v)).

End Laws.

(** ** Observations on outputs and events

    Predicates used to state what a script prints, writes or requests. *)

Module Observations.

Import Bcs Aptos.

(** The characters [Buffer.toString("hex")] produces. *)
Definition isLowerHex (c : ascii) : bool :=
  let n := N_of_ascii c in
  ((48 <=? n) && (n <=? 57) || (97 <=? n) && (n <=? 102))%N.

Fixpoint allChars (f : ascii -> bool) (s : string) : bool :=
  match s with
  | EmptyString => true
  | String c rest => f c && allChars f rest
  end.

Definition isInspect (e : Execute.Event) : bool :=
  match e with Execute.ConsoleLogInspect _ => true | _ => false end.

(** A signer public key is of the class the [multiSig] flag selects. *)
Definition keyMatches (multiSig : option bool) (k : PublicKey) : Prop :=
  match k with
  | PublicKeyMultiKey _ => Execute.truthy multiSig = true
  | PublicKeyEd25519 _ => Execute.truthy multiSig = false
  end.

(** An authenticator is of the class the flag selects, signature
    included, and so is the key stored in it. *)
Definition authenticatorMatches (multiSig : option bool)
    (a : AccountAuthenticator) : Prop :=
  match a with
  | AccountAuthenticatorMultiKey k _ =>
      Execute.truthy multiSig = true /\ keyMatches multiSig k
  | AccountAuthenticatorEd25519 k _ =>
      Execute.truthy multiSig = false /\ keyMatches multiSig k
  end.

(** A request carries what the flag selects. *)
Definition requestMatches (multiSig : option bool) (e : Execute.Event)
  : Prop :=
  match e with
  | Execute.Simulate _ _ k => keyMatches multiSig k
  | Execute.Submit _ _ a => authenticatorMatches multiSig a
  | _ => True
  end.

End Observations.

(** ** deploy.ts *)

Module Deploy.

Import Bcs Aptos Eff.
Local Open Scope string_scope.

Record NamedAddress : Type := mkNamedAddress {
  na_name : string;
  na_address : string
}.

(** The account [Account.fromPrivateKey] returns. *)
Record Account : Type := mkAccount {
  accountAddress : AccountAddress;
  privateKey : string
}.

(** Console lines, the question put to the user, and the publish request
    with the fields of its argument object. *)
Inductive Event : Type :=
| ConsoleLog (message : string)
| AskConfirmation
| Publish (rpcUrl : string) (deployer : Account) (packageName : string)
          (namedDeps : list NamedAddress) (seed : bytes)
          (verifySource : bool).

(** How a call that does not throw ends: it returns, or the process exits
    with a status ([process.exit]). *)
Inductive Completion : Type :=
| Returned
| Exited (code : N).

Definition isPublish (e : Event) : bool :=
  match e with Publish _ _ _ _ _ _ => true | _ => false end.

Definition isAsk (e : Event) : bool :=
  match e with AskConfirmation => true | _ => false end.

(** A line break: LF or CR. *)
Definition isLineBreak (c : ascii) : bool :=
  (N_of_ascii c =? 10)%N || (N_of_ascii c =? 13)%N.

(** The lines of a text: its pieces between line breaks. *)
Fixpoint lines (s : string) : list string :=
  match s with
  | EmptyString => [EmptyString]
  | String c rest =>
      if isLineBreak c then EmptyString :: lines rest
      else match lines rest with
           | [] => [String c EmptyString]
           | l :: ls => String c l :: ls
           end
  end.

(** A text without a line break. *)
Fixpoint singleLine (s : string) : bool :=
  match s with
  | EmptyString => true
  | String c rest => negb (isLineBreak c) && singleLine rest
  end.

(** [console.log(message)] puts on the console a line that starts with
    what [deploy] prints once the package is published.  A message with
    line breaks in it puts several lines on the console. *)
Definition isDeployedLine (e : Event) : bool :=
  match e with
  | ConsoleLog message =>
      existsb (String.prefix "Deployed package to ") (lines message)
  | _ => false
  end.

(** What [deploy] imports: the SDK's key parsing, and the two helpers of
    [./utils].  [St] is the state of the terminal and the network; [Rest] is
    what the publish helper returns after the package id. *)
Class Services (St Rest : Type) : Type := {
  Account_fromPrivateKey : string -> Result Account;
  waitForUserConfirmation : St -> Result bool * St;
  publishPackageToResourceAccount :
    string -> Account -> string -> list NamedAddress -> bytes -> bool ->
    St -> Result (string * Rest) * St
}.

Record World (St : Type) : Type := mkWorld {
  state : St;
  trace : list Event
}.

(** [!!flag] *)
Definition truthy (flag : option bool) : bool :=
  match flag with
  | Some true => true
  | _ => false
  end.

Section Script.

Context {St Rest : Type} {services : Services St Rest}.

Local Open Scope eff_scope.

Definition emit (e : Event) : M (World St) unit :=
  fun w => (Ok tt, mkWorld (state w) (trace w ++ [e])%list).

Definition await {A} (e : Event) (request : St -> Result A * St)
  : M (World St) A :=
  fun w =>
    let (r, s) := request (state w) in
    (r, mkWorld s (trace w ++ [e])%list).

(** [deploy].  [getAptosClient(rpcUrl)] only builds the client object
    handed to the publish helper; [Buffer.from(seed)] is the bytes of the
    seed string. *)
Definition deploy (packageName rpcUrl deployerKey seed : string)
    (namedDeps : list NamedAddress) (verifySource : option bool)
  : M (World St) Completion :=
  deployer <- lift (Account_fromPrivateKey deployerKey) ;;
  emit (ConsoleLog ("Deployer account: "
                      ++ AccountAddress_toString (accountAddress deployer))) ;;
  emit (ConsoleLog ("Publishing package " ++ packageName ++ "...")) ;;
  confirmed <- await AskConfirmation waitForUserConfirmation ;;
  if negb confirmed then ret (Exited 1)
  else
    published <-
      await (Publish rpcUrl deployer packageName namedDeps
               (list_byte_of_string seed) (truthy verifySource))
            (publishPackageToResourceAccount rpcUrl deployer packageName
               namedDeps (list_byte_of_string seed) (truthy verifySource)) ;;
    emit (ConsoleLog ("Deployed package to " ++ fst published)) ;;
    ret Returned.

(** The two lines printed before the question. *)
Definition announcement (deployer : Account) (packageName : string)
  : list Event :=
  [ ConsoleLog ("Deployer account: "
                  ++ AccountAddress_toString (accountAddress deployer));
    ConsoleLog ("Publishing package " ++ packageName ++ "...") ].

End Script.

End Deploy.

(** A terminal whose user answers as the state says, a publish helper that
    resolves to a fixed package id, and a key parser that takes what
    [new Ed25519PrivateKey] takes: a hex string of 32 bytes.  The address
    of the account (a hash of the public key) is not computed: every key
    is given the address of the fixture's deployer. *)
Module DeployFixture.

Import Bcs Aptos Deploy.

Definition deployerKey : string :=
  "0x4f2c8e1a7b3d5690c1e4a7f208b6d3950a1c2e3f4b5d6e7f8091a2b3c4d5e6f7".

Definition deployerAccount : Account :=
  mkAccount Fixture.deployer deployerKey.

#[export] Instance services : Services bool unit := {|
  Account_fromPrivateKey := fun k =>
    match SdkModel.fromHexString k with
    | Ok hex =>
        if Nat.eqb (length (toUint8Array hex)) 32
        then Ok (mkAccount Fixture.deployer k)
        else Err (SdkError 20)
    | Err e => Err e
    end;
  waitForUserConfirmation := fun answer => (Ok answer, answer);
  publishPackageToResourceAccount := fun _ _ _ _ _ _ st =>
    (Ok ("0xabc"%string, tt), st)
|}.

Definition namedDeps : list NamedAddress :=
  [mkNamedAddress "deployer" "0x11"].

End DeployFixture.

(** * Properties *)

Unset Implicit Arguments.

(** ** The result monads *)

Lemma bind_Ok {A B} (c : Result A) (k : A -> Result B) (b : B) :
  bind c k = Ok b -> exists a, c = Ok a /\ k a = Ok b.
Proof.
  destruct c as [a | e]; simpl; intros H; [eauto | discriminate].
Qed.

(** ** ULEB128 and vectors *)

Module BcsFacts.

Import Bcs.
Local Open Scope N_scope.

Lemma byte_of_N_to_N (n : N) : n < 256 -> Byte.to_N (byte_of_N n) = n.
Proof.
  intros Hn. unfold byte_of_N.
  destruct (Byte.of_N n) as [b |] eqn:E.
  - now apply Byte.to_of_N.
  - apply Byte.of_N_None_iff in E. lia.
Qed.

Lemma land_low_shiftl (acc x s : N) :
  acc < 2 ^ s -> N.land acc (N.shiftl x s) = 0.
Proof.
  intros Hacc. apply N.bits_inj_0. intros n.
  rewrite N.land_spec.
  destruct (N.lt_ge_cases n s) as [Hlt | Hge].
  - rewrite (N.shiftl_spec_low x s n Hlt). apply andb_false_r.
  - replace (N.testbit acc n) with false; [reflexivity |].
    symmetry. destruct (N.eq_dec acc 0) as [-> | Hnz].
    + apply N.bits_0.
    + apply N.bits_above_log2.
      apply N.log2_lt_pow2; [lia |].
      eapply N.lt_le_trans; [exact Hacc |].
      apply N.pow_le_mono_r; lia.
Qed.

(** [value |= x << shift] adds [x * 2^shift] when [value] is below
    [2^shift]. *)
Lemma lor_shiftl_add (acc x s : N) :
  acc < 2 ^ s -> N.lor acc (N.shiftl x s) = acc + x * 2 ^ s.
Proof.
  intros Hacc.
  rewrite <- N.lxor_lor by now apply land_low_shiftl.
  rewrite <- N.add_nocarry_lxor by now apply land_low_shiftl.
  now rewrite N.shiftl_mul_pow2.
Qed.

Lemma land_127 (v : N) : N.land v 127 = v mod 128.
Proof. exact (N.land_ones v 7). Qed.

Lemma shiftr_7 (v : N) : N.shiftr v 7 = v / 128.
Proof. exact (N.shiftr_div_pow2 v 7). Qed.

Lemma land_128_small (v : N) : v < 128 -> N.land v 128 = 0.
Proof.
  intros Hv.
  rewrite <- (N.mod_small v 128 Hv), <- land_127, <- N.land_assoc.
  apply N.land_0_r.
Qed.

Lemma continuation_byte (v : N) :
  let b := N.lor (N.land v 127) 128 in
  b < 256 /\ N.land b 127 = v mod 128 /\ N.land b 128 <> 0.
Proof.
  intros b. subst b.
  assert (Hm : v mod 128 < 128) by (apply N.mod_lt; lia).
  rewrite land_127. repeat split.
  - change 128 with (N.shiftl 1 7) at 2.
    rewrite lor_shiftl_add by exact Hm. cbn. lia.
  - rewrite N.land_lor_distr_l, land_127, N.Div0.mod_mod.
    change (N.land 128 127) with 0. apply N.lor_0_r.
  - rewrite N.land_lor_distr_l. change (N.land 128 128) with 128.
    intros H. apply N.lor_eq_0_iff in H. destruct H; discriminate.
Qed.

(** The decoder's loop run on what the encoder's loop pushed. *)
Lemma uleb128_loop_push (rounds : nat) :
  forall (v acc shift : N) (rest : bytes),
    v < 2 ^ (7 * N.of_nat rounds) ->
    acc < 2 ^ shift ->
    acc + v * 2 ^ shift <= MAX_U32_NUMBER ->
    acc = 0 \/ 0 < v ->
    uleb128_loop (uleb128_push rounds v ++ rest) acc shift
    = Ok (acc + v * 2 ^ shift, rest).
Proof.
  induction rounds as [| r IH]; intros v acc shift rest Hv Hacc Hmax Hpos.
  - assert (v = 0) by (cbn in Hv; lia). subst v.
    assert (acc = 0) by lia. subst acc. reflexivity.
  - assert (Hlt : (acc <? MAX_U32_NUMBER) = true).
    { apply N.ltb_lt. destruct Hpos as [-> | Hpos]; [reflexivity |].
      assert (0 < 2 ^ shift) by (apply N.neq_0_lt_0, N.pow_nonzero; lia).
      nia. }
    cbn [uleb128_push]. rewrite shiftr_7.
    destruct (N.eqb_spec (v / 128) 0) as [Hz | Hnz].
    + (* last byte *)
      assert (Hsmall : v < 128).
      { apply N.div_small_iff in Hz; lia. }
      cbn [app uleb128_loop]. rewrite Hlt.
      rewrite byte_of_N_to_N by lia.
      rewrite (land_128_small v Hsmall), land_127, N.mod_small by exact Hsmall.
      cbn [N.eqb]. rewrite lor_shiftl_add by exact Hacc.
      unfold uleb128_finish.
      destruct (N.ltb_spec MAX_U32_NUMBER (acc + v * 2 ^ shift)); [lia |].
      reflexivity.
    + (* continuation byte *)
      destruct (continuation_byte v) as (Hb & Hlow & Hhigh).
      cbn [app uleb128_loop]. rewrite Hlt.
      rewrite byte_of_N_to_N by exact Hb.
      rewrite Hlow.
      destruct (N.eqb_spec (N.land (N.lor (N.land v 127) 128) 128) 0)
        as [Hc | _]; [contradiction |].
      rewrite lor_shiftl_add by exact Hacc.
      assert (Hm : v mod 128 < 128) by (apply N.mod_lt; lia).
      assert (Hdiv : v = 128 * (v / 128) + v mod 128)
        by (apply N.div_mod; lia).
      assert (Hp : 2 ^ (shift + 7) = 128 * 2 ^ shift).
      { rewrite N.pow_add_r. change (2 ^ 7) with 128. lia. }
      assert (Hpr : 2 ^ (7 * N.of_nat (S r)) = 128 * 2 ^ (7 * N.of_nat r)).
      { replace (7 * N.of_nat (S r)) with (7 * N.of_nat r + 7) by lia.
        rewrite N.pow_add_r. change (2 ^ 7) with 128. lia. }
      rewrite IH.
      * f_equal. f_equal. rewrite Hp. nia.
      * rewrite Hpr in Hv. apply N.Div0.div_lt_upper_bound. lia.
      * rewrite Hp. nia.
      * rewrite Hp. nia.
      * right. lia.
Qed.

(** Decoding an encoded 32-bit count gives the count back and leaves the
    bytes after it. *)
Lemma deserializeUleb128AsU32_serialize (v : N) (rest : bytes) :
  v <= MAX_U32_NUMBER ->
  deserializeUleb128AsU32 (serializeU32AsUleb128 v ++ rest) = Ok (v, rest).
Proof.
  intros Hv. unfold deserializeUleb128AsU32, serializeU32AsUleb128.
  rewrite uleb128_loop_push.
  - f_equal. f_equal. cbn. lia.
  - unfold MAX_U32_NUMBER in Hv. cbn. lia.
  - cbn. lia.
  - cbn. unfold MAX_U32_NUMBER in *. lia.
  - now left.
Qed.

(** [U8.deserialize] reads back one serialised [U8]. *)
Lemma U8_deserialize_serialize (u : U8) (rest : bytes) :
  U8_deserialize (U8_serialize u ++ rest) = Ok (u, rest).
Proof. destruct u. reflexivity. Qed.

Section Many.

Context {T : Type} (cls : Deserializable T) (ser : T -> bytes).
Context (P : T -> Prop).
Hypothesis cls_ser :
  forall x rest, P x -> cls (ser x ++ rest) = Ok (x, rest).

(** The element loop reads back, in order, what was written in order. *)
Lemma deserializeMany_concat (xs : list T) :
  forall rest, Forall P xs ->
    deserializeMany cls (length xs) (concat (map ser xs) ++ rest)
    = Ok (xs, rest).
Proof.
  induction xs as [| x xs IH]; intros rest HP; [reflexivity |].
  inversion HP as [| ? ? Hx Hxs]; subst.
  cbn [length map concat deserializeMany].
  rewrite <- app_assoc, cls_ser by exact Hx. cbn [bind].
  rewrite IH by exact Hxs. reflexivity.
Qed.

Lemma MoveVector_deserialize_serialize (v : MoveVector T) (rest : bytes) :
  N.of_nat (length (values v)) <= MAX_U32_NUMBER ->
  Forall P (values v) ->
  MoveVector_deserialize cls (MoveVector_serialize ser v ++ rest)
  = Ok (v, rest).
Proof.
  intros Hlen HP. destruct v as [xs]. cbn [values] in *.
  unfold MoveVector_deserialize, MoveVector_serialize. cbn [values].
  rewrite <- app_assoc, deserializeUleb128AsU32_serialize by exact Hlen.
  cbn [bind]. rewrite Nat2N.id, deserializeMany_concat by exact HP.
  reflexivity.
Qed.

End Many.

Lemma MoveVector_U8_roundtrip (v : MoveVector U8) (rest : bytes) :
  fitsU32 v ->
  MoveVector_deserialize U8_deserialize
    (MoveVector_serialize U8_serialize v ++ rest) = Ok (v, rest).
Proof.
  intros Hv.
  apply MoveVector_deserialize_serialize with (P := fun _ => True).
  - intros x r _. apply U8_deserialize_serialize.
  - exact Hv.
  - apply Forall_forall. trivial.
Qed.

Lemma MoveVector_MoveVector_U8_roundtrip (v : MoveVector (MoveVector U8))
    (rest : bytes) :
  fitsU32 v -> Forall fitsU32 (values v) ->
  MoveVector_deserialize (MoveVector_deserialize U8_deserialize)
    (MoveVector_serialize (MoveVector_serialize U8_serialize) v ++ rest)
  = Ok (v, rest).
Proof.
  intros Hv Hin.
  apply MoveVector_deserialize_serialize with (P := fitsU32).
  - intros x r Hx. now apply MoveVector_U8_roundtrip.
  - exact Hv.
  - exact Hin.
Qed.

(** The element loop returns as many elements as it was asked for. *)
Lemma deserializeMany_length {T} (cls : Deserializable T) (n : nat) :
  forall (d d' : Deserializer) (vs : list T),
    deserializeMany cls n d = Ok (vs, d') -> length vs = n.
Proof.
  induction n as [| n IH]; intros d d' vs H; cbn [deserializeMany] in H.
  - now injection H as <- _.
  - apply bind_Ok in H as ([v d1] & _ & H).
    apply bind_Ok in H as ([vs' d2] & Hrec & H).
    injection H as <- _. cbn [length]. f_equal. exact (IH _ _ _ Hrec).
Qed.

(** A vector decoded from any bytes has the length its prefix announces. *)
Lemma MoveVector_deserialize_length {T} (cls : Deserializable T)
    (d d1 d2 : Deserializer) (L : N) (v : MoveVector T) :
  deserializeUleb128AsU32 d = Ok (L, d1) ->
  MoveVector_deserialize cls d = Ok (v, d2) ->
  length (values v) = N.to_nat L.
Proof.
  intros HL H. unfold MoveVector_deserialize in H. rewrite HL in H.
  cbn [bind] in H.
  apply bind_Ok in H as ([vs d'] & Hmany & H). injection H as <- _.
  cbn [values]. exact (deserializeMany_length _ _ _ _ _ Hmany).
Qed.

End BcsFacts.

(** ** The argument decoders *)

Module DecodeFacts.

Import Bcs Aptos Eff Decode Fixture BcsFacts.
Local Open Scope string_scope.

Lemma includes_In (l : list string) (x : string) :
  includes l x = true <-> In x l.
Proof.
  unfold includes. rewrite existsb_exists. split.
  - intros (y & Hy & Heq). apply String.eqb_eq in Heq. now subst.
  - intros Hx. exists x. split; [exact Hx | apply String.eqb_refl].
Qed.

Lemma lookup_Some_includes {V} (o : list (string * V)) (k : string) (v : V) :
  lookup o k = Some v -> includes (keys o) k = true.
Proof.
  induction o as [| [k' v'] o IH]; cbn; [discriminate |].
  destruct (String.eqb k k'); [reflexivity | exact IH].
Qed.

(** [map] with an index and a throwing callback succeeds exactly when the
    callback succeeds at every position, and then keeps positions. *)
Lemma mapi_from_Ok {A B} (f : A -> nat -> Result B) (l : list A) :
  forall (i : nat) (ys : list B),
    mapi_from f i l = Ok ys <->
    length ys = length l /\
    forall k x, nth_error l k = Some x ->
      exists y, nth_error ys k = Some y /\ f x (i + k) = Ok y.
Proof.
  induction l as [| a l IH]; intros i ys; cbn [mapi_from].
  - split.
    + intros H. injection H as <-. split; [reflexivity |].
      intros [| k] x Hx; discriminate.
    + intros [Hlen _]. destruct ys; [reflexivity | discriminate].
  - split.
    + intros H. apply bind_Ok in H as (y & Hy & H).
      apply bind_Ok in H as (ys' & Hys & H). injection H as <-.
      apply IH in Hys as [Hlen Hnth]. split; [cbn; now rewrite Hlen |].
      intros [| k] x Hx; cbn in Hx.
      * injection Hx as <-. exists y. now rewrite Nat.add_0_r.
      * destruct (Hnth k x Hx) as (y' & Hy' & Hf).
        exists y'. split; [exact Hy' |].
        now rewrite Nat.add_succ_r.
    + intros [Hlen Hnth]. destruct ys as [| y ys]; [discriminate |].
      destruct (Hnth 0%nat a eq_refl) as (y0 & Hy0 & Hf).
      injection Hy0 as <-. rewrite Nat.add_0_r in Hf. rewrite Hf. cbn [bind].
      assert (Hrest : mapi_from f (S i) l = Ok ys).
      { apply IH. split; [now injection Hlen |].
        intros k x Hx. destruct (Hnth (S k) x Hx) as (y' & Hy' & Hf').
        exists y'. split; [exact Hy' |].
        now rewrite Nat.add_succ_r in Hf'. }
      rewrite Hrest. reflexivity.
Qed.

(** With a registered name, [args] is the positional application of the
    registered decoders. *)
Lemma decodeArguments_registered (fn : string)
    (decoders : list ArgumentDecoder) (rawArgs : list EntryFunctionBytes) :
  lookup argumentDecoders fn = Some decoders ->
  decodeArguments (Some fn) rawArgs
  = mapi (fun arg i =>
            match nth_error decoders i with
            | None => Err NotAFunction
            | Some decoder => decoder (efb_value arg)
            end) rawArgs.
Proof.
  intros Hl. unfold decodeArguments, isArgDecoderSupportedForFunction.
  rewrite (lookup_Some_includes _ _ _ Hl).
  unfold applyDecoder. rewrite Hl. reflexivity.
Qed.

(** Without a registered name, [args] is the raw arguments in hex. *)
Lemma decodeArguments_unsupported (functionName : option string)
    (rawArgs : list EntryFunctionBytes) :
  isArgDecoderSupportedForFunction functionName = false ->
  decodeArguments functionName rawArgs = Ok (map rawHex rawArgs).
Proof.
  intros H. unfold decodeArguments. rewrite H. now destruct functionName.
Qed.

Lemma decodeArguments_unsupported_never_fails (functionName : option string)
    (rawArgs : list EntryFunctionBytes) (e : Error) :
  decodeArguments functionName rawArgs = Err e ->
  isArgDecoderSupportedForFunction functionName = true.
Proof.
  destruct (isArgDecoderSupportedForFunction functionName) eqn:H;
    [reflexivity |].
  rewrite decodeArguments_unsupported by exact H. discriminate.
Qed.

(** *** Running [decodeTransaction] *)

Section Run.

Context {sdk : Sdk} {host : Host} {fs : FileSystem}.

(** A run on bytes that parse to an entry-function transaction: it stops
    at the first argument that does not decode, before anything is printed;
    otherwise it prints, calls [writeFileSync] on the record, and ends as
    that call ends. *)
Lemma decodeTransaction_entry_function (txBytes output : string)
    (functionName : option string) (hex : Hex) (tx : SimpleTransaction)
    (txPayload : EntryFunction) (w : World) :
  Hex_fromHexString txBytes = Ok hex ->
  SimpleTransaction_deserialize (toUint8Array hex) = Ok tx ->
  payload (rawTransaction tx) = TransactionPayloadEntryFunction txPayload ->
  decodeTransaction txBytes output functionName w
  = match decodeArguments functionName (Aptos.args txPayload) with
    | Ok args =>
        (writeFileSync (path_join REPOSITORY_ROOT output)
           (decodedTxOf tx txPayload args),
         (w ++ note functionName
            ++ saved output (decodedTxOf tx txPayload args))%list)
    | Err e => (Err e, w)
    end.
Proof.
  intros Hhex Htx Hp.
  unfold decodeTransaction, mbind, lift. rewrite Hhex, Htx, Hp.
  destruct (decodeArguments functionName (Aptos.args txPayload))
    as [args | e] eqn:Hargs.
  - unfold note, saved.
    destruct (isArgDecoderSupportedForFunction functionName);
      unfold ret, emit, call; cbn; now rewrite <- ?app_assoc.
  - apply decodeArguments_unsupported_never_fails in Hargs as Hs.
    rewrite Hs. reflexivity.
Qed.

(** The arguments of the records written: those before the run, then the
    decoded arguments. *)
Lemma writtenArgs_run (functionName : option string) (output : string)
    (decodedTx : DecodedTx) (w : World) :
  writtenArgs (w ++ note functionName ++ saved output decodedTx)%list
  = (writtenArgs w ++ [p_args (d_payload decodedTx)])%list.
Proof.
  unfold writtenArgs, note, saved. rewrite !flat_map_app.
  destruct (isArgDecoderSupportedForFunction functionName); reflexivity.
Qed.

End Run.

(** *** Arity *)

(** A throwing [map] fails exactly at the first element whose callback
    throws, with that error. *)
Lemma mapi_from_Err {A B} (f : A -> nat -> Result B) (l : list A) :
  forall (i : nat) (e : Error),
    mapi_from f i l = Err e <->
    exists k x,
      nth_error l k = Some x /\ f x (i + k) = Err e /\
      forall j y, j < k -> nth_error l j = Some y ->
        exists v, f y (i + j) = Ok v.
Proof.
  induction l as [| a l IH]; intros i e; cbn [mapi_from].
  - split; [discriminate |].
    intros (k & x & Hx & _). destruct k; discriminate.
  - split.
    + destruct (f a i) as [y | e1] eqn:Hf; cbn [bind].
      * destruct (mapi_from f (S i) l) as [ys | e2] eqn:Hrec; cbn [bind];
          [discriminate |].
        intros H. injection H as ->.
        apply IH in Hrec as (k & x & Hx & Hfx & Hbefore).
        exists (S k), x. rewrite Nat.add_succ_r. repeat split; auto.
        intros [| j] y' Hj Hy'.
        -- injection Hy' as <-. rewrite Nat.add_0_r. eauto.
        -- rewrite Nat.add_succ_r. apply (Hbefore j y'); [lia | exact Hy'].
      * intros H. injection H as ->. exists 0, a. rewrite Nat.add_0_r.
        repeat split; auto. intros j y Hj. lia.
    + intros (k & x & Hx & Hfx & Hbefore). destruct k as [| k].
      * injection Hx as <-. rewrite Nat.add_0_r in Hfx. now rewrite Hfx.
      * destruct (Hbefore 0 a (Nat.lt_0_succ k) eq_refl) as (v & Hv).
        rewrite Nat.add_0_r in Hv. rewrite Hv. cbn [bind].
        assert (Hrec : mapi_from f (S i) l = Err e).
        { apply IH. exists k, x. rewrite Nat.add_succ_r in Hfx.
          repeat split; auto.
          intros j y Hj Hy. destruct (Hbefore (S j) y) as (v' & Hv');
            [lia | exact Hy |].
          rewrite Nat.add_succ_r in Hv'. eauto. }
        now rewrite Hrec.
Qed.

(** C1 (as amended).  For a registered function name, [decode] applies the
    i-th registered decoder to the i-th raw argument.  With more raw
    arguments than decoders it fails, with the error of the first decoder
    that fails or, when none does, with the type error of calling the
    decoder that is not there.  It succeeds exactly when every raw argument
    has a decoder at its position and that decoder succeeds, and then
    returns one decoded value per raw argument, in order: with fewer raw
    arguments than decoders only the leading decoders are used.  It fails
    with [e] exactly when the first raw argument that cannot be decoded
    has a decoder that fails with [e], or has no decoder and [e] is the
    type error. *)
Theorem registered_decode_is_positional (fn : string)
    (decoders : list ArgumentDecoder) (rawArgs : list EntryFunctionBytes) :
  lookup argumentDecoders fn = Some decoders ->
  (length decoders < length rawArgs ->
     exists e,
       decodeArguments (Some fn) rawArgs = Err e
       /\ (e = NotAFunction
           \/ exists i arg decoder,
                i < length decoders
                /\ nth_error rawArgs i = Some arg
                /\ nth_error decoders i = Some decoder
                /\ decoder (efb_value arg) = Err e))
  /\
  (forall vals,
     decodeArguments (Some fn) rawArgs = Ok vals <->
     length vals = length rawArgs /\
     forall i arg, nth_error rawArgs i = Some arg ->
       exists decoder v,
         nth_error decoders i = Some decoder /\
         nth_error vals i = Some v /\
         decoder (efb_value arg) = Ok v)
  /\
  (forall e,
     decodeArguments (Some fn) rawArgs = Err e <->
     exists i arg,
       nth_error rawArgs i = Some arg
       /\ (forall j earlier,
             j < i -> nth_error rawArgs j = Some earlier ->
             exists decoder v,
               nth_error decoders j = Some decoder
               /\ decoder (efb_value earlier) = Ok v)
       /\ match nth_error decoders i with
          | Some decoder => decoder (efb_value arg) = Err e
          | None => e = NotAFunction
          end).
Proof.
  intros Hl. rewrite (decodeArguments_registered fn decoders rawArgs Hl).
  unfold mapi.
  set (f := fun (arg : EntryFunctionBytes) (i : nat) =>
              match nth_error decoders i with
              | None => Err NotAFunction
              | Some decoder => decoder (efb_value arg)
              end).
  assert (Hok : forall vals,
    mapi_from f 0 rawArgs = Ok vals <->
    length vals = length rawArgs /\
    forall i arg, nth_error rawArgs i = Some arg ->
      exists decoder v,
        nth_error decoders i = Some decoder /\
        nth_error vals i = Some v /\
        decoder (efb_value arg) = Ok v).
  { intros vals. rewrite mapi_from_Ok. cbn [Nat.add]. subst f. cbv beta.
    split; intros [Hlen H]; (split; [exact Hlen |]); intros i arg Harg.
    - destruct (H i arg Harg) as (v & Hv & Hd).
      destruct (nth_error decoders i) as [decoder |]; [| discriminate].
      exists decoder, v. auto.
    - destruct (H i arg Harg) as (decoder & v & Hdec & Hv & Hd).
      exists v. rewrite Hdec. auto. }
  assert (Herr : forall e,
    mapi_from f 0 rawArgs = Err e <->
    exists i arg,
      nth_error rawArgs i = Some arg
      /\ (forall j earlier,
            j < i -> nth_error rawArgs j = Some earlier ->
            exists decoder v,
              nth_error decoders j = Some decoder
              /\ decoder (efb_value earlier) = Ok v)
      /\ match nth_error decoders i with
         | Some decoder => decoder (efb_value arg) = Err e
         | None => e = NotAFunction
         end).
  { intros e. rewrite mapi_from_Err. cbn [Nat.add]. subst f. cbv beta.
    split.
    - intros (i & arg & Harg & Hf & Hbefore). exists i, arg.
      split; [exact Harg |]. split.
      + intros j earlier Hj Hearlier.
        destruct (Hbefore j earlier Hj Hearlier) as (v & Hv).
        destruct (nth_error decoders j) as [decoder |]; [| discriminate].
        exists decoder, v. auto.
      + destruct (nth_error decoders i) as [decoder |]; [exact Hf |].
        now injection Hf.
    - intros (i & arg & Harg & Hbefore & Hf). exists i, arg.
      split; [exact Harg |]. split.
      + destruct (nth_error decoders i) as [decoder |]; [exact Hf |].
        now subst e.
      + intros j earlier Hj Hearlier.
        destruct (Hbefore j earlier Hj Hearlier) as (decoder & v & Hd & Hv).
        exists v. now rewrite Hd. }
  split; [| split; [exact Hok | exact Herr]].
  intros Hlong.
  destruct (mapi_from f 0 rawArgs) as [vals | e] eqn:Hm.
  - destruct (proj1 (Hok vals) eq_refl) as [_ H].
    destruct (nth_error rawArgs (length decoders)) as [arg |] eqn:Harg.
    + destruct (H _ _ Harg) as (decoder & _ & Hdec & _).
      assert (length decoders < length decoders);
        [apply nth_error_Some; congruence | lia].
    + apply nth_error_None in Harg. lia.
  - exists e. split; [reflexivity |].
    destruct (proj1 (Herr e) eq_refl) as (i & arg & Harg & _ & Hf).
    destruct (nth_error decoders i) as [decoder |] eqn:Hdec.
    + right. exists i, arg, decoder. repeat split; auto.
      apply nth_error_Some. congruence.
    + now left.
Qed.

(** Four raw arguments, then one, against the three decoders of
    [upgradePackage]: the fourth meets no decoder, the one is decoded. *)
Lemma registered_decode_is_positional_witness :
  decodeArguments (Some "upgradePackage")
    (upgradePackageArguments stablecoinPackageId metadata code
       ++ [rawArgument [x00]])%list
  = Err NotAFunction
  /\
  (forall vals,
     decodeArguments (Some "upgradePackage")
       [rawArgument (data stablecoinPackageId)] = Ok vals <->
     length vals = 1 /\
     forall i arg,
       nth_error [rawArgument (data stablecoinPackageId)] i = Some arg ->
       exists decoder v,
         nth_error [decodeAddress; decodeVectorU8; decodeVectorVectorU8] i
           = Some decoder /\
         nth_error vals i = Some v /\
         decoder (efb_value arg) = Ok v).
Proof.
  split.
  - apply (proj2 (proj2 (@registered_decode_is_positional "upgradePackage"
                           [decodeAddress; decodeVectorU8;
                            decodeVectorVectorU8]
                           (upgradePackageArguments stablecoinPackageId
                              metadata code ++ [rawArgument [x00]])%list
                           eq_refl))
                 NotAFunction).
    exists 3, (rawArgument [x00]).
    split; [reflexivity |]. split; [| reflexivity].
    intros [| [| [| j]]] earlier Hj Hearlier; [| | | lia];
      injection Hearlier as <-.
    + exists decodeAddress,
        (ArgString (AccountAddress_toString stablecoinPackageId)).
      split; [reflexivity | vm_compute; reflexivity].
    + exists decodeVectorU8, (ArgString (with0x (bytesToHex metadata))).
      split; [reflexivity | vm_compute; reflexivity].
    + exists decodeVectorVectorU8,
        (ArgStrings (map (fun c => with0x (bytesToHex c)) code)).
      split; [reflexivity | vm_compute; reflexivity].
  - exact (proj1 (proj2 (@registered_decode_is_positional "upgradePackage"
                           [decodeAddress; decodeVectorU8;
                            decodeVectorVectorU8]
                           [rawArgument (data stablecoinPackageId)]
                           eq_refl))).
Defined.

(** C1 (as stated) fails.  [upgradePackage] has three decoders; one raw
    argument is decoded to one value, and four raw arguments end in the
    type error of calling a decoder that is not there. *)
Lemma arity_mismatch_counterexample :
  lookup argumentDecoders "upgradePackage"
    = Some [decodeAddress; decodeVectorU8; decodeVectorVectorU8]
  /\ decodeArguments (Some "upgradePackage")
       [rawArgument (data stablecoinPackageId)]
     = Ok [ArgString
             "0xcbd2d9e0e7eef5fc030a11181f262d343b424950575e656c737a81888f969da4"]
  /\ decodeArguments (Some "upgradePackage")
       (upgradePackageArguments stablecoinPackageId metadata code
          ++ [rawArgument [x00]])
     = Err NotAFunction
  /\ ~ (forall fn decoders rawArgs,
          lookup argumentDecoders fn = Some decoders ->
          length rawArgs <> length decoders ->
          decodeArguments (Some fn) rawArgs = Err ArgumentCountMismatch).
Proof.
  split; [reflexivity |].
  split; [vm_compute; reflexivity |].
  split; [vm_compute; reflexivity |].
  intros H.
  specialize (H "upgradePackage" _ [rawArgument (data stablecoinPackageId)]
                eq_refl).
  vm_compute in H. discriminate H. intros E; discriminate E.
Qed.

(** *** The vector decoders *)

Lemma TwoLevelMoveVector_deserialize_unfold {T} (cls : Deserializable T)
    (d : Deserializer) :
  TwoLevelMoveVector_deserialize cls d
  = MoveVector_deserialize (MoveVector_deserialize cls) d.
Proof.
  unfold TwoLevelMoveVector_deserialize, MoveVector_deserialize.
  destruct (deserializeUleb128AsU32 d) as [[n d1] | e]; reflexivity.
Qed.

Lemma toByteStrings_ofByteStrings (xs : list bytes) :
  toByteStrings (ofByteStrings xs) = xs.
Proof.
  unfold toByteStrings, ofByteStrings, MoveVector_U8. cbn [values].
  rewrite map_map. cbn [values].
  induction xs as [| x xs IH]; cbn [map]; [reflexivity |].
  rewrite IH, map_map. cbn [u8_value]. now rewrite map_id.
Qed.

Lemma fitsU32_ofByteStrings (xs : list bytes) :
  (N.of_nat (length xs) <= MAX_U32_NUMBER)%N ->
  Forall (fun x => (N.of_nat (length x) <= MAX_U32_NUMBER)%N) xs ->
  fitsU32 (ofByteStrings xs) /\ Forall fitsU32 (values (ofByteStrings xs)).
Proof.
  intros Hlen Hin. unfold fitsU32, ofByteStrings. cbn [values].
  rewrite length_map. split; [exact Hlen |].
  apply Forall_map. eapply Forall_impl; [| exact Hin].
  intros x Hx. unfold MoveVector_U8. cbn [values]. now rewrite length_map.
Qed.

(** C7.  Decoding the encoding of a sequence of byte strings gives the
    sequence back, element by element and in order, and stops where the
    encoding ends; the empty sequence comes back as an empty vector.  The
    sequence and its elements have lengths an encoding can carry (at most
    [MAX_U32_NUMBER]). *)
Theorem decodeVector_encodeVector (xs : list bytes) (rest : bytes) :
  (N.of_nat (length xs) <= MAX_U32_NUMBER)%N ->
  Forall (fun x => (N.of_nat (length x) <= MAX_U32_NUMBER)%N) xs ->
  exists v,
    TwoLevelMoveVector_deserialize U8_deserialize
      (encodeVector xs ++ rest)%list
      = Ok (v, rest)
    /\ toByteStrings v = xs
    /\ length (values v) = length xs
    /\ (xs = [] -> v = mkMoveVector []).
Proof.
  intros Hlen Hin. exists (ofByteStrings xs).
  destruct (fitsU32_ofByteStrings xs Hlen Hin) as [Hv Hvs].
  repeat split.
  - rewrite TwoLevelMoveVector_deserialize_unfold. unfold encodeVector.
    now apply MoveVector_MoveVector_U8_roundtrip.
  - apply toByteStrings_ofByteStrings.
  - unfold ofByteStrings. cbn [values]. apply length_map.
  - intros ->. reflexivity.
Qed.

(** The empty sequence, and three byte strings one of which is empty,
    followed by two more bytes. *)
Lemma decodeVector_encodeVector_witness :
  (exists v,
     TwoLevelMoveVector_deserialize U8_deserialize
       (encodeVector [] ++ [])%list
       = Ok (v, [])
     /\ toByteStrings v = []
     /\ length (values v) = 0
     /\ ([] = @nil bytes -> v = mkMoveVector []))
  /\
  (exists v,
     TwoLevelMoveVector_deserialize U8_deserialize
       (encodeVector [[x01; x02; x03]; []; [xff]] ++ [xaa; xbb])%list
       = Ok (v, [xaa; xbb])
     /\ toByteStrings v = [[x01; x02; x03]; []; [xff]]
     /\ length (values v) = 3
     /\ ([[x01; x02; x03]; []; [xff]] = [] -> v = mkMoveVector [])).
Proof.
  split.
  - apply (decodeVector_encodeVector [] []).
    + cbv. discriminate.
    + constructor.
  - apply (decodeVector_encodeVector [[x01; x02; x03]; []; [xff]] [xaa; xbb]).
    + cbv. discriminate.
    + repeat constructor; cbv; discriminate.
Defined.

(** *** The decoders of [upgradePackage] on well-formed arguments *)

Lemma convertMoveVectorU8ToHex_MoveVector_U8 (bs : bytes) :
  convertMoveVectorU8ToHex (MoveVector_U8 bs) = with0x (bytesToHex bs).
Proof.
  unfold convertMoveVectorU8ToHex, MoveVector_U8. cbn [values].
  rewrite map_map. cbn [u8_value]. now rewrite map_id.
Qed.

Lemma decodeAddress_address (a : AccountAddress) :
  length (data a) = 32 ->
  decodeAddress (mkFixedBytes (data a))
  = Ok (ArgString (AccountAddress_toString a)).
Proof.
  intros Hlen. destruct a as [bs]. cbn [data] in *.
  unfold decodeAddress, AccountAddress_deserialize, deserializeFixedBytes,
    AccountAddress_LENGTH.
  cbn [fb_value]. rewrite Hlen. cbn [Nat.ltb Nat.leb bind].
  rewrite <- Hlen, firstn_all. reflexivity.
Qed.

Lemma decodeVectorU8_encodeBytes (bs : bytes) :
  (N.of_nat (length bs) <= MAX_U32_NUMBER)%N ->
  decodeVectorU8 (mkFixedBytes (encodeBytes bs))
  = Ok (ArgString (with0x (bytesToHex bs))).
Proof.
  intros Hlen. unfold decodeVectorU8, encodeBytes. cbn [fb_value].
  rewrite <- (app_nil_r (MoveVector_serialize _ _)).
  rewrite MoveVector_U8_roundtrip.
  - cbn [bind]. now rewrite convertMoveVectorU8ToHex_MoveVector_U8.
  - unfold fitsU32, MoveVector_U8. cbn [values]. now rewrite length_map.
Qed.

Lemma decodeVectorVectorU8_encodeVector (xs : list bytes) :
  (N.of_nat (length xs) <= MAX_U32_NUMBER)%N ->
  Forall (fun x => (N.of_nat (length x) <= MAX_U32_NUMBER)%N) xs ->
  decodeVectorVectorU8 (mkFixedBytes (encodeVector xs))
  = Ok (ArgStrings (map (fun c => with0x (bytesToHex c)) xs)).
Proof.
  intros Hlen Hin. unfold decodeVectorVectorU8, encodeVector. cbn [fb_value].
  destruct (fitsU32_ofByteStrings xs Hlen Hin) as [Hv Hvs].
  rewrite TwoLevelMoveVector_deserialize_unfold.
  rewrite <- (app_nil_r (MoveVector_serialize _ _)).
  rewrite MoveVector_MoveVector_U8_roundtrip by assumption.
  cbn [bind]. unfold ofByteStrings. cbn [values]. rewrite map_map.
  do 2 f_equal. apply map_ext. intros c.
  apply convertMoveVectorU8ToHex_MoveVector_U8.
Qed.

Lemma decodeArguments_upgradePackage (resource_acct : AccountAddress)
    (metadata_serialized : bytes) (code : list bytes) :
  length (data resource_acct) = 32 ->
  (N.of_nat (length metadata_serialized) <= MAX_U32_NUMBER)%N ->
  (N.of_nat (length code) <= MAX_U32_NUMBER)%N ->
  Forall (fun x => (N.of_nat (length x) <= MAX_U32_NUMBER)%N) code ->
  decodeArguments (Some "upgradePackage")
    (upgradePackageArguments resource_acct metadata_serialized code)
  = Ok [ ArgString (AccountAddress_toString resource_acct);
         ArgString (with0x (bytesToHex metadata_serialized));
         ArgStrings (map (fun c => with0x (bytesToHex c)) code) ].
Proof.
  intros Ha Hm Hc Hcs.
  rewrite (@decodeArguments_registered "upgradePackage"
             [decodeAddress; decodeVectorU8; decodeVectorVectorU8] _ eq_refl).
  unfold mapi, upgradePackageArguments, rawArgument.
  cbn [mapi_from nth_error efb_value].
  rewrite decodeAddress_address by exact Ha.
  rewrite decodeVectorU8_encodeBytes by exact Hm.
  rewrite decodeVectorVectorU8_encodeVector by assumption.
  reflexivity.
Qed.

Section Claims.

Context {sdk : Sdk} {host : Host} {fs : FileSystem}.

(** C5.  A transaction whose entry-function payload carries the three raw
    arguments of [upgrade_package] (a 32-byte address, a [vector<u8>] of 100
    bytes, a [vector<vector<u8>>] of five vectors of 100 bytes), decoded
    under the name [upgradePackage], gets as far as the file write, and the
    record handed to [writeFileSync] has three decoded arguments in the
    original order: the address as its string ([0x] and the one digit of a
    special address, or [0x] and the hex of the 32 bytes), the byte vector
    as [0x] and the hex of its 100 bytes, and the five inner vectors as
    five such strings.  Nothing is printed before the success line. *)
Theorem decode_upgradePackage_transaction (txBytes output : string)
    (hex : Hex) (tx : SimpleTransaction) (txPayload : EntryFunction)
    (resource_acct : AccountAddress) (metadata_serialized : bytes)
    (code : list bytes) (w : World) :
  Hex_fromHexString txBytes = Ok hex ->
  SimpleTransaction_deserialize (toUint8Array hex) = Ok tx ->
  payload (rawTransaction tx) = TransactionPayloadEntryFunction txPayload ->
  Aptos.args txPayload
    = upgradePackageArguments resource_acct metadata_serialized code ->
  length (data resource_acct) = 32 ->
  length metadata_serialized = 100 ->
  length code = 5 ->
  Forall (fun inner => length inner = 100) code ->
  let decodedArgs :=
    [ ArgString
        (String "0" (String "x"
           (if isSpecial resource_acct
            then String (hexDigit (Byte.to_N (last (data resource_acct) x00)))
                        EmptyString
            else bytesToHex (data resource_acct))));
      ArgString (String "0" (String "x" (bytesToHex metadata_serialized)));
      ArgStrings
        (map (fun inner => String "0" (String "x" (bytesToHex inner))) code) ]
  in
  let outputFilePath := path_join REPOSITORY_ROOT output in
  let decodedTx := decodedTxOf tx txPayload decodedArgs in
  decodeTransaction txBytes output (Some "upgradePackage") w
  = (writeFileSync outputFilePath decodedTx,
     (w ++ [ ConsoleLog (savedMessage outputFilePath);
             WriteFileSync outputFilePath decodedTx ])%list)
  /\ p_args (d_payload decodedTx) = decodedArgs
  /\ writtenArgs
       (snd (decodeTransaction txBytes output (Some "upgradePackage") w))
     = (writtenArgs w ++ [decodedArgs])%list.
Proof.
  intros Hhex Htx Hp Hargs Ha Hm Hc Hcs decodedArgs outputFilePath decodedTx.
  assert (Hrun :
    decodeTransaction txBytes output (Some "upgradePackage") w
    = (writeFileSync outputFilePath decodedTx,
       (w ++ note (Some "upgradePackage") ++ saved output decodedTx)%list)).
  { rewrite (decodeTransaction_entry_function _ _ _ _ _ _ _ Hhex Htx Hp), Hargs.
    rewrite decodeArguments_upgradePackage.
    - reflexivity.
    - exact Ha.
    - rewrite Hm. cbv. discriminate.
    - rewrite Hc. cbv. discriminate.
    - eapply Forall_impl; [| exact Hcs].
      intros inner ->. cbv. discriminate. }
  split; [| split].
  - rewrite Hrun. reflexivity.
  - reflexivity.
  - rewrite Hrun. cbn [snd]. now rewrite writtenArgs_run.
Qed.

End Claims.

Section MoreClaims.

Context {sdk : Sdk} {host : Host} {fs : FileSystem}.

Lemma unregistered_unsupported (functionName : option string) :
  (forall fn, functionName = Some fn -> ~ In fn (keys argumentDecoders)) ->
  isArgDecoderSupportedForFunction functionName = false.
Proof.
  intros H. destruct functionName as [fn |]; [| reflexivity].
  cbn [isArgDecoderSupportedForFunction].
  destruct (includes (keys argumentDecoders) fn) eqn:E; [| reflexivity].
  apply includes_In in E. now elim (H fn eq_refl).
Qed.

(** C6.  With a function name that is not a key of the registry, or with
    none, the run prints the note and the success line and gets as far as
    the file write, and the record handed to [writeFileSync] holds every
    raw argument, in order, as [0x] and the hex of its bytes. *)
Theorem unregistered_function_passthrough (txBytes output : string)
    (functionName : option string) (hex : Hex) (tx : SimpleTransaction)
    (txPayload : EntryFunction) (w : World) :
  Hex_fromHexString txBytes = Ok hex ->
  SimpleTransaction_deserialize (toUint8Array hex) = Ok tx ->
  payload (rawTransaction tx) = TransactionPayloadEntryFunction txPayload ->
  (forall fn, functionName = Some fn -> ~ In fn (keys argumentDecoders)) ->
  let decodedArgs :=
    map (fun arg =>
           ArgString
             (String "0" (String "x"
                (bytesToHex (fb_value (efb_value arg))))))
        (Aptos.args txPayload)
  in
  let outputFilePath := path_join REPOSITORY_ROOT output in
  let decodedTx := decodedTxOf tx txPayload decodedArgs in
  decodeTransaction txBytes output functionName w
  = (writeFileSync outputFilePath decodedTx,
     (w ++ [ ConsoleLog noteMessage;
             ConsoleLog (savedMessage outputFilePath);
             WriteFileSync outputFilePath decodedTx ])%list)
  /\ p_args (d_payload decodedTx) = decodedArgs
  /\ length (p_args (d_payload decodedTx)) = length (Aptos.args txPayload)
  /\ writtenArgs (snd (decodeTransaction txBytes output functionName w))
     = (writtenArgs w ++ [decodedArgs])%list.
Proof.
  intros Hhex Htx Hp Hfn decodedArgs outputFilePath decodedTx.
  apply unregistered_unsupported in Hfn.
  assert (Hrun :
    decodeTransaction txBytes output functionName w
    = (writeFileSync outputFilePath decodedTx,
       (w ++ note functionName ++ saved output decodedTx)%list)).
  { rewrite (decodeTransaction_entry_function _ _ _ _ _ _ _ Hhex Htx Hp).
    rewrite decodeArguments_unsupported by exact Hfn. reflexivity. }
  split; [| split; [| split]].
  - rewrite Hrun. unfold note. rewrite Hfn. reflexivity.
  - reflexivity.
  - cbn [decodedTx decodedTxOf d_payload p_args]. subst decodedArgs.
    apply length_map.
  - rewrite Hrun. cbn [snd]. now rewrite writtenArgs_run.
Qed.

(** C10.  Which decoders are applied is decided by the [functionName]
    parameter and nothing else.  Two transactions with the same raw
    arguments, whatever module and function they call, fail alike before
    anything is printed or get alike as far as the file write, with the
    same decoded arguments in the two records; they end the same way
    whenever the file system's answer rests on the path alone; under
    [upgradePackage] the three decoders of that key are applied by
    position; with no name the raw arguments are written in hex. *)
Theorem decoder_selection_ignores_payload_identity
    (txBytes1 txBytes2 output : string) (functionName : option string)
    (hex1 hex2 : Hex) (tx1 tx2 : SimpleTransaction)
    (txPayload1 txPayload2 : EntryFunction) (w : World) :
  Hex_fromHexString txBytes1 = Ok hex1 ->
  SimpleTransaction_deserialize (toUint8Array hex1) = Ok tx1 ->
  payload (rawTransaction tx1) = TransactionPayloadEntryFunction txPayload1 ->
  Hex_fromHexString txBytes2 = Ok hex2 ->
  SimpleTransaction_deserialize (toUint8Array hex2) = Ok tx2 ->
  payload (rawTransaction tx2) = TransactionPayloadEntryFunction txPayload2 ->
  Aptos.args txPayload1 = Aptos.args txPayload2 ->
  ((forall decodedTx1 decodedTx2,
      writeFileSync (path_join REPOSITORY_ROOT output) decodedTx1
      = writeFileSync (path_join REPOSITORY_ROOT output) decodedTx2) ->
   fst (decodeTransaction txBytes1 output functionName w)
     = fst (decodeTransaction txBytes2 output functionName w))
  /\ ((exists e,
         decodeTransaction txBytes1 output functionName w = (Err e, w)
         /\ decodeTransaction txBytes2 output functionName w = (Err e, w))
      \/ (exists args,
            decodeArguments functionName (Aptos.args txPayload1) = Ok args
            /\ decodeTransaction txBytes1 output functionName w
               = (writeFileSync (path_join REPOSITORY_ROOT output)
                    (decodedTxOf tx1 txPayload1 args),
                  (w ++ note functionName
                     ++ saved output (decodedTxOf tx1 txPayload1 args))%list)
            /\ decodeTransaction txBytes2 output functionName w
               = (writeFileSync (path_join REPOSITORY_ROOT output)
                    (decodedTxOf tx2 txPayload2 args),
                  (w ++ note functionName
                     ++ saved output
                          (decodedTxOf tx2 txPayload2 args))%list)))
  /\ writtenArgs (snd (decodeTransaction txBytes1 output functionName w))
     = writtenArgs (snd (decodeTransaction txBytes2 output functionName w))
  /\ decodeTransaction txBytes1 output (Some "upgradePackage") w
     = match
         mapi (fun arg i =>
                 match
                   nth_error
                     [decodeAddress; decodeVectorU8; decodeVectorVectorU8] i
                 with
                 | None => Err NotAFunction
                 | Some decoder => decoder (efb_value arg)
                 end) (Aptos.args txPayload1)
       with
       | Ok args =>
           (writeFileSync (path_join REPOSITORY_ROOT output)
              (decodedTxOf tx1 txPayload1 args),
            (w ++ saved output (decodedTxOf tx1 txPayload1 args))%list)
       | Err e => (Err e, w)
       end
  /\ decodeTransaction txBytes1 output None w
     = (writeFileSync (path_join REPOSITORY_ROOT output)
          (decodedTxOf tx1 txPayload1 (map rawHex (Aptos.args txPayload1))),
        (w ++ ConsoleLog noteMessage
           :: saved output
                (decodedTxOf tx1 txPayload1
                   (map rawHex (Aptos.args txPayload1))))%list).
Proof.
  intros Hhex1 Htx1 Hp1 Hhex2 Htx2 Hp2 Hargs.
  pose proof (fun fn =>
    decodeTransaction_entry_function txBytes1 output fn hex1 tx1 txPayload1 w
      Hhex1 Htx1 Hp1) as Hrun1.
  pose proof (fun fn =>
    decodeTransaction_entry_function txBytes2 output fn hex2 tx2 txPayload2 w
      Hhex2 Htx2 Hp2) as Hrun2.
  split; [| split; [| split; [| split]]].
  - intros Hfs. rewrite Hrun1, Hrun2, Hargs.
    destruct (decodeArguments functionName (Aptos.args txPayload2));
      [apply Hfs | reflexivity].
  - rewrite Hrun1, Hrun2, Hargs.
    destruct (decodeArguments functionName (Aptos.args txPayload2))
      as [args | e].
    + right. exists args. auto.
    + left. exists e. auto.
  - rewrite Hrun1, Hrun2, Hargs.
    destruct (decodeArguments functionName (Aptos.args txPayload2));
      [| reflexivity].
    cbn [snd]. now rewrite !writtenArgs_run.
  - rewrite Hrun1.
    rewrite (@decodeArguments_registered "upgradePackage"
               [decodeAddress; decodeVectorU8; decodeVectorVectorU8] _
               eq_refl).
    destruct (mapi _ (Aptos.args txPayload1)); [| reflexivity].
    cbn [note isArgDecoderSupportedForFunction]. reflexivity.
  - rewrite Hrun1. reflexivity.
Qed.

(** C8.  A run in which a stage of decoding fails (the hex or envelope
    parse, the payload-type check, or an argument decoder) ends with the
    error of the first stage that fails and has added nothing to the world:
    no console line, and no call of [writeFileSync].  In every other run
    all decoded arguments exist before the one call of [writeFileSync],
    which is the last thing the run does and is handed the complete record;
    the run ends as that call ends. *)
Theorem failed_decode_writes_nothing (txBytes output : string)
    (functionName : option string) (w : World) :
  (exists e,
     decodeTransaction txBytes output functionName w = (Err e, w)
     /\ writes (snd (decodeTransaction txBytes output functionName w))
        = writes w
     /\ (Hex_fromHexString txBytes = Err e
         \/ (exists hex,
               Hex_fromHexString txBytes = Ok hex /\
               SimpleTransaction_deserialize (toUint8Array hex) = Err e)
         \/ (exists hex tx,
               Hex_fromHexString txBytes = Ok hex /\
               SimpleTransaction_deserialize (toUint8Array hex) = Ok tx /\
               (forall p, payload (rawTransaction tx)
                          <> TransactionPayloadEntryFunction p) /\
               e = UnsupportedPayloadType)
         \/ (exists hex tx txPayload,
               Hex_fromHexString txBytes = Ok hex /\
               SimpleTransaction_deserialize (toUint8Array hex) = Ok tx /\
               payload (rawTransaction tx)
                 = TransactionPayloadEntryFunction txPayload /\
               decodeArguments functionName (Aptos.args txPayload) = Err e)))
  \/
  (exists hex tx txPayload args decodedTx,
     Hex_fromHexString txBytes = Ok hex /\
     SimpleTransaction_deserialize (toUint8Array hex) = Ok tx /\
     payload (rawTransaction tx) = TransactionPayloadEntryFunction txPayload /\
     decodeArguments functionName (Aptos.args txPayload) = Ok args /\
     (d_sender decodedTx
        = AccountAddress_toString (sender (rawTransaction tx)) /\
      d_sequenceNumber decodedTx
        = N_toString (sequence_number (rawTransaction tx)) /\
      d_maxGasAmount decodedTx
        = N_toString (max_gas_amount (rawTransaction tx)) /\
      d_gasUnitPrice decodedTx
        = N_toString (gas_unit_price (rawTransaction tx)) /\
      d_expirationTimestampSecs decodedTx
        = N_toString (expiration_timestamp_secs (rawTransaction tx)) /\
      d_chainId decodedTx = N_toString (chain_id (rawTransaction tx)) /\
      d_feePayer decodedTx
        = option_map AccountAddress_toString (feePayerAddress tx) /\
      p_function (d_payload decodedTx)
        = (AccountAddress_toString (address (module_name txPayload))
             ++ "::" ++ name (module_name txPayload)
             ++ "::" ++ function_name txPayload)%string /\
      p_typeArgs (d_payload decodedTx)
        = map TypeTag_toString (type_args txPayload) /\
      p_args (d_payload decodedTx) = args) /\
     decodeTransaction txBytes output functionName w
     = (writeFileSync (path_join REPOSITORY_ROOT output) decodedTx,
        (w ++ (if isArgDecoderSupportedForFunction functionName
               then [] else [ConsoleLog noteMessage])
           ++ [ ConsoleLog (savedMessage (path_join REPOSITORY_ROOT output));
                WriteFileSync (path_join REPOSITORY_ROOT output)
                  decodedTx ])%list) /\
     writes (snd (decodeTransaction txBytes output functionName w))
     = (writes w
          ++ [WriteFileSync (path_join REPOSITORY_ROOT output)
                decodedTx])%list).
Proof.
  destruct (Hex_fromHexString txBytes) as [hex | e] eqn:Hhex.
  2:{ left. exists e. unfold decodeTransaction, mbind, lift. rewrite Hhex.
      auto. }
  destruct (SimpleTransaction_deserialize (toUint8Array hex))
    as [tx | e] eqn:Htx.
  2:{ left. exists e. unfold decodeTransaction, mbind, lift.
      rewrite Hhex, Htx. split; [reflexivity |]. split; [reflexivity |].
      right. left. eauto. }
  destruct (payload (rawTransaction tx)) as [s | txPayload | m] eqn:Hp.
  1,3: left; exists UnsupportedPayloadType;
       unfold decodeTransaction, mbind, lift, throw; rewrite Hhex, Htx, Hp;
       (split; [reflexivity |]); (split; [reflexivity |]);
       right; right; left; exists hex, tx;
       repeat split; auto; intros p; rewrite Hp; discriminate.
  rewrite (decodeTransaction_entry_function _ _ _ _ _ _ _ Hhex Htx Hp).
  destruct (decodeArguments functionName (Aptos.args txPayload))
    as [args | e] eqn:Hargs.
  - right. exists hex, tx, txPayload, args, (decodedTxOf tx txPayload args).
    split; [reflexivity |]. split; [exact Htx |]. split; [exact Hp |].
    split; [exact Hargs |].
    split; [cbn; repeat split |]. split.
    + reflexivity.
    + cbn [snd]. unfold writes, saved, note. rewrite !filter_app.
      destruct (isArgDecoderSupportedForFunction functionName); reflexivity.
  - left. exists e. split; [reflexivity |]. split; [reflexivity |].
    right. right. right. exists hex, tx, txPayload. auto.
Qed.

End MoreClaims.

(** The transaction of the test fixture, parsed by the SDK model, on a disk
    that takes the write. *)
Lemma decode_upgradePackage_transaction_witness :
  let decodedArgs :=
    [ ArgString
        "0xcbd2d9e0e7eef5fc030a11181f262d343b424950575e656c737a81888f969da4";
      ArgString
        "0x050c131a21282f363d444b525960676e757c838a91989fa6adb4bbc2c9d0d7dee5ecf3fa01080f161d242b323940474e555c636a71787f868d949ba2a9b0b7bec5ccd3dae1e8eff6fd040b121920272e353c434a51585f666d747b828990979ea5acb3ba";
      ArgStrings
        [ "0x0b121920272e353c434a51585f666d747b828990979ea5acb3bac1c8cfd6dde4ebf2f900070e151c232a31383f464d545b626970777e858c939aa1a8afb6bdc4cbd2d9e0e7eef5fc030a11181f262d343b424950575e656c737a81888f969da4abb2b9c0";
          "0x161d242b323940474e555c636a71787f868d949ba2a9b0b7bec5ccd3dae1e8eff6fd040b121920272e353c434a51585f666d747b828990979ea5acb3bac1c8cfd6dde4ebf2f900070e151c232a31383f464d545b626970777e858c939aa1a8afb6bdc4cb";
          "0x21282f363d444b525960676e757c838a91989fa6adb4bbc2c9d0d7dee5ecf3fa01080f161d242b323940474e555c636a71787f868d949ba2a9b0b7bec5ccd3dae1e8eff6fd040b121920272e353c434a51585f666d747b828990979ea5acb3bac1c8cfd6";
          "0x2c333a41484f565d646b727980878e959ca3aab1b8bfc6cdd4dbe2e9f0f7fe050c131a21282f363d444b525960676e757c838a91989fa6adb4bbc2c9d0d7dee5ecf3fa01080f161d242b323940474e555c636a71787f868d949ba2a9b0b7bec5ccd3dae1";
          "0x373e454c535a61686f767d848b9299a0a7aeb5bcc3cad1d8dfe6edf4fb020910171e252c333a41484f565d646b727980878e959ca3aab1b8bfc6cdd4dbe2e9f0f7fe050c131a21282f363d444b525960676e757c838a91989fa6adb4bbc2c9d0d7dee5ec" ] ]
  in
  let decodedTx :=
    {| d_sender :=
         "0x11181f262d343b424950575e656c737a81888f969da4abb2b9c0c7ced5dce3ea";
       d_sequenceNumber := "20";
       d_maxGasAmount := "1000000";
       d_gasUnitPrice := "500";
       d_expirationTimestampSecs := "1730000000";
       d_chainId := "4";
       d_feePayer := None;
       d_payload :=
         {| p_function :=
              "0x656c737a81888f969da4abb2b9c0c7ced5dce3eaf1f8ff060d141b222930373e::upgradable::upgrade_package";
            p_typeArgs := [];
            p_args := decodedArgs |} |}
  in
  decodeTransaction (sdk := SdkModel.sdk) (host := SdkModel.host)
    (fs := SdkModel.disk)
    upgradeTxBytes "decoded.json" (Some "upgradePackage") []
  = (Ok tt,
     [ ConsoleLog (savedMessage "/repo/decoded.json");
       WriteFileSync "/repo/decoded.json" decodedTx ])
  /\ p_args (d_payload decodedTx) = decodedArgs
  /\ writtenArgs
       (snd (decodeTransaction (sdk := SdkModel.sdk) (host := SdkModel.host)
               (fs := SdkModel.disk)
               upgradeTxBytes "decoded.json" (Some "upgradePackage") []))
     = [decodedArgs].
Proof.
  apply (@decode_upgradePackage_transaction SdkModel.sdk SdkModel.host
           SdkModel.disk upgradeTxBytes "decoded.json"
           (mkHex (SimpleTransaction_serialize upgradeTransaction))
           upgradeTransaction
           (payloadCalling "upgradable" "upgrade_package"
              (upgradePackageArguments stablecoinPackageId metadata code))
           stablecoinPackageId metadata code []).
  - vm_compute. reflexivity.
  - vm_compute. reflexivity.
  - reflexivity.
  - reflexivity.
  - reflexivity.
  - reflexivity.
  - reflexivity.
  - repeat constructor.
Defined.

(** A transaction with one [u64] argument, decoded under a name that has
    no decoders. *)
Lemma unregistered_function_passthrough_witness :
  let decodedArgs := [ArgString "0xe803000000000000"] in
  let decodedTx :=
    {| d_sender :=
         "0x11181f262d343b424950575e656c737a81888f969da4abb2b9c0c7ced5dce3ea";
       d_sequenceNumber := "20";
       d_maxGasAmount := "1000000";
       d_gasUnitPrice := "500";
       d_expirationTimestampSecs := "1730000000";
       d_chainId := "4";
       d_feePayer := None;
       d_payload :=
         {| p_function :=
              "0x656c737a81888f969da4abb2b9c0c7ced5dce3eaf1f8ff060d141b222930373e::other::upgradePackage";
            p_typeArgs := [];
            p_args := decodedArgs |} |}
  in
  decodeTransaction (sdk := SdkModel.sdk) (host := SdkModel.host)
    (fs := SdkModel.disk) lookalikeTxBytes "decoded.json" (Some "mint") []
  = (Ok tt,
     [ ConsoleLog noteMessage;
       ConsoleLog (savedMessage "/repo/decoded.json");
       WriteFileSync "/repo/decoded.json" decodedTx ])
  /\ p_args (d_payload decodedTx) = decodedArgs
  /\ length (p_args (d_payload decodedTx)) = 1
  /\ writtenArgs
       (snd (decodeTransaction (sdk := SdkModel.sdk) (host := SdkModel.host)
               (fs := SdkModel.disk)
               lookalikeTxBytes "decoded.json" (Some "mint") []))
     = [decodedArgs].
Proof.
  apply (@unregistered_function_passthrough SdkModel.sdk SdkModel.host
           SdkModel.disk lookalikeTxBytes "decoded.json" (Some "mint")
           (mkHex (SimpleTransaction_serialize lookalikeTransaction))
           lookalikeTransaction
           (payloadCalling "other" "upgradePackage"
              [rawArgument (serializeU64 1000)])
           []).
  - vm_compute. reflexivity.
  - vm_compute. reflexivity.
  - reflexivity.
  - intros fn Hfn. injection Hfn as <-.
    intros [H | []]. discriminate H.
Defined.

(** The fixture's arguments sent to [other::upgradePackage], next to the
    fixture's own transaction, with no function name given, on a disk whose
    answer rests on the path. *)
Lemma decoder_selection_ignores_payload_identity_witness :
  fst (decodeTransaction (sdk := SdkModel.sdk) (host := SdkModel.host)
         (fs := SdkModel.disk) retargetedTxBytes "decoded.json" None [])
    = fst (decodeTransaction (sdk := SdkModel.sdk) (host := SdkModel.host)
             (fs := SdkModel.disk) upgradeTxBytes "decoded.json" None [])
  /\ writtenArgs
       (snd (decodeTransaction (sdk := SdkModel.sdk) (host := SdkModel.host)
               (fs := SdkModel.disk) retargetedTxBytes "decoded.json" None []))
     = writtenArgs
         (snd (decodeTransaction (sdk := SdkModel.sdk) (host := SdkModel.host)
                 (fs := SdkModel.disk) upgradeTxBytes "decoded.json" None []))
  /\ decodeTransaction (sdk := SdkModel.sdk) (host := SdkModel.host)
       (fs := SdkModel.disk)
       retargetedTxBytes "decoded.json" (Some "upgradePackage") []
     = match
         mapi (fun arg i =>
                 match
                   nth_error
                     [decodeAddress; decodeVectorU8; decodeVectorVectorU8] i
                 with
                 | None => Err NotAFunction
                 | Some decoder => decoder (efb_value arg)
                 end)
              (upgradePackageArguments stablecoinPackageId metadata code)
       with
       | Ok args =>
           (Ok tt,
            saved (host := SdkModel.host) "decoded.json"
              (decodedTxOf retargetedTransaction
                 (payloadCalling "other" "upgradePackage"
                    (upgradePackageArguments stablecoinPackageId metadata
                       code))
                 args))
       | Err e => (Err e, [])
       end
  /\ decodeTransaction (sdk := SdkModel.sdk) (host := SdkModel.host)
       (fs := SdkModel.disk) retargetedTxBytes "decoded.json" None []
     = (Ok tt,
        ConsoleLog noteMessage
          :: saved (host := SdkModel.host) "decoded.json"
               (decodedTxOf retargetedTransaction
                  (payloadCalling "other" "upgradePackage"
                     (upgradePackageArguments stablecoinPackageId metadata
                        code))
                  (map rawHex
                       (upgradePackageArguments stablecoinPackageId metadata
                          code)))).
Proof.
  destruct (@decoder_selection_ignores_payload_identity
              SdkModel.sdk SdkModel.host SdkModel.disk
              retargetedTxBytes upgradeTxBytes "decoded.json" None
              (mkHex (SimpleTransaction_serialize retargetedTransaction))
              (mkHex (SimpleTransaction_serialize upgradeTransaction))
              retargetedTransaction upgradeTransaction
              (payloadCalling "other" "upgradePackage"
                 (upgradePackageArguments stablecoinPackageId metadata code))
              (payloadCalling "upgradable" "upgrade_package"
                 (upgradePackageArguments stablecoinPackageId metadata code))
              [])
    as (Hends & _ & Hargs & Hnamed & Hnone).
  - vm_compute. reflexivity.
  - vm_compute. reflexivity.
  - reflexivity.
  - vm_compute. reflexivity.
  - vm_compute. reflexivity.
  - reflexivity.
  - reflexivity.
  - split; [| split; [| split]].
    + apply Hends. intros decodedTx1 decodedTx2. reflexivity.
    + exact Hargs.
    + exact Hnamed.
    + exact Hnone.
Defined.

(** The SDK model reads the fixture's bytes back into the fixture. *)
Example fixture_parses_back :
  bind (SdkModel.fromHexString upgradeTxBytes) (fun hex =>
    SimpleTransaction_deserialize (Sdk := SdkModel.sdk) (toUint8Array hex))
  = Ok upgradeTransaction.
Proof. vm_compute. reflexivity. Qed.

(** Runs of the three kinds of failure of the decoding, of a success, and
    of a write that fails. *)
Example decode_rejects_bad_hex :
  decodeTransaction (sdk := SdkModel.sdk) (host := SdkModel.host)
    (fs := SdkModel.disk) "0xzz" "decoded.json" None []
  = (Err HexParsingError, []).
Proof. reflexivity. Qed.

Example decode_rejects_script_payload :
  decodeTransaction (sdk := SdkModel.sdk) (host := SdkModel.host)
    (fs := SdkModel.disk) scriptTxBytes "decoded.json"
    (Some "upgradePackage") []
  = (Err UnsupportedPayloadType, []).
Proof. vm_compute. reflexivity. Qed.

Example decode_rejects_undecodable_argument :
  decodeTransaction (sdk := SdkModel.sdk) (host := SdkModel.host)
    (fs := SdkModel.disk) lookalikeTxBytes "decoded.json"
    (Some "upgradePackage") []
  = (Err BufferUnderrun, []).
Proof. vm_compute. reflexivity. Qed.

Example decode_lookalike_without_name :
  writtenArgs
    (snd (decodeTransaction (sdk := SdkModel.sdk) (host := SdkModel.host)
            (fs := SdkModel.disk) lookalikeTxBytes "decoded.json" None []))
  = [[ArgString "0xe803000000000000"]].
Proof. vm_compute. reflexivity. Qed.

(** With an empty [output] the path is the repository root, a directory:
    the success line is printed, [writeFileSync] is called and throws. *)
Example decode_write_fails :
  exists decodedTx,
    decodeTransaction (sdk := SdkModel.sdk) (host := SdkModel.host)
      (fs := SdkModel.disk) lookalikeTxBytes "" None []
    = (Err (FileSystemError 21),
       [ ConsoleLog noteMessage;
         ConsoleLog (savedMessage "/repo");
         WriteFileSync "/repo" decodedTx ])
    /\ p_args (d_payload decodedTx) = [ArgString "0xe803000000000000"].
Proof. eexists. split; vm_compute; reflexivity. Qed.

End DecodeFacts.

(** ** executeTransaction *)

Module ExecuteFacts.

Import Bcs Aptos Eff Execute Fixture.
Local Open Scope string_scope.

Section Run.

Context {sdk : Sdk} {Net : Type} {client : AptosClient Net}.

Lemma networkCalls_app (t1 t2 : list Event) :
  networkCalls (t1 ++ t2) = (networkCalls t1 ++ networkCalls t2)%list.
Proof. apply filter_app. Qed.

(** A run whose inputs do not parse stops there. *)
Lemma executeTransaction_unprepared (rpcUrl txBytes publicKey : string)
    (signature : option string) (multiSig dryRun : option bool)
    (w : World Net) (e : Error) :
  prepare txBytes publicKey multiSig = Err e ->
  executeTransaction rpcUrl txBytes publicKey signature multiSig dryRun w
  = (Err e, w).
Proof.
  unfold prepare, executeTransaction, mbind, lift. intros H.
  destruct (deserializerOfHex txBytes) as [d | e1]; cbn [bind] in H |- *;
    [| congruence].
  destruct (SimpleTransaction_deserialize d) as [tx | e2];
    cbn [bind] in H |- *; [| congruence].
  destruct (parseSignerPublicKey multiSig publicKey) as [pk | e3];
    cbn [bind] in H |- *; [discriminate | congruence].
Qed.

(** The dry-run branch. *)
Lemma executeTransaction_dry_run (rpcUrl txBytes publicKey : string)
    (signature : option string) (multiSig : option bool)
    (w : World Net) (tx : SimpleTransaction) (pk : PublicKey) :
  prepare txBytes publicKey multiSig = Ok (tx, pk) ->
  executeTransaction rpcUrl txBytes publicKey signature multiSig (Some true) w
  = match simulate_simple rpcUrl tx pk (network w) with
    | (Ok result, n) =>
        (Ok (SimulationResult result),
         mkWorld n (trace w ++ [ ConsoleLog "Dry running transaction...";
                                 Simulate rpcUrl tx pk;
                                 ConsoleLogInspect (SimulationResult result) ]))
    | (Err e, n) =>
        (Err e,
         mkWorld n (trace w ++ [ ConsoleLog "Dry running transaction...";
                                 Simulate rpcUrl tx pk ]))
    end%list.
Proof.
  unfold prepare, executeTransaction, mbind, lift. intros H.
  destruct (deserializerOfHex txBytes) as [d | e1]; cbn [bind] in H |- *;
    [| discriminate].
  destruct (SimpleTransaction_deserialize d) as [tx' | e2];
    cbn [bind] in H |- *; [| discriminate].
  destruct (parseSignerPublicKey multiSig publicKey) as [pk' | e3];
    cbn [bind] in H |- *; [| discriminate].
  injection H as -> ->.
  cbn [truthy]. unfold emit, await, ret. cbn [network trace].
  destruct (simulate_simple rpcUrl tx pk (network w)) as [[result | e] n];
    cbn [network trace]; rewrite <- ?app_assoc; reflexivity.
Qed.

(** The other branch, with no signature. *)
Lemma executeTransaction_no_signature (rpcUrl txBytes publicKey : string)
    (multiSig dryRun : option bool)
    (w : World Net) (tx : SimpleTransaction) (pk : PublicKey) :
  truthy dryRun = false ->
  prepare txBytes publicKey multiSig = Ok (tx, pk) ->
  executeTransaction rpcUrl txBytes publicKey None multiSig dryRun w
  = (Err MissingSignature,
     mkWorld (network w)
       (trace w ++ [ConsoleLog "Executing transaction..."])%list).
Proof.
  unfold prepare, executeTransaction, mbind, lift. intros Hdry H.
  destruct (deserializerOfHex txBytes) as [d | e1]; cbn [bind] in H |- *;
    [| discriminate].
  destruct (SimpleTransaction_deserialize d) as [tx' | e2];
    cbn [bind] in H |- *; [| discriminate].
  destruct (parseSignerPublicKey multiSig publicKey) as [pk' | e3];
    cbn [bind] in H |- *; [| discriminate].
  rewrite Hdry. reflexivity.
Qed.

(** The other branch, with a signature. *)
Lemma executeTransaction_signed (rpcUrl txBytes publicKey signature : string)
    (multiSig dryRun : option bool)
    (w : World Net) (tx : SimpleTransaction) (pk : PublicKey) :
  truthy dryRun = false ->
  prepare txBytes publicKey multiSig = Ok (tx, pk) ->
  executeTransaction rpcUrl txBytes publicKey (Some signature) multiSig
    dryRun w
  = let t0 := (trace w ++ [ConsoleLog "Executing transaction..."])%list in
    match buildAuthenticator multiSig pk signature with
    | Err e => (Err e, mkWorld (network w) t0)
    | Ok auth =>
        match submit_simple rpcUrl tx auth (network w) with
        | (Err e, n1) => (Err e, mkWorld n1 (t0 ++ [Submit rpcUrl tx auth]))
        | (Ok out, n1) =>
            match waitForTransaction rpcUrl (hash out) n1 with
            | (Err e, n2) =>
                (Err e,
                 mkWorld n2 (t0 ++ [ Submit rpcUrl tx auth;
                                     WaitForTransaction rpcUrl (hash out) ]))
            | (Ok result, n2) =>
                (Ok (CommittedResult result),
                 mkWorld n2 (t0 ++ [ Submit rpcUrl tx auth;
                                     WaitForTransaction rpcUrl (hash out);
                                     ConsoleLogInspect
                                       (CommittedResult result) ]))
            end
        end
    end%list.
Proof.
  unfold prepare, executeTransaction, mbind, lift. intros Hdry H.
  destruct (deserializerOfHex txBytes) as [d | e1]; cbn [bind] in H |- *;
    [| discriminate].
  destruct (SimpleTransaction_deserialize d) as [tx' | e2];
    cbn [bind] in H |- *; [| discriminate].
  destruct (parseSignerPublicKey multiSig publicKey) as [pk' | e3];
    cbn [bind] in H |- *; [| discriminate].
  injection H as -> ->. rewrite Hdry.
  unfold emit, await, ret. cbn [network trace].
  destruct (buildAuthenticator multiSig pk signature) as [auth | e];
    [| reflexivity].
  destruct (submit_simple rpcUrl tx auth (network w)) as [[out | e] n1];
    cbn [network trace]; [| now rewrite <- app_assoc].
  destruct (waitForTransaction rpcUrl (hash out) n1) as [[result | e] n2];
    cbn [network trace]; rewrite <- ?app_assoc; reflexivity.
Qed.

End Run.

Section Claims.

Context {sdk : Sdk} {Net : Type} {client : AptosClient Net}.

(** C9.  A dry run does not look at the signature argument: with the
    other arguments and the world fixed, any two signature arguments, given
    or not, well formed or not, lead to the same result, the same console
    lines and requests, and the same network state.  The run is the one
    fixed by the parse of the transaction bytes and the public key and by
    the answer to the simulate request. *)
Theorem dry_run_ignores_signature (rpcUrl txBytes publicKey : string)
    (signature1 signature2 : option string) (multiSig : option bool)
    (w : World Net) :
  executeTransaction rpcUrl txBytes publicKey signature1 multiSig
    (Some true) w
  = executeTransaction rpcUrl txBytes publicKey signature2 multiSig
      (Some true) w
  /\ executeTransaction rpcUrl txBytes publicKey signature1 multiSig
       (Some true) w
     = match prepare txBytes publicKey multiSig with
       | Err e => (Err e, w)
       | Ok (tx, pk) =>
           match simulate_simple rpcUrl tx pk (network w) with
           | (Ok result, n) =>
               (Ok (SimulationResult result),
                mkWorld n
                  (trace w ++ [ ConsoleLog "Dry running transaction...";
                                Simulate rpcUrl tx pk;
                                ConsoleLogInspect (SimulationResult result) ]))
           | (Err e, n) =>
               (Err e,
                mkWorld n
                  (trace w ++ [ ConsoleLog "Dry running transaction...";
                                Simulate rpcUrl tx pk ]))
           end
       end%list.
Proof.
  split; [reflexivity |].
  destruct (prepare txBytes publicKey multiSig) as [[tx pk] | e] eqn:Hp.
  - apply executeTransaction_dry_run. exact Hp.
  - apply executeTransaction_unprepared. exact Hp.
Qed.

(** C3 (as amended).  Without [dryRun] and without a signature, the call
    fails before any network request: the network state is unchanged and no
    simulate, submit or wait request is among the events.  The failure is
    [MissingSignature] whenever the transaction bytes and the public key
    parse; otherwise it is the parse error, which is raised first. *)
Theorem execute_without_signature_fails_offline
    (rpcUrl txBytes publicKey : string) (multiSig dryRun : option bool)
    (w : World Net) :
  truthy dryRun = false ->
  exists e w',
    executeTransaction rpcUrl txBytes publicKey None multiSig dryRun w
      = (Err e, w')
    /\ network w' = network w
    /\ networkCalls (trace w') = networkCalls (trace w)
    /\ e = match prepare txBytes publicKey multiSig with
           | Ok _ => MissingSignature
           | Err parseError => parseError
           end.
Proof.
  intros Hdry.
  destruct (prepare txBytes publicKey multiSig) as [[tx pk] | e] eqn:Hp.
  - eexists. eexists.
    rewrite (executeTransaction_no_signature rpcUrl txBytes publicKey
               multiSig dryRun w tx pk Hdry Hp).
    split; [reflexivity |]. cbn [network trace].
    rewrite networkCalls_app, app_nil_r. auto.
  - exists e, w.
    rewrite (executeTransaction_unprepared rpcUrl txBytes publicKey None
               multiSig dryRun w e Hp).
    auto.
Qed.

(** C4 (as amended).  A dry run makes no submit and no wait request and at
    most one simulate request: none when the inputs do not parse, else
    exactly one, whose responses it returns when the request resolves.  A run
    without [dryRun] and with a signature makes no simulate request; it
    makes no request when the inputs or the signature do not parse, else
    exactly one submit request; when that is rejected nothing follows; when
    it resolves, exactly one wait request for the returned hash follows, and
    the committed result is returned when the wait resolves. *)
Theorem execution_requests (rpcUrl txBytes publicKey : string)
    (signature : option string) (multiSig : option bool) (w : World Net) :
  (exists r w',
     executeTransaction rpcUrl txBytes publicKey signature multiSig
       (Some true) w = (r, w')
     /\ filter isSubmit (networkCalls (trace w'))
        = filter isSubmit (networkCalls (trace w))
     /\ filter isWait (networkCalls (trace w'))
        = filter isWait (networkCalls (trace w))
     /\ match prepare txBytes publicKey multiSig with
        | Err e =>
            r = Err e /\ networkCalls (trace w') = networkCalls (trace w)
        | Ok (tx, pk) =>
            networkCalls (trace w')
              = (networkCalls (trace w) ++ [Simulate rpcUrl tx pk])%list
            /\ r = match fst (simulate_simple rpcUrl tx pk (network w)) with
                   | Ok result => Ok (SimulationResult result)
                   | Err e => Err e
                   end
        end)
  /\
  (forall (dryRun : option bool) (s : string),
     truthy dryRun = false ->
     exists r w',
       executeTransaction rpcUrl txBytes publicKey (Some s) multiSig dryRun w
         = (r, w')
       /\ filter isSimulate (networkCalls (trace w'))
          = filter isSimulate (networkCalls (trace w))
       /\ match
            bind (prepare txBytes publicKey multiSig) (fun '(tx, pk) =>
            bind (buildAuthenticator multiSig pk s) (fun auth =>
            Ok (tx, auth)))
          with
          | Err e =>
              r = Err e /\ networkCalls (trace w') = networkCalls (trace w)
          | Ok (tx, auth) =>
              match submit_simple rpcUrl tx auth (network w) with
              | (Err e, _) =>
                  r = Err e
                  /\ networkCalls (trace w')
                     = (networkCalls (trace w)
                          ++ [Submit rpcUrl tx auth])%list
              | (Ok out, n1) =>
                  networkCalls (trace w')
                    = (networkCalls (trace w)
                         ++ [ Submit rpcUrl tx auth;
                              WaitForTransaction rpcUrl (hash out) ])%list
                  /\ r = match
                           fst (waitForTransaction rpcUrl (hash out) n1)
                         with
                         | Ok result => Ok (CommittedResult result)
                         | Err e => Err e
                         end
              end
          end).
Proof.
  split.
  - destruct (prepare txBytes publicKey multiSig) as [[tx pk] | e] eqn:Hp.
    + rewrite (executeTransaction_dry_run rpcUrl txBytes publicKey signature
                 multiSig w tx pk Hp).
      destruct (simulate_simple rpcUrl tx pk (network w)) as [[result | e] n];
        eexists; eexists; (split; [reflexivity |]); cbn [trace fst];
        rewrite networkCalls_app, !filter_app; cbn; rewrite !app_nil_r; auto.
    + rewrite (executeTransaction_unprepared rpcUrl txBytes publicKey
                 signature multiSig (Some true) w e Hp).
      eexists; eexists; (split; [reflexivity |]); auto.
  - intros dryRun s Hdry.
    destruct (prepare txBytes publicKey multiSig) as [[tx pk] | e] eqn:Hp.
    + rewrite (executeTransaction_signed rpcUrl txBytes publicKey s multiSig
                 dryRun w tx pk Hdry Hp).
      cbn [bind]. cbv zeta.
      destruct (buildAuthenticator multiSig pk s) as [auth | e]; cbn [bind].
      * destruct (submit_simple rpcUrl tx auth (network w))
          as [[out | e] n1].
        -- destruct (waitForTransaction rpcUrl (hash out) n1)
             as [[result | e] n2];
             eexists; eexists; (split; [reflexivity |]); cbn [trace fst];
             rewrite !networkCalls_app, !filter_app; cbn;
             rewrite !app_nil_r; auto.
        -- eexists; eexists; (split; [reflexivity |]); cbn [trace fst].
           rewrite !networkCalls_app, !filter_app. cbn.
           rewrite !app_nil_r. auto.
      * eexists; eexists; (split; [reflexivity |]); cbn [trace].
        rewrite !networkCalls_app. cbn. rewrite !app_nil_r. auto.
    + rewrite (executeTransaction_unprepared rpcUrl txBytes publicKey
                 (Some s) multiSig dryRun w e Hp).
      cbn [bind]. eexists; eexists; (split; [reflexivity |]); auto.
Qed.

(** C2 (as amended).  In threshold mode the authenticator is built exactly
    when the public-key bytes parse as a multi-key and the signature bytes
    parse as a multi-key signature, each on its own; the two are then paired
    as they are.  No step compares the signature's member indices or count
    with the key's member count or threshold: whenever two builds succeed, so
    does the build from the key of the first and the signature of the
    second. *)
Theorem threshold_build_parses_parts_separately
    (publicKey signature publicKey' signature' : string) :
  build (Some true) publicKey signature
  = match bind (deserializerOfHex publicKey) MultiKey_deserialize with
    | Err e => Err e
    | Ok k =>
        match
          bind (deserializerOfHex signature) MultiKeySignature_deserialize
        with
        | Err e => Err e
        | Ok s => Ok (AccountAuthenticatorMultiKey (PublicKeyMultiKey k) s)
        end
    end
  /\ (isOk (build (Some true) publicKey signature) = true ->
      isOk (build (Some true) publicKey' signature') = true ->
      isOk (build (Some true) publicKey signature') = true).
Proof.
  assert (Heq : forall p s,
    build (Some true) p s
    = match bind (deserializerOfHex p) MultiKey_deserialize with
      | Err e => Err e
      | Ok k =>
          match bind (deserializerOfHex s) MultiKeySignature_deserialize with
          | Err e => Err e
          | Ok sg => Ok (AccountAuthenticatorMultiKey (PublicKeyMultiKey k) sg)
          end
      end).
  { intros p s. unfold build, parseSignerPublicKey, buildAuthenticator.
    cbn [truthy].
    destruct (deserializerOfHex p) as [d | e]; cbn [bind]; [| reflexivity].
    destruct (MultiKey_deserialize d) as [k | e]; cbn [bind];
      [| reflexivity].
    destruct (deserializerOfHex s) as [d' | e]; cbn [bind]; [| reflexivity].
    destruct (MultiKeySignature_deserialize d') as [sg | e]; reflexivity. }
  split; [apply Heq |].
  rewrite !Heq.
  destruct (bind (deserializerOfHex publicKey) MultiKey_deserialize);
    [| discriminate].
  intros _.
  destruct (bind (deserializerOfHex publicKey') MultiKey_deserialize);
    [| discriminate].
  destruct (bind (deserializerOfHex signature') MultiKeySignature_deserialize);
    [reflexivity | discriminate].
Qed.

End Claims.

(** *** Runs on the fixtures, with the SDK model and the sample network *)

Example dry_run_without_signature :
  fst (run "http://localhost:8080/v1" upgradeTxBytes singleKeyHex None None
         (Some true) quiet)
  = Ok (SimulationResult [mkUserTransactionResponse "0x51" true 7])
  /\ networkCalls
       (trace (snd (run "http://localhost:8080/v1" upgradeTxBytes
                      singleKeyHex None None (Some true) quiet)))
     = [ Simulate "http://localhost:8080/v1" upgradeTransaction
           (PublicKeyEd25519 (mkEd25519PublicKey ed25519Key)) ].
Proof. split; vm_compute; reflexivity. Qed.

Example execute_without_signature :
  run "http://localhost:8080/v1" upgradeTxBytes singleKeyHex None None
    (Some false) quiet
  = (Err MissingSignature,
     mkWorld [] [ConsoleLog "Executing transaction..."]).
Proof. vm_compute. reflexivity. Qed.

Lemma execute_without_signature_fails_offline_witness :
  exists e w',
    run "http://localhost:8080/v1" upgradeTxBytes singleKeyHex None None
      (Some false) quiet = (Err e, w')
    /\ network w' = network quiet
    /\ networkCalls (trace w') = networkCalls (trace quiet)
    /\ e = match
             prepare (sdk := SdkModel.sdk) upgradeTxBytes singleKeyHex None
           with
           | Ok _ => MissingSignature
           | Err parseError => parseError
           end.
Proof.
  apply (@execute_without_signature_fails_offline SdkModel.sdk Net
           Fixture.client "http://localhost:8080/v1" upgradeTxBytes
           singleKeyHex None (Some false) quiet).
  reflexivity.
Defined.

(** C3 (as stated) fails.  One byte is no transaction: the run stops in
    [SimpleTransaction.deserialize] with a buffer underrun, before the
    signature is looked at. *)
Lemma missing_signature_counterexample :
  run "http://localhost:8080/v1" "0x00" singleKeyHex None None (Some false)
    quiet
  = (Err BufferUnderrun, quiet)
  /\ ~ (forall rpcUrl txBytes publicKey multiSig w,
          exists w',
            run rpcUrl txBytes publicKey None multiSig (Some false) w
            = (Err MissingSignature, w')).
Proof.
  assert (H : run "http://localhost:8080/v1" "0x00" singleKeyHex None None
                (Some false) quiet = (Err BufferUnderrun, quiet))
    by (vm_compute; reflexivity).
  split; [exact H |].
  intros Hall.
  destruct (Hall "http://localhost:8080/v1" "0x00" singleKeyHex None quiet)
    as [w' Hw'].
  rewrite H in Hw'. discriminate Hw'.
Qed.

Lemma execution_requests_witness :
  exists r w',
    run "http://localhost:8080/v1" upgradeTxBytes singleKeyHex
      (Some singleSigHex) None (Some false) quiet = (r, w')
    /\ filter isSimulate (networkCalls (trace w'))
       = filter isSimulate (networkCalls (trace quiet))
    /\ match
         bind (prepare (sdk := SdkModel.sdk) upgradeTxBytes singleKeyHex None)
           (fun '(tx, pk) =>
         bind (buildAuthenticator (sdk := SdkModel.sdk) None pk singleSigHex)
           (fun auth =>
         Ok (tx, auth)))
       with
       | Err e =>
           r = Err e /\ networkCalls (trace w') = networkCalls (trace quiet)
       | Ok (tx, auth) =>
           match
             submit_simple (AptosClient := Fixture.client)
               "http://localhost:8080/v1" tx auth (network quiet)
           with
           | (Err e, _) =>
               r = Err e
               /\ networkCalls (trace w')
                  = (networkCalls (trace quiet)
                       ++ [Submit "http://localhost:8080/v1" tx auth])%list
           | (Ok out, n1) =>
               networkCalls (trace w')
                 = (networkCalls (trace quiet)
                      ++ [ Submit "http://localhost:8080/v1" tx auth;
                           WaitForTransaction "http://localhost:8080/v1"
                             (hash out) ])%list
               /\ r = match
                        fst (waitForTransaction (AptosClient := Fixture.client)
                               "http://localhost:8080/v1" (hash out) n1)
                      with
                      | Ok result => Ok (CommittedResult result)
                      | Err e => Err e
                      end
           end
       end.
Proof.
  apply (proj2 (@execution_requests SdkModel.sdk Net Fixture.client
                  "http://localhost:8080/v1" upgradeTxBytes singleKeyHex
                  (Some singleSigHex) None quiet)
               (Some false) singleSigHex).
  reflexivity.
Defined.

Example committed_execution :
  fst (run "http://localhost:8080/v1" upgradeTxBytes singleKeyHex
         (Some singleSigHex) None (Some false) quiet)
  = Ok (CommittedResult (mkCommittedTransactionResponse "0xc0ffee" true 1))
  /\ networkCalls
       (trace (snd (run "http://localhost:8080/v1" upgradeTxBytes
                      singleKeyHex (Some singleSigHex) None (Some false)
                      quiet)))
     = [ Submit "http://localhost:8080/v1" upgradeTransaction
           (AccountAuthenticatorEd25519
              (PublicKeyEd25519 (mkEd25519PublicKey ed25519Key))
              (mkEd25519Signature ed25519Sig));
         WaitForTransaction "http://localhost:8080/v1" "0xc0ffee" ].
Proof. split; vm_compute; reflexivity. Qed.

(** C4 (as stated) fails.  With [dryRun] off and a signature present:
    a signature that does not parse leads to no submit request at all, and a
    submission the network rejects is followed by no wait request. *)
Lemma committed_execution_counterexample :
  (let r := run "http://localhost:8080/v1" upgradeTxBytes singleKeyHex
              (Some "0x00") None (Some false) quiet in
   fst r = Err (SdkError 6)
   /\ length (filter isSubmit (trace (snd r))) = 0
   /\ length (filter isWait (trace (snd r))) = 0)
  /\
  (let r := executeTransaction (sdk := SdkModel.sdk)
              (client := Fixture.rejecting)
              "http://localhost:8080/v1" upgradeTxBytes singleKeyHex
              (Some singleSigHex) None (Some false) quiet in
   fst r = Err (NetworkFailure 400)
   /\ length (filter isSubmit (trace (snd r))) = 1
   /\ length (filter isWait (trace (snd r))) = 0).
Proof.
  split; cbv zeta; (split; [| split]); vm_compute; reflexivity.
Qed.

Lemma threshold_build_parses_parts_separately_witness :
  isOk (build (sdk := SdkModel.sdk) (Some true) twoOfTwoKeyHex
          strangerSignsHex) = true.
Proof.
  apply (proj2 (@threshold_build_parses_parts_separately SdkModel.sdk
                  twoOfTwoKeyHex bothSignHex oneOfSixKeyHex strangerSignsHex)).
  - vm_compute. reflexivity.
  - vm_compute. reflexivity.
Defined.

(** C2 (as stated) fails.  A 2-of-2 key and a signature list holding one
    signature attributed to member index 5: the index is beyond the two
    members and one signature is below the threshold of two, and the
    authenticator is built. *)
Lemma threshold_build_counterexample :
  build (sdk := SdkModel.sdk) (Some true) twoOfTwoKeyHex strangerSignsHex
  = Ok (AccountAuthenticatorMultiKey
          (PublicKeyMultiKey
             {| publicKeys :=
                  [ AnyPublicKeyEd25519 (mkEd25519PublicKey (pattern 32 3));
                    AnyPublicKeyEd25519 (mkEd25519PublicKey (pattern 32 4)) ];
                signaturesRequired := 2 |})
          {| signatures :=
               [ AnySignatureEd25519 (mkEd25519Signature (pattern 64 5)) ];
             bitmap := [x04; x00; x00; x00] |})
  /\ signerIndices [x04; x00; x00; x00] = [5].
Proof. split; vm_compute; reflexivity. Qed.

End ExecuteFacts.

(** ** Readers on arbitrary bytes *)

Module ReaderFacts.

Import Bcs Laws.

Lemma uleb128_finish_ok (value : N) (d : Deserializer) (x : N)
    (r : Deserializer) :
  uleb128_finish value d = Ok (x, r) -> x = value /\ r = d.
Proof.
  unfold uleb128_finish.
  destruct (N.ltb MAX_U32_NUMBER value); [discriminate |].
  intros H. injection H as <- <-. auto.
Qed.

Lemma uleb128_finish_app (value : N) (d s : Deserializer) :
  uleb128_finish value (d ++ s)
  = match uleb128_finish value d with
    | Ok (x, r) => Ok (x, r ++ s)
    | Err e => Err e
    end.
Proof.
  unfold uleb128_finish. now destruct (N.ltb MAX_U32_NUMBER value).
Qed.

Lemma uleb128_finish_kind (value : N) (d : Deserializer) (e : Error) :
  uleb128_finish value d = Err e -> e = MalformedVarint.
Proof.
  unfold uleb128_finish.
  destruct (N.ltb MAX_U32_NUMBER value); [| discriminate].
  intros H. now injection H as <-.
Qed.

Lemma uleb128_loop_ok_app (d : Deserializer) :
  forall (value shift x : N) (r s : Deserializer),
    uleb128_loop d value shift = Ok (x, r) ->
    uleb128_loop (d ++ s) value shift = Ok (x, r ++ s).
Proof.
  induction d as [| b rest IH]; intros value shift x r s H.
  - cbn [uleb128_loop] in H.
    destruct (N.ltb value MAX_U32_NUMBER) eqn:Hlt; [discriminate |].
    unfold uleb128_finish in H.
    destruct (N.ltb MAX_U32_NUMBER value) eqn:Hmax; [discriminate |].
    injection H as <- <-. cbn [app].
    destruct s as [| b s]; cbn [uleb128_loop]; rewrite Hlt;
      unfold uleb128_finish; rewrite Hmax.
    + reflexivity.
    + reflexivity.
  - cbn [app uleb128_loop] in H |- *.
    destruct (N.ltb value MAX_U32_NUMBER).
    + destruct (N.eqb (N.land (Byte.to_N b) 128) 0).
      * rewrite uleb128_finish_app, H. reflexivity.
      * now apply IH.
    + change (b :: rest ++ s) with ((b :: rest) ++ s).
      rewrite uleb128_finish_app, H. reflexivity.
Qed.

Lemma uleb128_loop_err_app (d : Deserializer) :
  forall (value shift : N) (e : Error) (s : Deserializer),
    uleb128_loop d value shift = Err e -> e <> BufferUnderrun ->
    uleb128_loop (d ++ s) value shift = Err e.
Proof.
  induction d as [| b rest IH]; intros value shift e s H He.
  - cbn [uleb128_loop] in H.
    destruct (N.ltb value MAX_U32_NUMBER) eqn:Hlt.
    + injection H as <-. now elim He.
    + cbn [app]. destruct s as [| b s]; cbn [uleb128_loop]; rewrite Hlt.
      * exact H.
      * unfold uleb128_finish in *.
        destruct (N.ltb MAX_U32_NUMBER value); [exact H | discriminate].
  - cbn [app uleb128_loop] in H |- *.
    destruct (N.ltb value MAX_U32_NUMBER).
    + destruct (N.eqb (N.land (Byte.to_N b) 128) 0).
      * rewrite uleb128_finish_app, H. reflexivity.
      * now apply IH.
    + change (b :: rest ++ s) with ((b :: rest) ++ s).
      rewrite uleb128_finish_app, H. reflexivity.
Qed.

Lemma uleb128_loop_kind (d : Deserializer) :
  forall (value shift : N) (e : Error),
    uleb128_loop d value shift = Err e ->
    e = BufferUnderrun \/ e = MalformedVarint.
Proof.
  induction d as [| b rest IH]; intros value shift e H;
    cbn [uleb128_loop] in H.
  - destruct (N.ltb value MAX_U32_NUMBER).
    + injection H as <-. now left.
    + right. eapply uleb128_finish_kind. exact H.
  - destruct (N.ltb value MAX_U32_NUMBER).
    + destruct (N.eqb (N.land (Byte.to_N b) 128) 0).
      * right. eapply uleb128_finish_kind. exact H.
      * eapply IH. exact H.
    + right. eapply uleb128_finish_kind. exact H.
Qed.

(** The count reader consumes a prefix, and at least one byte when it
    starts below [MAX_U32_NUMBER]. *)
Lemma uleb128_loop_consumes (d : Deserializer) :
  forall (value shift x : N) (r : Deserializer),
    uleb128_loop d value shift = Ok (x, r) ->
    exists c, d = c ++ r /\ ((value < MAX_U32_NUMBER)%N -> 1 <= length c).
Proof.
  induction d as [| b rest IH]; intros value shift x r H;
    cbn [uleb128_loop] in H.
  - destruct (N.ltb_spec value MAX_U32_NUMBER); [discriminate |].
    apply uleb128_finish_ok in H as [_ ->]. exists []. split; [reflexivity |].
    lia.
  - destruct (N.ltb_spec value MAX_U32_NUMBER).
    + destruct (N.eqb (N.land (Byte.to_N b) 128) 0).
      * apply uleb128_finish_ok in H as [_ ->]. exists [b].
        split; [reflexivity | cbn; lia].
      * apply IH in H as (c & -> & _). exists (b :: c).
        split; [reflexivity | cbn; lia].
    + apply uleb128_finish_ok in H as [_ ->]. exists [].
      split; [reflexivity | lia].
Qed.

Lemma Steady_deserializeUleb128AsU32 : Steady deserializeUleb128AsU32.
Proof.
  constructor; unfold deserializeUleb128AsU32.
  - intros d x r s. apply uleb128_loop_ok_app.
  - intros d e s. apply uleb128_loop_err_app.
  - intros d e. apply uleb128_loop_kind.
Qed.

Lemma Steady_U8_deserialize : Steady U8_deserialize.
Proof.
  constructor; unfold U8_deserialize.
  - intros [| b d] x r s H; cbn in H |- *; [discriminate |].
    now injection H as <- <-.
  - intros [| b d] e s H He; cbn in H |- *.
    + injection H as <-. now elim He.
    + discriminate.
  - intros [| b d] e H; cbn in H; [| discriminate].
    injection H as <-. now left.
Qed.

Lemma Charges_U8_deserialize : Charges weightU8 U8_deserialize.
Proof.
  intros [| b d] x r H; cbn in H; [discriminate |].
  injection H as <- <-. exists [b].
  split; [reflexivity | unfold weightU8; cbn; lia].
Qed.

Section Vectors.

Context {T : Type} (cls : Deserializable T).

Lemma deserializeMany_ok_app (n : nat) :
  Steady cls ->
  forall d xs r s,
    deserializeMany cls n d = Ok (xs, r) ->
    deserializeMany cls n (d ++ s) = Ok (xs, r ++ s).
Proof.
  intros Hcls. induction n as [| n IH]; intros d xs r s H;
    cbn [deserializeMany] in H |- *.
  - now injection H as <- <-.
  - apply bind_Ok in H as ([v d1] & Hv & H).
    apply bind_Ok in H as ([vs d2] & Hvs & H). injection H as <- <-.
    rewrite (@steady_ok _ _ Hcls _ _ _ s Hv). cbn [bind].
    rewrite (IH _ _ _ s Hvs). reflexivity.
Qed.

Lemma deserializeMany_err_app (n : nat) :
  Steady cls ->
  forall d e s,
    deserializeMany cls n d = Err e -> e <> BufferUnderrun ->
    deserializeMany cls n (d ++ s) = Err e.
Proof.
  intros Hcls. induction n as [| n IH]; intros d e s H He;
    cbn [deserializeMany] in H |- *; [discriminate |].
  destruct (cls d) as [[v d1] | e1] eqn:Hv; cbn [bind] in H.
  - rewrite (@steady_ok _ _ Hcls _ _ _ s Hv). cbn [bind].
    destruct (deserializeMany cls n d1) as [[vs d2] | e2] eqn:Hvs;
      cbn [bind] in H; [discriminate |].
    injection H as ->. rewrite (IH _ _ s Hvs He). reflexivity.
  - injection H as ->. rewrite (@steady_err _ _ Hcls _ _ s Hv He). reflexivity.
Qed.

Lemma deserializeMany_kind (n : nat) :
  Steady cls ->
  forall d e,
    deserializeMany cls n d = Err e ->
    e = BufferUnderrun \/ e = MalformedVarint.
Proof.
  intros Hcls. induction n as [| n IH]; intros d e H;
    cbn [deserializeMany] in H; [discriminate |].
  destruct (cls d) as [[v d1] | e1] eqn:Hv; cbn [bind] in H.
  - destruct (deserializeMany cls n d1) as [[vs d2] | e2] eqn:Hvs;
      cbn [bind] in H; [discriminate |].
    injection H as ->. eapply IH. exact Hvs.
  - injection H as ->. eapply (@steady_kind _ _ Hcls _ _). exact Hv.
Qed.

Lemma Steady_MoveVector_deserialize :
  Steady cls -> Steady (MoveVector_deserialize cls).
Proof.
  intros Hcls. constructor; unfold MoveVector_deserialize.
  - intros d x r s H.
    apply bind_Ok in H as ([len d1] & Hlen & H).
    apply bind_Ok in H as ([vs d2] & Hvs & H). injection H as <- <-.
    rewrite (@steady_ok _ _ Steady_deserializeUleb128AsU32 _ _ _ s Hlen).
    cbn [bind]. rewrite (deserializeMany_ok_app _ Hcls _ _ _ s Hvs).
    reflexivity.
  - intros d e s H He.
    destruct (deserializeUleb128AsU32 d) as [[len d1] | e1] eqn:Hlen;
      cbn [bind] in H.
    + rewrite (@steady_ok _ _ Steady_deserializeUleb128AsU32 _ _ _ s Hlen).
      cbn [bind].
      destruct (deserializeMany cls (N.to_nat len) d1) as [[vs d2] | e2]
        eqn:Hvs; cbn [bind] in H; [discriminate |].
      injection H as ->.
      rewrite (deserializeMany_err_app _ Hcls _ _ s Hvs He). reflexivity.
    + injection H as ->.
      rewrite (@steady_err _ _ Steady_deserializeUleb128AsU32 _ _ s Hlen He).
      reflexivity.
  - intros d e H.
    destruct (deserializeUleb128AsU32 d) as [[len d1] | e1] eqn:Hlen;
      cbn [bind] in H.
    + destruct (deserializeMany cls (N.to_nat len) d1) as [[vs d2] | e2]
        eqn:Hvs; cbn [bind] in H; [discriminate |].
      injection H as ->. eapply (deserializeMany_kind _ Hcls). exact Hvs.
    + injection H as ->.
      eapply (@steady_kind _ _ Steady_deserializeUleb128AsU32 _ _). exact Hlen.
Qed.

Context (weight : T -> nat).

Lemma deserializeMany_charges (n : nat) :
  Charges weight cls ->
  forall d xs r,
    deserializeMany cls n d = Ok (xs, r) ->
    exists c, d = c ++ r /\ list_sum (map weight xs) <= length c.
Proof.
  intros Hcls. induction n as [| n IH]; intros d xs r H;
    cbn [deserializeMany] in H.
  - injection H as <- <-. exists []. split; [reflexivity | cbn; lia].
  - apply bind_Ok in H as ([v d1] & Hv & H).
    apply bind_Ok in H as ([vs d2] & Hvs & H). injection H as <- <-.
    destruct (Hcls _ _ _ Hv) as (c1 & -> & Hw).
    destruct (IH _ _ _ Hvs) as (c2 & -> & Hws).
    exists (c1 ++ c2). split; [now rewrite app_assoc |].
    rewrite length_app. simpl. lia.
Qed.

Lemma Charges_MoveVector_deserialize :
  Charges weight cls ->
  Charges (weightVector weight) (MoveVector_deserialize cls).
Proof.
  intros Hcls d x r H. unfold MoveVector_deserialize in H.
  apply bind_Ok in H as ([len d1] & Hlen & H).
  apply bind_Ok in H as ([vs d2] & Hvs & H). injection H as <- <-.
  apply uleb128_loop_consumes in Hlen as (c1 & -> & Hc1).
  destruct (deserializeMany_charges _ Hcls _ _ _ Hvs) as (c2 & -> & Hws).
  exists (c1 ++ c2). split; [now rewrite app_assoc |].
  unfold weightVector. cbn [values]. rewrite length_app.
  assert (1 <= length c1) by (apply Hc1; reflexivity). lia.
Qed.

End Vectors.

End ReaderFacts.

(** ** The nested vector decoder on arbitrary bytes *)

Module CodecFacts.

Import Bcs Aptos Laws Decode Fixture BcsFacts ReaderFacts.

Lemma Steady_TwoLevelMoveVector_deserialize :
  Steady (TwoLevelMoveVector_deserialize U8_deserialize).
Proof.
  pose proof (Steady_MoveVector_deserialize _
                (Steady_MoveVector_deserialize _ Steady_U8_deserialize))
    as [Hok Herr Hkind].
  constructor; intros d; intros;
    rewrite ?DecodeFacts.TwoLevelMoveVector_deserialize_unfold in *;
    eauto.
Qed.

Lemma list_sum_weightU8 (l : list U8) :
  list_sum (map weightU8 l) = length l.
Proof.
  induction l as [| u l IH]; [reflexivity |].
  cbn [map length].
  change (list_sum (weightU8 u :: map weightU8 l))
    with (weightU8 u + list_sum (map weightU8 l)).
  rewrite IH. reflexivity.
Qed.

(** X1.  Whatever the bytes, a successful nested-vector decode has
    consumed a prefix of them and leaves the rest; it returns as many inner
    vectors as the count it read first; and what it returns is no larger
    than what it consumed: one byte at least for the outer count, and for
    every inner vector one byte for its count and one per element. *)
Theorem TwoLevelMoveVector_deserialize_accounts
    (d r : Deserializer) (v : MoveVector (MoveVector U8)) :
  TwoLevelMoveVector_deserialize U8_deserialize d = Ok (v, r) ->
  exists consumed,
    d = consumed ++ r
    /\ 1 + list_sum (map (fun inner => 1 + length (values inner)) (values v))
       <= length consumed
    /\ exists L d1,
         deserializeUleb128AsU32 d = Ok (L, d1)
         /\ length (values v) = N.to_nat L.
Proof.
  intros H. rewrite DecodeFacts.TwoLevelMoveVector_deserialize_unfold in H.
  destruct (Charges_MoveVector_deserialize _ _
              (Charges_MoveVector_deserialize _ _ Charges_U8_deserialize)
              _ _ _ H) as (c & Hc & Hw).
  exists c. split; [exact Hc |]. split.
  - unfold weightVector in Hw.
    erewrite map_ext in Hw; [exact Hw |].
    intros inner. cbn beta. now rewrite list_sum_weightU8.
  - destruct (deserializeUleb128AsU32 d) as [[L d1] | e] eqn:HL.
    + exists L, d1. split; [reflexivity |].
      eapply MoveVector_deserialize_length; [exact HL | exact H].
    + unfold MoveVector_deserialize in H. rewrite HL in H. discriminate H.
Qed.

Lemma TwoLevelMoveVector_deserialize_accounts_witness :
  exists consumed,
    (encodeVector [[x01; x02; x03]; []; [xff]] ++ [xaa; xbb])
      = consumed ++ [xaa; xbb]
    /\ 1 + list_sum
             (map (fun inner => 1 + length (values inner))
                  (values (ofByteStrings [[x01; x02; x03]; []; [xff]])))
       <= length consumed
    /\ exists L d1,
         deserializeUleb128AsU32
           (encodeVector [[x01; x02; x03]; []; [xff]] ++ [xaa; xbb])
           = Ok (L, d1)
         /\ length (values (ofByteStrings [[x01; x02; x03]; []; [xff]]))
            = N.to_nat L.
Proof.
  apply (TwoLevelMoveVector_deserialize_accounts
           (encodeVector [[x01; x02; x03]; []; [xff]] ++ [xaa; xbb])
           [xaa; xbb] (ofByteStrings [[x01; x02; x03]; []; [xff]])).
  vm_compute. reflexivity.
Defined.

(** X2.  The nested-vector decoder reads no further than the vector:
    bytes put after an input it accepts do not change what it returns and
    are handed back unread. *)
Theorem TwoLevelMoveVector_deserialize_leaves_what_follows
    (d r s : Deserializer) (v : MoveVector (MoveVector U8)) :
  TwoLevelMoveVector_deserialize U8_deserialize d = Ok (v, r) ->
  TwoLevelMoveVector_deserialize U8_deserialize (d ++ s) = Ok (v, r ++ s).
Proof.
  apply (@steady_ok _ _ Steady_TwoLevelMoveVector_deserialize).
Qed.

Lemma TwoLevelMoveVector_deserialize_leaves_what_follows_witness :
  TwoLevelMoveVector_deserialize U8_deserialize
    ([x02; x01; x07; x00] ++ [xaa; xbb])
  = Ok (ofByteStrings [[x07]; []], [] ++ [xaa; xbb]).
Proof.
  apply (TwoLevelMoveVector_deserialize_leaves_what_follows
           [x02; x01; x07; x00] [] [xaa; xbb] (ofByteStrings [[x07]; []])).
  reflexivity.
Defined.

(** X3.  A cut-off encoding is refused: on any proper prefix of the
    encoding of a sequence of byte strings the decoder fails with a buffer
    underrun; it never returns a shorter vector. *)
Theorem TwoLevelMoveVector_deserialize_truncated
    (xs : list bytes) (p s : bytes) :
  (N.of_nat (length xs) <= MAX_U32_NUMBER)%N ->
  Forall (fun x => (N.of_nat (length x) <= MAX_U32_NUMBER)%N) xs ->
  encodeVector xs = p ++ s ->
  s <> [] ->
  TwoLevelMoveVector_deserialize U8_deserialize p = Err BufferUnderrun.
Proof.
  intros Hlen Hin Hsplit Hs.
  destruct (DecodeFacts.fitsU32_ofByteStrings xs Hlen Hin) as [Hv Hvs].
  assert (Hfull : TwoLevelMoveVector_deserialize U8_deserialize (p ++ s)
                  = Ok (ofByteStrings xs, [])).
  { rewrite <- Hsplit, DecodeFacts.TwoLevelMoveVector_deserialize_unfold.
    unfold encodeVector.
    rewrite <- (app_nil_r (MoveVector_serialize _ _)).
    now apply MoveVector_MoveVector_U8_roundtrip. }
  pose proof Steady_TwoLevelMoveVector_deserialize as [Hok Herr Hkind].
  destruct (TwoLevelMoveVector_deserialize U8_deserialize p)
    as [[v r] | e] eqn:Hp.
  - rewrite (Hok _ _ _ s Hp) in Hfull. injection Hfull as _ Hr.
    apply app_eq_nil in Hr as [_ Hr]. contradiction.
  - destruct (Hkind _ _ Hp) as [-> | ->]; [reflexivity |].
    rewrite (Herr _ _ s Hp) in Hfull; discriminate.
Qed.

Lemma TwoLevelMoveVector_deserialize_truncated_witness :
  TwoLevelMoveVector_deserialize U8_deserialize [x03; x03; x01; x02]
  = Err BufferUnderrun.
Proof.
  apply (TwoLevelMoveVector_deserialize_truncated
           [[x01; x02; x03]; []; [xff]] [x03; x03; x01; x02]
           [x03; x00; x01; xff]).
  - cbv. discriminate.
  - repeat constructor; cbv; discriminate.
  - reflexivity.
  - discriminate.
Defined.

End CodecFacts.

(** ** The registered decoders and the hex rendering *)

Module DecoderFacts.

Import Bcs Aptos Laws Observations Decode Fixture BcsFacts ReaderFacts.

(** *** Hex *)

Lemma hexDigit_isLowerHex (n : N) : isLowerHex (hexDigit n) = true.
Proof.
  destruct n as [| p]; [reflexivity |].
  do 4 (destruct p as [p | p |]; try reflexivity).
Qed.

Lemma bytesToHex_length (bs : bytes) :
  String.length (bytesToHex bs) = 2 * length bs.
Proof.
  induction bs as [| b bs IH]; [reflexivity |].
  cbn [bytesToHex String.length length]. rewrite IH. lia.
Qed.

Lemma bytesToHex_allChars (bs : bytes) :
  allChars isLowerHex (bytesToHex bs) = true.
Proof.
  induction bs as [| b bs IH]; [reflexivity |].
  cbn [bytesToHex allChars]. now rewrite !hexDigit_isLowerHex, IH.
Qed.

(** Reading two hex digits back gives the byte. *)
Lemma hexValue_hexDigit (b : byte) :
  SdkModel.hexValue (hexDigit (Byte.to_N b / 16)) = Some (Byte.to_N b / 16)%N
  /\ SdkModel.hexValue (hexDigit (Byte.to_N b mod 16))
     = Some (Byte.to_N b mod 16)%N
  /\ byte_of_N (16 * (Byte.to_N b / 16) + Byte.to_N b mod 16) = b.
Proof. destruct b; vm_compute; auto. Qed.

Lemma hexToBytes_bytesToHex (bs : bytes) :
  SdkModel.hexToBytes (bytesToHex bs) = Some bs.
Proof.
  induction bs as [| b bs IH]; [reflexivity |].
  cbn [bytesToHex SdkModel.hexToBytes].
  destruct (hexValue_hexDigit b) as (-> & -> & Hb).
  now rewrite IH, Hb.
Qed.

Lemma bytesToHex_injective (bs1 bs2 : bytes) :
  bytesToHex bs1 = bytesToHex bs2 -> bs1 = bs2.
Proof.
  intros H. apply (f_equal SdkModel.hexToBytes) in H.
  rewrite !hexToBytes_bytesToHex in H. now injection H.
Qed.

Lemma map_u8_value_injective (l1 l2 : list U8) :
  map u8_value l1 = map u8_value l2 -> l1 = l2.
Proof.
  revert l2. induction l1 as [| [b1] l1 IH]; intros [| [b2] l2] H;
    try discriminate; [reflexivity |].
  cbn in H. injection H as -> H. f_equal. now apply IH.
Qed.

(** X4.  The hex rendering of a byte vector loses nothing: two vectors
    rendered to the same string are the same vector. *)
Theorem convertMoveVectorU8ToHex_injective (v1 v2 : MoveVector U8) :
  convertMoveVectorU8ToHex v1 = convertMoveVectorU8ToHex v2 -> v1 = v2.
Proof.
  destruct v1 as [l1], v2 as [l2]. unfold convertMoveVectorU8ToHex, with0x.
  cbn [values]. intros H. injection H as H.
  apply bytesToHex_injective, map_u8_value_injective in H. now subst.
Qed.

Lemma convertMoveVectorU8ToHex_injective_witness :
  MoveVector_U8 [x0a; xff] = MoveVector_U8 [x0a; xff].
Proof.
  apply (convertMoveVectorU8ToHex_injective
           (MoveVector_U8 [x0a; xff]) (MoveVector_U8 [x0a; xff])).
  reflexivity.
Defined.

(** X5.  The rendering of a vector of [n] bytes is [0x] followed by
    [2 n] characters, each one of [0-9a-f]; the empty vector renders as
    [0x]. *)
Theorem convertMoveVectorU8ToHex_shape (v : MoveVector U8) :
  exists digits,
    convertMoveVectorU8ToHex v = String "0" (String "x" digits)
    /\ String.length digits = 2 * length (values v)
    /\ allChars isLowerHex digits = true.
Proof.
  exists (bytesToHex (map u8_value (values v))). split; [reflexivity |].
  split.
  - now rewrite bytesToHex_length, length_map.
  - apply bytesToHex_allChars.
Qed.

(** *** The three decoders of [upgradePackage] *)

Lemma deserializeMany_U8 (n : nat) :
  forall d : Deserializer,
    deserializeMany U8_deserialize n d
    = if Nat.ltb (length d) n then Err BufferUnderrun
      else Ok (map mkU8 (firstn n d), skipn n d).
Proof.
  induction n as [| n IH]; intros d; [reflexivity |].
  cbn [deserializeMany].
  destruct d as [| b d]; [reflexivity |].
  cbn [U8_deserialize deserializeU8 bind length firstn skipn map].
  rewrite IH. change (Nat.ltb (S (length d)) (S n)) with (Nat.ltb (length d) n).
  now destruct (Nat.ltb (length d) n).
Qed.

(** X6.  The [vector<u8>] decoder reads a count [L] and then [L] bytes:
    it fails when the count cannot be read, fails with a buffer underrun
    when fewer than [L] bytes follow, and otherwise renders exactly the
    next [L] bytes, whatever comes after them. *)
Theorem decodeVectorU8_reads_counted_bytes (arg : FixedBytes) :
  decodeVectorU8 arg
  = match deserializeUleb128AsU32 (fb_value arg) with
    | Err e => Err e
    | Ok (L, d1) =>
        if Nat.ltb (length d1) (N.to_nat L) then Err BufferUnderrun
        else Ok (ArgString (with0x (bytesToHex (firstn (N.to_nat L) d1))))
    end.
Proof.
  unfold decodeVectorU8, MoveVector_deserialize.
  destruct (deserializeUleb128AsU32 (fb_value arg)) as [[L d1] | e];
    [| reflexivity].
  cbn [bind]. rewrite deserializeMany_U8.
  destruct (Nat.ltb (length d1) (N.to_nat L)); [reflexivity |].
  cbn [bind]. unfold convertMoveVectorU8ToHex. cbn [values].
  rewrite map_map. cbn [u8_value]. now rewrite map_id.
Qed.

Lemma Steady_AccountAddress_deserialize : Steady AccountAddress_deserialize.
Proof.
  constructor; unfold AccountAddress_deserialize, deserializeFixedBytes.
  - intros d x r s H.
    destruct (Nat.ltb_spec (length d) AccountAddress_LENGTH) as [Hlt | Hge];
      [discriminate |].
    cbn [bind] in H. injection H as <- <-.
    destruct (Nat.ltb_spec (length (d ++ s)) AccountAddress_LENGTH)
      as [Hlt' | _]; [rewrite length_app in Hlt'; lia |].
    cbn [bind]. rewrite firstn_app, skipn_app.
    replace (AccountAddress_LENGTH - length d) with 0 by lia.
    cbn [firstn skipn]. now rewrite app_nil_r.
  - intros d e s H He.
    destruct (Nat.ltb (length d) AccountAddress_LENGTH); [| discriminate].
    injection H as <-. now elim He.
  - intros d e H.
    destruct (Nat.ltb (length d) AccountAddress_LENGTH); [| discriminate].
    injection H as <-. now left.
Qed.

(** Each registered decoder is a steady reader followed by a rendering. *)
Lemma registered_decoder_cases (fn : string)
    (decoders : list ArgumentDecoder) (decoder : ArgumentDecoder) :
  lookup argumentDecoders fn = Some decoders ->
  In decoder decoders ->
  decoder = decodeAddress \/ decoder = decodeVectorU8
  \/ decoder = decodeVectorVectorU8.
Proof.
  cbn [lookup argumentDecoders].
  destruct (String.eqb fn "upgradePackage"); [| discriminate].
  intros H. injection H as <-.
  intros [<- | [<- | [<- | []]]]; auto.
Qed.

Lemma registered_decoder_steady (decoder : ArgumentDecoder) :
  decoder = decodeAddress \/ decoder = decodeVectorU8
  \/ decoder = decodeVectorVectorU8 ->
  (forall bs junk v,
     decoder (mkFixedBytes bs) = Ok v ->
     decoder (mkFixedBytes (bs ++ junk)) = Ok v)
  /\ (forall arg e,
        decoder arg = Err e -> e = BufferUnderrun \/ e = MalformedVarint).
Proof.
  intros [-> | [-> | ->]].
  - pose proof Steady_AccountAddress_deserialize as [Hok _ Hkind].
    unfold decodeAddress. split.
    + intros bs junk v H. cbn [fb_value] in *.
      destruct (AccountAddress_deserialize bs) as [[a r] | e] eqn:Ha;
        [| discriminate].
      now rewrite (Hok _ _ _ junk Ha).
    + intros arg e H.
      destruct (AccountAddress_deserialize (fb_value arg)) as [[a r] | e']
        eqn:Ha; [discriminate |].
      injection H as <-. eapply Hkind. exact Ha.
  - pose proof (Steady_MoveVector_deserialize _ Steady_U8_deserialize)
      as [Hok _ Hkind].
    unfold decodeVectorU8. split.
    + intros bs junk v H. cbn [fb_value] in *.
      destruct (MoveVector_deserialize U8_deserialize bs) as [[a r] | e]
        eqn:Ha; [| discriminate].
      now rewrite (Hok _ _ _ junk Ha).
    + intros arg e H.
      destruct (MoveVector_deserialize U8_deserialize (fb_value arg))
        as [[a r] | e'] eqn:Ha; [discriminate |].
      injection H as <-. eapply Hkind. exact Ha.
  - pose proof CodecFacts.Steady_TwoLevelMoveVector_deserialize
      as [Hok _ Hkind].
    unfold decodeVectorVectorU8. split.
    + intros bs junk v H. cbn [fb_value] in *.
      destruct (TwoLevelMoveVector_deserialize U8_deserialize bs)
        as [[a r] | e] eqn:Ha; [| discriminate].
      now rewrite (Hok _ _ _ junk Ha).
    + intros arg e H.
      destruct (TwoLevelMoveVector_deserialize U8_deserialize (fb_value arg))
        as [[a r] | e'] eqn:Ha; [discriminate |].
      injection H as <-. eapply Hkind. exact Ha.
Qed.

(** X7.  A registered decoder does not check that it has read its whole
    argument: bytes added after an argument it decodes leave the decoded
    value unchanged. *)
Theorem registered_decoders_ignore_trailing_bytes (fn : string)
    (decoders : list ArgumentDecoder) (decoder : ArgumentDecoder)
    (bs junk : bytes) (v : DecodedArgument) :
  lookup argumentDecoders fn = Some decoders ->
  In decoder decoders ->
  decoder (mkFixedBytes bs) = Ok v ->
  decoder (mkFixedBytes (bs ++ junk)) = Ok v.
Proof.
  intros Hl Hin.
  apply (registered_decoder_steady decoder
           (registered_decoder_cases fn decoders decoder Hl Hin)).
Qed.

Lemma registered_decoders_ignore_trailing_bytes_witness :
  decodeVectorU8 (mkFixedBytes ([x02; x0a; x0b] ++ [xee; xee; xee]))
  = Ok (ArgString "0x0a0b").
Proof.
  apply (registered_decoders_ignore_trailing_bytes "upgradePackage"
           [decodeAddress; decodeVectorU8; decodeVectorVectorU8]
           decodeVectorU8 [x02; x0a; x0b] [xee; xee; xee]
           (ArgString "0x0a0b")).
  - reflexivity.
  - right. left. reflexivity.
  - reflexivity.
Defined.

(** *** [args]: the map over the raw arguments *)

(** X8.  Whatever the function name, a decode that succeeds returns one
    value per raw argument: nothing is dropped and nothing is added. *)
Theorem decodeArguments_keeps_count (functionName : option string)
    (rawArgs : list EntryFunctionBytes) (vals : list DecodedArgument) :
  decodeArguments functionName rawArgs = Ok vals ->
  length vals = length rawArgs.
Proof.
  unfold decodeArguments.
  destruct functionName as [fn |].
  - destruct (isArgDecoderSupportedForFunction (Some fn)).
    + unfold mapi. intros H. apply DecodeFacts.mapi_from_Ok in H. tauto.
    + intros H. injection H as <-. apply length_map.
  - intros H. injection H as <-. apply length_map.
Qed.

Lemma decodeArguments_keeps_count_witness :
  length
    [ ArgString (AccountAddress_toString stablecoinPackageId);
      ArgString (with0x (bytesToHex metadata));
      ArgStrings (map (fun c => with0x (bytesToHex c)) code) ]
  = length (upgradePackageArguments stablecoinPackageId metadata code).
Proof.
  apply (decodeArguments_keeps_count (Some "upgradePackage"%string)
           (upgradePackageArguments stablecoinPackageId metadata code)).
  vm_compute. reflexivity.
Defined.

(** X9.  With a registered name, the decode fails with the error of the
    first raw argument, in order, whose decoder fails; arguments after it
    are not looked at. *)
Theorem decodeArguments_first_failure (fn : string)
    (decoders : list ArgumentDecoder) (rawArgs : list EntryFunctionBytes)
    (i : nat) (arg : EntryFunctionBytes) (decoder : ArgumentDecoder)
    (e : Error) :
  lookup argumentDecoders fn = Some decoders ->
  nth_error rawArgs i = Some arg ->
  nth_error decoders i = Some decoder ->
  decoder (efb_value arg) = Err e ->
  (forall j earlier, j < i -> nth_error rawArgs j = Some earlier ->
     exists d v, nth_error decoders j = Some d /\ d (efb_value earlier) = Ok v) ->
  decodeArguments (Some fn) rawArgs = Err e.
Proof.
  intros Hl Harg Hdec He Hbefore.
  rewrite (DecodeFacts.decodeArguments_registered fn decoders rawArgs Hl).
  unfold mapi. apply DecodeFacts.mapi_from_Err. exists i, arg. cbn [Nat.add].
  rewrite Hdec. repeat split; auto.
  intros j y Hj Hy. destruct (Hbefore j y Hj Hy) as (d & v & Hd & Hv).
  rewrite Hd. eauto.
Qed.

(** An address, then an empty argument where the byte vector should be,
    then a count that overflows: the error is the second argument's. *)
Lemma decodeArguments_first_failure_witness :
  decodeArguments (Some "upgradePackage"%string)
    [ rawArgument (data stablecoinPackageId);
      rawArgument [];
      rawArgument [xff; xff; xff; xff; x7f] ]
  = Err BufferUnderrun.
Proof.
  apply (decodeArguments_first_failure "upgradePackage"
           [decodeAddress; decodeVectorU8; decodeVectorVectorU8]
           [ rawArgument (data stablecoinPackageId);
             rawArgument [];
             rawArgument [xff; xff; xff; xff; x7f] ]
           1 (rawArgument []) decodeVectorU8 BufferUnderrun).
  - reflexivity.
  - reflexivity.
  - reflexivity.
  - reflexivity.
  - intros [| j] earlier Hj Hearlier; [| lia].
    injection Hearlier as <-.
    exists decodeAddress,
      (ArgString (AccountAddress_toString stablecoinPackageId)).
    split; [reflexivity | vm_compute; reflexivity].
Defined.

(** X10.  [args] can fail only under the name [upgradePackage], and only
    in three ways: a buffer underrun or a malformed count inside an
    argument, or the type error of a fourth or later argument, for which
    there is no decoder. *)
Theorem decodeArguments_failures (functionName : option string)
    (rawArgs : list EntryFunctionBytes) (e : Error) :
  decodeArguments functionName rawArgs = Err e ->
  functionName = Some "upgradePackage"%string
  /\ (e = BufferUnderrun \/ e = MalformedVarint
      \/ (e = NotAFunction /\ 3 < length rawArgs)).
Proof.
  intros H.
  pose proof (DecodeFacts.decodeArguments_unsupported_never_fails
                functionName rawArgs e H) as Hs.
  destruct functionName as [fn |]; [| discriminate].
  cbn in Hs. rewrite orb_false_r in Hs. apply String.eqb_eq in Hs. subst fn.
  split; [reflexivity |].
  rewrite (DecodeFacts.decodeArguments_registered "upgradePackage"
             [decodeAddress; decodeVectorU8; decodeVectorVectorU8] rawArgs
             eq_refl) in H.
  unfold mapi in H. apply DecodeFacts.mapi_from_Err in H as (k & x & Hx & Hf & _).
  cbn [Nat.add] in Hf.
  destruct (nth_error [decodeAddress; decodeVectorU8; decodeVectorVectorU8] k)
    as [decoder |] eqn:Hk.
  - apply nth_error_In in Hk.
    destruct (registered_decoder_steady decoder) as [_ Hkind].
    { destruct Hk as [<- | [<- | [<- | []]]]; auto. }
    destruct (Hkind _ _ Hf) as [-> | ->]; auto.
  - injection Hf as <-. right. right. split; [reflexivity |].
    apply nth_error_None in Hk. cbn [length] in Hk.
    assert (k < length rawArgs) by (apply nth_error_Some; congruence).
    lia.
Qed.

Lemma decodeArguments_failures_witness :
  Some "upgradePackage"%string = Some "upgradePackage"%string
  /\ (NotAFunction = BufferUnderrun \/ NotAFunction = MalformedVarint
      \/ (NotAFunction = NotAFunction
          /\ 3 < length (upgradePackageArguments stablecoinPackageId
                           metadata code ++ [rawArgument [x00]]))).
Proof.
  apply (decodeArguments_failures (Some "upgradePackage"%string)
           (upgradePackageArguments stablecoinPackageId metadata code
              ++ [rawArgument [x00]])
           NotAFunction).
  vm_compute. reflexivity.
Defined.

End DecoderFacts.

(** ** executeTransaction: what is printed, and what the requests carry *)

Module ExecuteMore.

Import Bcs Aptos Eff Execute Observations Fixture ExecuteFacts.

Section Script.

Context {sdk : Sdk} {Net : Type} {client : AptosClient Net}.

Lemma truthy_true (flag : option bool) :
  truthy flag = true -> flag = Some true.
Proof. destruct flag as [[|] |]; now intros. Qed.

Lemma prepare_Ok (txBytes publicKey : string) (multiSig : option bool)
    (tx : SimpleTransaction) (pk : PublicKey) :
  prepare txBytes publicKey multiSig = Ok (tx, pk) ->
  parseSignerPublicKey multiSig publicKey = Ok pk.
Proof.
  unfold prepare. intros H.
  apply bind_Ok in H as (d & _ & H). apply bind_Ok in H as (tx' & _ & H).
  apply bind_Ok in H as (pk' & Hpk & H). now injection H as _ <-.
Qed.

Lemma parseSignerPublicKey_matches (multiSig : option bool)
    (publicKey : string) (pk : PublicKey) :
  parseSignerPublicKey multiSig publicKey = Ok pk -> keyMatches multiSig pk.
Proof.
  unfold parseSignerPublicKey.
  destruct (truthy multiSig) eqn:Hm; intros H;
    apply bind_Ok in H as (d & _ & H); apply bind_Ok in H as (k & _ & H);
    injection H as <-; exact Hm.
Qed.

Lemma buildAuthenticator_matches (multiSig : option bool) (pk : PublicKey)
    (signature : string) (auth : AccountAuthenticator) :
  keyMatches multiSig pk ->
  buildAuthenticator multiSig pk signature = Ok auth ->
  authenticatorMatches multiSig auth.
Proof.
  unfold buildAuthenticator. intros Hk.
  destruct (truthy multiSig) eqn:Hm; intros H;
    apply bind_Ok in H as (d & _ & H); apply bind_Ok in H as (s & _ & H);
    injection H as <-; split; assumption.
Qed.

(** X11.  The value the call resolves to is printed, and last: a run that
    returns an outcome ends with the [inspect] line of that outcome and has
    printed no other; a run that fails prints no [inspect] line. *)
Theorem outcome_is_printed_last (rpcUrl txBytes publicKey : string)
    (signature : option string) (multiSig dryRun : option bool)
    (w : World Net) :
  match
    executeTransaction rpcUrl txBytes publicKey signature multiSig dryRun w
  with
  | (Ok outcome, w') =>
      exists before,
        trace w' = trace w ++ before ++ [ConsoleLogInspect outcome]
        /\ filter isInspect before = []
  | (Err _, w') =>
      exists added,
        trace w' = trace w ++ added /\ filter isInspect added = []
  end.
Proof.
  destruct (prepare txBytes publicKey multiSig) as [[tx pk] | e] eqn:Hp.
  2:{ rewrite (executeTransaction_unprepared rpcUrl txBytes publicKey
                 signature multiSig dryRun w e Hp).
      exists []. now rewrite app_nil_r. }
  destruct (truthy dryRun) eqn:Hdry.
  - apply truthy_true in Hdry. subst dryRun.
    rewrite (executeTransaction_dry_run rpcUrl txBytes publicKey signature
               multiSig w tx pk Hp).
    destruct (simulate_simple rpcUrl tx pk (network w)) as [[result | e] n];
      cbn [trace].
    + exists [ConsoleLog "Dry running transaction..."; Simulate rpcUrl tx pk].
      split; reflexivity.
    + eexists. split; reflexivity.
  - destruct signature as [s |].
    + rewrite (executeTransaction_signed rpcUrl txBytes publicKey s multiSig
                 dryRun w tx pk Hdry Hp).
      cbv zeta.
      destruct (buildAuthenticator multiSig pk s) as [auth | e]; cbn [trace].
      * destruct (submit_simple rpcUrl tx auth (network w))
          as [[out | e] n1]; cbn [trace].
        -- destruct (waitForTransaction rpcUrl (hash out) n1)
             as [[result | e] n2]; cbn [trace].
           ++ exists [ ConsoleLog "Executing transaction...";
                       Submit rpcUrl tx auth;
                       WaitForTransaction rpcUrl (hash out) ].
              rewrite <- app_assoc. split; reflexivity.
           ++ eexists. rewrite <- app_assoc. split; reflexivity.
        -- eexists. rewrite <- app_assoc. split; reflexivity.
      * eexists. split; reflexivity.
    + rewrite (executeTransaction_no_signature rpcUrl txBytes publicKey
                 multiSig dryRun w tx pk Hdry Hp).
      cbn [trace]. eexists. split; reflexivity.
Qed.

(** X12.  The casts of the script are sound: every simulate request
    carries a public key of the class the [multiSig] flag selects, and every
    submit request an authenticator of that class holding a key of that
    class; a multi-key is never paired with a single signature or the
    reverse. *)
Theorem requests_match_flag (rpcUrl txBytes publicKey : string)
    (signature : option string) (multiSig dryRun : option bool)
    (w : World Net) :
  exists added,
    trace (snd (executeTransaction rpcUrl txBytes publicKey signature
                  multiSig dryRun w))
      = trace w ++ added
    /\ Forall (requestMatches multiSig) added.
Proof.
  destruct (prepare txBytes publicKey multiSig) as [[tx pk] | e] eqn:Hp.
  2:{ rewrite (executeTransaction_unprepared rpcUrl txBytes publicKey
                 signature multiSig dryRun w e Hp).
      exists []. now rewrite app_nil_r. }
  pose proof (parseSignerPublicKey_matches multiSig publicKey pk
                (prepare_Ok _ _ _ _ _ Hp)) as Hk.
  destruct (truthy dryRun) eqn:Hdry.
  - apply truthy_true in Hdry. subst dryRun.
    rewrite (executeTransaction_dry_run rpcUrl txBytes publicKey signature
               multiSig w tx pk Hp).
    destruct (simulate_simple rpcUrl tx pk (network w)) as [[result | e] n];
      cbn [snd trace]; eexists; (split; [reflexivity |]);
      repeat constructor; exact Hk.
  - destruct signature as [s |].
    + rewrite (executeTransaction_signed rpcUrl txBytes publicKey s multiSig
                 dryRun w tx pk Hdry Hp).
      cbv zeta.
      destruct (buildAuthenticator multiSig pk s) as [auth | e] eqn:Ha;
        cbn [snd trace].
      * pose proof (buildAuthenticator_matches multiSig pk s auth Hk Ha)
          as Hauth.
        destruct (submit_simple rpcUrl tx auth (network w))
          as [[out | e] n1]; cbn [snd trace].
        -- destruct (waitForTransaction rpcUrl (hash out) n1)
             as [[result | e] n2]; cbn [snd trace];
             rewrite <- app_assoc; eexists; (split; [reflexivity |]);
             repeat constructor; exact Hauth.
        -- rewrite <- app_assoc. eexists. split; [reflexivity |].
           repeat constructor; exact Hauth.
      * eexists. split; [reflexivity |]. repeat constructor.
    + rewrite (executeTransaction_no_signature rpcUrl txBytes publicKey
                 multiSig dryRun w tx pk Hdry Hp).
      cbn [snd trace]. eexists. split; [reflexivity |]. repeat constructor.
Qed.

(** X13.  Transaction bytes that do not parse end the call at once, with
    the parser's error, whatever the public key, the signature and the two
    flags are: nothing is printed and nothing is requested, and a malformed
    key or a missing signature is not reported instead. *)
Theorem unparsable_transaction_fails_first (rpcUrl txBytes : string)
    (e : Error) :
  bind (deserializerOfHex txBytes) SimpleTransaction_deserialize = Err e ->
  forall (publicKey : string) (signature : option string)
         (multiSig dryRun : option bool) (w : World Net),
    executeTransaction rpcUrl txBytes publicKey signature multiSig dryRun w
    = (Err e, w).
Proof.
  intros H publicKey signature multiSig dryRun w.
  apply executeTransaction_unprepared. unfold prepare.
  destruct (deserializerOfHex txBytes) as [d | e1]; cbn [bind] in H |- *;
    [| congruence].
  destruct (SimpleTransaction_deserialize d) as [tx | e2]; cbn [bind];
    [discriminate | congruence].
Qed.

End Script.

(** One byte for a transaction, with a key that is no key and a dry run
    asked for. *)
Lemma unparsable_transaction_fails_first_witness :
  run "http://localhost:8080/v1" "0x00" "not a key" None None (Some true)
    quiet
  = (Err BufferUnderrun, quiet).
Proof.
  apply (@unparsable_transaction_fails_first SdkModel.sdk Net Fixture.client
           "http://localhost:8080/v1" "0x00" BufferUnderrun).
  vm_compute. reflexivity.
Defined.

End ExecuteMore.

(** ** deploy *)

Module DeployFacts.

Import Bcs Aptos Eff Deploy.

Section Script.

Context {St Rest : Type} {services : Services St Rest}.

(** A run of [deploy] once the deployer key is parsed. *)
Lemma deploy_with_key (packageName rpcUrl deployerKey seed : string)
    (namedDeps : list NamedAddress) (verifySource : option bool)
    (w : World St) (deployer : Account) :
  Account_fromPrivateKey deployerKey = Ok deployer ->
  deploy packageName rpcUrl deployerKey seed namedDeps verifySource w
  = let t0 := trace w ++ announcement deployer packageName
                ++ [AskConfirmation] in
    let request :=
      Publish rpcUrl deployer packageName namedDeps
        (list_byte_of_string seed) (truthy verifySource) in
    match waitForUserConfirmation (state w) with
    | (Err e, s1) => (Err e, mkWorld s1 t0)
    | (Ok false, s1) => (Ok (Exited 1), mkWorld s1 t0)
    | (Ok true, s1) =>
        match
          publishPackageToResourceAccount rpcUrl deployer packageName
            namedDeps (list_byte_of_string seed) (truthy verifySource) s1
        with
        | (Err e, s2) => (Err e, mkWorld s2 (t0 ++ [request]))
        | (Ok published, s2) =>
            (Ok Returned,
             mkWorld s2
               (t0 ++ [ request;
                        ConsoleLog ("Deployed package to "
                                      ++ fst published)%string ]))
        end
    end.
Proof.
  intros Hkey. unfold deploy, mbind, lift. rewrite Hkey.
  unfold emit, await, ret, announcement. cbn [state trace]. cbv zeta.
  destruct (waitForUserConfirmation (state w)) as [[[|] | e] s1];
    cbn [state trace negb]; rewrite <- ?app_assoc; cbn [app];
    [| reflexivity | reflexivity].
  destruct (publishPackageToResourceAccount rpcUrl deployer packageName
              namedDeps (list_byte_of_string seed) (truthy verifySource) s1)
    as [[published | e] s2];
    cbn [state trace]; rewrite <- ?app_assoc; reflexivity.
Qed.

Lemma deploy_without_key (packageName rpcUrl deployerKey seed : string)
    (namedDeps : list NamedAddress) (verifySource : option bool)
    (w : World St) (e : Error) :
  Account_fromPrivateKey deployerKey = Err e ->
  deploy packageName rpcUrl deployerKey seed namedDeps verifySource w
  = (Err e, w).
Proof. intros Hkey. unfold deploy, mbind, lift. now rewrite Hkey. Qed.

(** *** Lines on the console *)

Lemma hexDigit_no_line_break (n : N) : isLineBreak (hexDigit n) = false.
Proof.
  destruct n as [| p]; [reflexivity |].
  do 4 (destruct p as [p | p |]; try reflexivity).
Qed.

Lemma bytesToHex_singleLine (bs : bytes) : singleLine (bytesToHex bs) = true.
Proof.
  induction bs as [| b bs IH]; [reflexivity |].
  cbn [bytesToHex singleLine]. now rewrite !hexDigit_no_line_break, IH.
Qed.

Lemma AccountAddress_toString_singleLine (a : AccountAddress) :
  singleLine (AccountAddress_toString a) = true.
Proof.
  unfold AccountAddress_toString, with0x.
  change (singleLine (String "0" (String "x" ?s))) with (singleLine s).
  destruct (isSpecial a).
  - cbn [singleLine]. now rewrite hexDigit_no_line_break.
  - apply bytesToHex_singleLine.
Qed.

Lemma singleLine_app (s1 s2 : string) :
  singleLine (s1 ++ s2) = singleLine s1 && singleLine s2.
Proof.
  induction s1 as [| c s1 IH]; [reflexivity |].
  cbn [String.append singleLine]. rewrite IH. now rewrite andb_assoc.
Qed.

Lemma lines_singleLine (s : string) : singleLine s = true -> lines s = [s].
Proof.
  induction s as [| c s IH]; [reflexivity |].
  cbn [singleLine lines]. intros H. apply andb_true_iff in H as [Hc Hs].
  apply negb_true_iff in Hc. rewrite Hc, (IH Hs). reflexivity.
Qed.

Lemma lines_head (p s : string) :
  singleLine p = true ->
  exists l ls, lines (p ++ s) = (p ++ l)%string :: ls.
Proof.
  induction p as [| c p IH]; intros H.
  - cbn [String.append]. destruct s as [| c s]; cbn [lines].
    + now exists EmptyString, [].
    + destruct (isLineBreak c); [now exists EmptyString, (lines s) |].
      destruct (lines s) as [| l ls];
        [now exists (String c EmptyString), []
        | now exists (String c l), ls].
  - cbn [singleLine] in H. apply andb_true_iff in H as [Hc Hp].
    apply negb_true_iff in Hc.
    destruct (IH Hp) as (l & ls & Hl).
    cbn [String.append lines]. rewrite Hc, Hl. now exists l, ls.
Qed.

Lemma prefix_append (p s : string) : String.prefix p (p ++ s) = true.
Proof.
  induction p as [| c p IH]; [now destruct s |].
  cbn [String.append String.prefix].
  destruct (ascii_dec c c) as [_ | Hne]; [exact IH | now elim Hne].
Qed.

Lemma deployed_line_is_one (packageId : string) :
  isDeployedLine (ConsoleLog ("Deployed package to " ++ packageId)%string)
  = true.
Proof.
  unfold isDeployedLine.
  destruct (lines_head "Deployed package to " packageId eq_refl)
    as (l & ls & Hl).
  rewrite Hl. cbn [existsb]. now rewrite prefix_append.
Qed.

Lemma announcement_no_deployed_line (deployer : Account)
    (packageName : string) :
  singleLine packageName = true ->
  filter isDeployedLine (announcement deployer packageName) = [].
Proof.
  intros Hname. unfold announcement. cbn [filter isDeployedLine].
  rewrite (lines_singleLine
             ("Deployer account: "
                ++ AccountAddress_toString (accountAddress deployer))).
  2:{ rewrite singleLine_app, AccountAddress_toString_singleLine.
      reflexivity. }
  rewrite (lines_singleLine ("Publishing package " ++ packageName ++ "...")).
  2:{ rewrite !singleLine_app, Hname. reflexivity. }
  reflexivity.
Qed.

(** X14.  Nothing is published without the user's consent.  Among the
    events of a run, the question and the publish request are: none when
    the deployer key does not parse; the question alone when the user
    declines or the prompt fails; the question and then one publish request
    when the user confirms.  That request carries the package name and
    named addresses as given, the bytes of the seed string, and the
    [verifySource] flag as a boolean, unset counting as false. *)
Theorem publish_needs_consent (packageName rpcUrl deployerKey seed : string)
    (namedDeps : list NamedAddress) (verifySource : option bool)
    (w : World St) :
  exists added,
    trace (snd (deploy packageName rpcUrl deployerKey seed namedDeps
                  verifySource w))
      = trace w ++ added
    /\ filter (fun e => isAsk e || isPublish e) added
       = match Account_fromPrivateKey deployerKey with
         | Err _ => []
         | Ok deployer =>
             match fst (waitForUserConfirmation (state w)) with
             | Ok true =>
                 [ AskConfirmation;
                   Publish rpcUrl deployer packageName namedDeps
                     (list_byte_of_string seed)
                     (match verifySource with
                      | Some true => true
                      | _ => false
                      end) ]
             | _ => [AskConfirmation]
             end
         end.
Proof.
  destruct (Account_fromPrivateKey deployerKey) as [deployer | e] eqn:Hkey.
  2:{ rewrite (deploy_without_key _ _ _ _ _ _ _ _ Hkey).
      exists []. now rewrite app_nil_r. }
  rewrite (deploy_with_key _ _ _ _ _ _ _ _ Hkey). cbv zeta.
  destruct (waitForUserConfirmation (state w)) as [[[|] | e] s1];
    cbn [fst].
  - destruct (publishPackageToResourceAccount rpcUrl deployer packageName
                namedDeps (list_byte_of_string seed) (truthy verifySource)
                s1) as [[published | e] s2];
      cbn [snd trace]; rewrite <- !app_assoc; eexists;
      (split; [reflexivity |]); reflexivity.
  - cbn [snd trace]. eexists. split; reflexivity.
  - cbn [snd trace]. eexists. split; reflexivity.
Qed.

(** X15.  When the user declines, the process exits with status 1: the run
    has printed the two announcement lines and asked, and does nothing
    more. *)
Theorem declined_deploy_exits (packageName rpcUrl deployerKey seed : string)
    (namedDeps : list NamedAddress) (verifySource : option bool)
    (w : World St) (deployer : Account) (s1 : St) :
  Account_fromPrivateKey deployerKey = Ok deployer ->
  waitForUserConfirmation (state w) = (Ok false, s1) ->
  deploy packageName rpcUrl deployerKey seed namedDeps verifySource w
  = (Ok (Exited 1),
     mkWorld s1
       (trace w ++ announcement deployer packageName ++ [AskConfirmation])).
Proof.
  intros Hkey Hno. rewrite (deploy_with_key _ _ _ _ _ _ _ _ Hkey).
  cbv zeta. now rewrite Hno.
Qed.

(** X16.  For a package name without a line break, the line
    [Deployed package to <id>] is put on the console exactly when the call
    returns, as its last line and with the package id the publish helper
    resolved to; a run that throws or exits puts no line on the console
    that starts so. *)
Theorem deployed_line_means_published
    (packageName rpcUrl deployerKey seed : string)
    (namedDeps : list NamedAddress) (verifySource : option bool)
    (w : World St) :
  singleLine packageName = true ->
  match
    deploy packageName rpcUrl deployerKey seed namedDeps verifySource w
  with
  | (Ok Returned, w') =>
      exists deployer s1 published before,
        Account_fromPrivateKey deployerKey = Ok deployer
        /\ waitForUserConfirmation (state w) = (Ok true, s1)
        /\ publishPackageToResourceAccount rpcUrl deployer packageName
             namedDeps (list_byte_of_string seed) (truthy verifySource) s1
           = (Ok published, state w')
        /\ trace w'
           = trace w ++ before
               ++ [ConsoleLog ("Deployed package to " ++ fst published)%string]
        /\ filter isDeployedLine before = []
        /\ isDeployedLine
             (ConsoleLog ("Deployed package to " ++ fst published)%string)
           = true
  | (_, w') =>
      exists added,
        trace w' = trace w ++ added /\ filter isDeployedLine added = []
  end.
Proof.
  intros Hname.
  destruct (Account_fromPrivateKey deployerKey) as [deployer | e] eqn:Hkey.
  2:{ rewrite (deploy_without_key _ _ _ _ _ _ _ _ Hkey).
      exists []. now rewrite app_nil_r. }
  rewrite (deploy_with_key _ _ _ _ _ _ _ _ Hkey). cbv zeta.
  pose proof (announcement_no_deployed_line deployer packageName Hname)
    as Hquiet.
  destruct (waitForUserConfirmation (state w)) as [[[|] | e] s1] eqn:Hask.
  - destruct (publishPackageToResourceAccount rpcUrl deployer packageName
                namedDeps (list_byte_of_string seed) (truthy verifySource)
                s1) as [[published | e] s2] eqn:Hpub.
    + exists deployer, s1, published.
      exists (announcement deployer packageName
                ++ [ AskConfirmation;
                     Publish rpcUrl deployer packageName namedDeps
                       (list_byte_of_string seed) (truthy verifySource) ]).
      cbn [state trace].
      split; [reflexivity |]. split; [reflexivity |]. split; [exact Hpub |].
      split; [now rewrite <- !app_assoc |].
      split; [rewrite filter_app, Hquiet; reflexivity |].
      apply deployed_line_is_one.
    + cbn [trace]. rewrite <- !app_assoc. eexists.
      split; [reflexivity |]. rewrite filter_app, Hquiet. reflexivity.
  - cbn [trace]. eexists. split; [reflexivity |].
    rewrite filter_app, Hquiet. reflexivity.
  - cbn [trace]. eexists. split; [reflexivity |].
    rewrite filter_app, Hquiet. reflexivity.
Qed.

End Script.

Lemma declined_deploy_exits_witness :
  deploy (services := DeployFixture.services) "aptos_extensions"
    "http://localhost:8080/v1"
    "0x4f2c8e1a7b3d5690c1e4a7f208b6d3950a1c2e3f4b5d6e7f8091a2b3c4d5e6f7"
    "my seed" DeployFixture.namedDeps (Some true) (mkWorld false [])
  = (Ok (Exited 1),
     mkWorld false
       [ ConsoleLog
           "Deployer account: 0x11181f262d343b424950575e656c737a81888f969da4abb2b9c0c7ced5dce3ea";
         ConsoleLog "Publishing package aptos_extensions...";
         AskConfirmation ]).
Proof.
  apply (@declined_deploy_exits bool unit DeployFixture.services
           "aptos_extensions" "http://localhost:8080/v1"
           DeployFixture.deployerKey "my seed"
           DeployFixture.namedDeps (Some true) (mkWorld false [])
           DeployFixture.deployerAccount false).
  - vm_compute. reflexivity.
  - reflexivity.
Defined.

Lemma deployed_line_means_published_witness :
  singleLine "aptos_extensions" = true
  /\ exists deployer s1 published before,
       Account_fromPrivateKey (Services := DeployFixture.services)
         DeployFixture.deployerKey = Ok deployer
       /\ waitForUserConfirmation (Services := DeployFixture.services) true
          = (Ok true, s1)
       /\ publishPackageToResourceAccount
            (Services := DeployFixture.services) "http://localhost:8080/v1"
            deployer "aptos_extensions" DeployFixture.namedDeps
            (list_byte_of_string "my seed") false s1
          = (Ok published, true)
       /\ trace
            (snd (deploy (services := DeployFixture.services)
                    "aptos_extensions" "http://localhost:8080/v1"
                    DeployFixture.deployerKey "my seed"
                    DeployFixture.namedDeps None (mkWorld true [])))
          = ([] ++ before
               ++ [ConsoleLog
                     ("Deployed package to " ++ fst published)%string])%list
       /\ filter isDeployedLine before = []
       /\ isDeployedLine
            (ConsoleLog ("Deployed package to " ++ fst published)%string)
          = true.
Proof.
  split; [reflexivity |].
  exact (@deployed_line_means_published bool unit DeployFixture.services
           "aptos_extensions" "http://localhost:8080/v1"
           DeployFixture.deployerKey "my seed" DeployFixture.namedDeps None
           (mkWorld true []) eq_refl).
Defined.

(** A confirmed run on the fixture. *)
Example confirmed_deploy :
  deploy (services := DeployFixture.services) "aptos_extensions"
    "http://localhost:8080/v1" DeployFixture.deployerKey "my seed"
    DeployFixture.namedDeps None (mkWorld true [])
  = (Ok Returned,
     mkWorld true
       (announcement DeployFixture.deployerAccount "aptos_extensions"
          ++ [ AskConfirmation;
               Publish "http://localhost:8080/v1"
                 DeployFixture.deployerAccount "aptos_extensions"
                 DeployFixture.namedDeps
                 (list_byte_of_string "my seed") false;
               ConsoleLog "Deployed package to 0xabc" ])).
Proof. vm_compute. reflexivity. Qed.

(** A key that is not 32 bytes long is refused before anything is
    printed. *)
Example short_key_is_refused :
  deploy (services := DeployFixture.services) "aptos_extensions"
    "http://localhost:8080/v1" "0x01" "my seed" DeployFixture.namedDeps
    None (mkWorld true [])
  = (Err (SdkError 20), mkWorld true []).
Proof. vm_compute. reflexivity. Qed.

(** With a line break in the package name, a declined run puts a line
    [Deployed package to ...] on the console. *)
Example declined_deploy_with_line_break :
  let packageName :=
    ("x" ++ String (ascii_of_nat 10) "Deployed package to 0xdead")%string in
  singleLine packageName = false
  /\ fst (deploy (services := DeployFixture.services) packageName
            "http://localhost:8080/v1" DeployFixture.deployerKey "my seed"
            DeployFixture.namedDeps None (mkWorld false []))
     = Ok (Exited 1)
  /\ filter isDeployedLine
       (trace (snd (deploy (services := DeployFixture.services) packageName
                      "http://localhost:8080/v1" DeployFixture.deployerKey
                      "my seed" DeployFixture.namedDeps None
                      (mkWorld false []))))
     = [ConsoleLog ("Publishing package " ++ packageName ++ "...")%string].
Proof. cbv zeta. split; [| split]; vm_compute; reflexivity. Qed.

End DeployFacts.

(** ** Runs in sequence, and the reports read backwards *)

Module SequenceFacts.

Import Bcs Aptos Eff Laws Observations Fixture.

(** *** decodeTransaction *)

Section DecodeRuns.

Import Decode.

(** X18.  The hex passthrough loses nothing: when no decoder list
    applies, two argument lists with the same report are the same list, byte
    for byte. *)
Theorem passthrough_is_injective (functionName : option string)
    (rawArgs1 rawArgs2 : list EntryFunctionBytes) :
  isArgDecoderSupportedForFunction functionName = false ->
  decodeArguments functionName rawArgs1
    = decodeArguments functionName rawArgs2 ->
  rawArgs1 = rawArgs2.
Proof.
  intros Hs.
  rewrite (DecodeFacts.decodeArguments_unsupported functionName rawArgs1 Hs).
  rewrite (DecodeFacts.decodeArguments_unsupported functionName rawArgs2 Hs).
  intros H. injection H as H. revert rawArgs2 H.
  induction rawArgs1 as [| a1 l1 IH]; intros [| a2 l2] H;
    try discriminate; [reflexivity |].
  cbn [map] in H.
  assert (Ha : rawHex a1 = rawHex a2) by congruence.
  assert (Hl : map rawHex l1 = map rawHex l2) by congruence.
  f_equal; [| now apply IH].
  destruct a1 as [[b1]], a2 as [[b2]].
  unfold rawHex, Hex_toString, EntryFunctionBytes_bcsToHex, with0x in Ha.
  cbn in Ha. injection Ha as Ha.
  apply DecoderFacts.bytesToHex_injective in Ha. now subst.
Qed.

End DecodeRuns.

Lemma passthrough_is_injective_witness :
  [rawArgument [x01; x02]; rawArgument []]
  = [rawArgument [x01; x02]; rawArgument []].
Proof.
  apply (passthrough_is_injective (Some "mint"%string)
           [rawArgument [x01; x02]; rawArgument []]
           [rawArgument [x01; x02]; rawArgument []]).
  - reflexivity.
  - reflexivity.
Defined.

(** *** executeTransaction *)

Section ExecuteRuns.

Import Execute ExecuteFacts.

Context {sdk : Sdk} {Net : Type} {client : AptosClient Net}.

Lemma signed_run_submits_once (rpcUrl txBytes publicKey s : string)
    (multiSig dryRun : option bool) (tx : SimpleTransaction)
    (pk : PublicKey) (auth : AccountAuthenticator) (w : World Net) :
  truthy dryRun = false ->
  prepare txBytes publicKey multiSig = Ok (tx, pk) ->
  buildAuthenticator multiSig pk s = Ok auth ->
  filter isSubmit
    (trace (snd (executeTransaction rpcUrl txBytes publicKey (Some s)
                   multiSig dryRun w)))
  = (filter isSubmit (trace w) ++ [Submit rpcUrl tx auth])%list.
Proof.
  intros Hdry Hp Ha.
  rewrite (executeTransaction_signed rpcUrl txBytes publicKey s multiSig
             dryRun w tx pk Hdry Hp).
  cbv zeta. rewrite Ha.
  destruct (submit_simple rpcUrl tx auth (network w)) as [[out | e] n1].
  - destruct (waitForTransaction rpcUrl (hash out) n1) as [[result | e] n2];
      cbn [snd trace]; rewrite !filter_app; cbn; now rewrite app_nil_r.
  - cbn [snd trace]. rewrite !filter_app. cbn. now rewrite app_nil_r.
Qed.

(** X20.  Submissions are neither remembered nor merged: the same signed
    call made twice submits the same transaction twice, whatever the
    network answered the first time. *)
Theorem resubmission_is_not_suppressed (rpcUrl txBytes publicKey s : string)
    (multiSig dryRun : option bool) (tx : SimpleTransaction)
    (pk : PublicKey) (auth : AccountAuthenticator) (w : World Net) :
  truthy dryRun = false ->
  prepare txBytes publicKey multiSig = Ok (tx, pk) ->
  buildAuthenticator multiSig pk s = Ok auth ->
  let w1 := snd (executeTransaction rpcUrl txBytes publicKey (Some s)
                   multiSig dryRun w) in
  let w2 := snd (executeTransaction rpcUrl txBytes publicKey (Some s)
                   multiSig dryRun w1) in
  filter isSubmit (trace w2)
  = (filter isSubmit (trace w)
       ++ [Submit rpcUrl tx auth; Submit rpcUrl tx auth])%list.
Proof.
  intros Hdry Hp Ha w1 w2. subst w1 w2.
  rewrite !(signed_run_submits_once rpcUrl txBytes publicKey s multiSig
              dryRun tx pk auth _ Hdry Hp Ha).
  now rewrite <- app_assoc.
Qed.

End ExecuteRuns.

Lemma resubmission_is_not_suppressed_witness :
  let w1 := snd (run "http://localhost:8080/v1" upgradeTxBytes singleKeyHex
                   (Some singleSigHex) None (Some false) quiet) in
  let w2 := snd (run "http://localhost:8080/v1" upgradeTxBytes singleKeyHex
                   (Some singleSigHex) None (Some false) w1) in
  filter Execute.isSubmit (Execute.trace w2)
  = (filter Execute.isSubmit (Execute.trace quiet)
       ++ [ Execute.Submit "http://localhost:8080/v1" upgradeTransaction
              (AccountAuthenticatorEd25519
                 (PublicKeyEd25519 (mkEd25519PublicKey ed25519Key))
                 (mkEd25519Signature ed25519Sig));
            Execute.Submit "http://localhost:8080/v1" upgradeTransaction
              (AccountAuthenticatorEd25519
                 (PublicKeyEd25519 (mkEd25519PublicKey ed25519Key))
                 (mkEd25519Signature ed25519Sig)) ])%list.
Proof.
  apply (@resubmission_is_not_suppressed SdkModel.sdk Net Fixture.client
           "http://localhost:8080/v1" upgradeTxBytes singleKeyHex singleSigHex
           None (Some false) upgradeTransaction
           (PublicKeyEd25519 (mkEd25519PublicKey ed25519Key))
           (AccountAuthenticatorEd25519
              (PublicKeyEd25519 (mkEd25519PublicKey ed25519Key))
              (mkEd25519Signature ed25519Sig))
           quiet).
  - reflexivity.
  - vm_compute. reflexivity.
  - vm_compute. reflexivity.
Defined.

End SequenceFacts.

(** ** The report of a [vector<vector<u8>>] argument *)

Module NestedReport.

Import Bcs Aptos Laws Observations Decode Fixture BcsFacts ReaderFacts.

Lemma rendered_lengths (l : list (MoveVector U8)) :
  list_sum (map String.length (map convertMoveVectorU8ToHex l))
  = 2 * list_sum (map (fun inner => 1 + length (values inner)) l).
Proof.
  induction l as [| v l IH]; [reflexivity |].
  cbn [map].
  change (list_sum (?a :: ?r)) with (a + list_sum r).
  rewrite IH. unfold convertMoveVectorU8ToHex, with0x.
  cbn [String.length].
  rewrite DecoderFacts.bytesToHex_length, length_map. lia.
Qed.

(** X21.  Whatever the bytes of the argument, when the
    [vector<vector<u8>>] decoder succeeds it returns an array of strings,
    as many as the count at the head of the argument; every string is [0x]
    followed by an even number of characters of [0-9a-f]; and all strings
    together have fewer than twice as many characters as the argument has
    bytes. *)
Theorem decodeVectorVectorU8_report (arg : FixedBytes)
    (v : DecodedArgument) :
  decodeVectorVectorU8 arg = Ok v ->
  exists strings L d1,
    v = ArgStrings strings
    /\ deserializeUleb128AsU32 (fb_value arg) = Ok (L, d1)
    /\ length strings = N.to_nat L
    /\ Forall (fun s =>
                 exists digits,
                   s = String "0" (String "x" digits)
                   /\ allChars isLowerHex digits = true
                   /\ Nat.Even (String.length digits)) strings
    /\ list_sum (map String.length strings) < 2 * length (fb_value arg).
Proof.
  unfold decodeVectorVectorU8. intros H.
  destruct (TwoLevelMoveVector_deserialize U8_deserialize (fb_value arg))
    as [[vec r] | e] eqn:Hdec; [| discriminate].
  cbn [bind] in H. injection H as <-.
  rewrite DecodeFacts.TwoLevelMoveVector_deserialize_unfold in Hdec.
  destruct (deserializeUleb128AsU32 (fb_value arg)) as [[L d1] | e] eqn:HL.
  2:{ unfold MoveVector_deserialize in Hdec. rewrite HL in Hdec.
      discriminate Hdec. }
  exists (map convertMoveVectorU8ToHex (values vec)), L, d1.
  split; [reflexivity |]. split; [reflexivity |]. split.
  { rewrite length_map.
    eapply MoveVector_deserialize_length; [exact HL | exact Hdec]. }
  split.
  { apply Forall_map, Forall_forall. intros inner _.
    exists (bytesToHex (map u8_value (values inner))).
    split; [reflexivity |].
    split; [apply DecoderFacts.bytesToHex_allChars |].
    rewrite DecoderFacts.bytesToHex_length. now eexists. }
  destruct (Charges_MoveVector_deserialize _ _
              (Charges_MoveVector_deserialize _ _ Charges_U8_deserialize)
              _ _ _ Hdec) as (c & Hc & Hw).
  rewrite rendered_lengths, Hc, length_app.
  unfold weightVector in Hw.
  erewrite map_ext in Hw.
  2:{ intros inner. cbn beta.
      rewrite CodecFacts.list_sum_weightU8. reflexivity. }
  lia.
Qed.

Lemma decodeVectorVectorU8_report_witness :
  exists strings L d1,
    ArgStrings ["0x07"%string; "0x"%string] = ArgStrings strings
    /\ deserializeUleb128AsU32 [x02; x01; x07; x00] = Ok (L, d1)
    /\ length strings = N.to_nat L
    /\ Forall (fun s =>
                 exists digits,
                   s = String "0" (String "x" digits)
                   /\ allChars isLowerHex digits = true
                   /\ Nat.Even (String.length digits)) strings
    /\ list_sum (map String.length strings) < 2 * length [x02; x01; x07; x00].
Proof.
  apply (decodeVectorVectorU8_report (mkFixedBytes [x02; x01; x07; x00])
           (ArgStrings ["0x07"%string; "0x"%string])).
  reflexivity.
Defined.

End NestedReport.
